(** * BGP MUP SAFI codec ([pkg/packet/bgp/mup.go]): a shallow embedding

    The Go code of [mup.go] is transcribed function by function.  Octets are
    [byte]s ([uint8] and [byte] are one type in Go), wider unsigned integers
    are [Z] with the truncations written out, Go's [int] is [Z] (every index
    computed here is below 2^9, far from wrapping).  A Go slice that is read
    is a [slice]: its visible elements together with the elements of the
    backing array that lie between its length and its capacity, so that
    [s[lo:hi]] may legally reach past [len(s)] exactly as in Go.  A run-time
    panic (index or slice bounds out of range, nil dereference) is the
    outcome [Panic]; an [error] return is [Err]. *)

From Stdlib Require Import ZArith String Ascii List Lia Bool.
From Stdlib Require Import DecimalString DecimalZ DecimalPos.
From Stdlib.Strings Require Import Byte.
Import ListNotations.
Open Scope Z_scope.

(** ** Outcomes of a Go call *)

(** Modelled from the spec: [NewMessageError] and the two constants
    [BGP_ERROR_UPDATE_MESSAGE_ERROR], [BGP_ERROR_SUB_MALFORMED_ATTRIBUTE_LIST]
    are declared outside [mup.go].  Every error built in [mup.go] carries that
    one code pair and a [nil] data field; the spec names it MalformedAttribute
    and says it carries a human-readable detail string. *)
Inductive MessageError : Type :=
| MalformedAttribute (detail : string).

Inductive result (A : Type) : Type :=
| Ok (a : A)
| Err (e : MessageError)
| Panic.
Arguments Ok {A} a.
Arguments Err {A} e.
Arguments Panic {A}.

Definition rbind {A B} (m : result A) (k : A -> result B) : result B :=
  match m with
  | Ok a => k a
  | Err e => Err e
  | Panic => Panic
  end.

Declare Scope go_scope.
Delimit Scope go_scope with go.
Notation "x <- m ;; k" := (rbind m (fun x => k))
  (at level 61, m at next level, right associativity) : go_scope.

(** ** Octets *)

Definition u8 (b : byte) : Z := Z.of_N (Byte.to_N b).

(** Go's conversion [byte(v)] / [uint8(v)] of an integer: the low 8 bits. *)
Definition byte_of_Z (v : Z) : byte :=
  match Byte.of_N (Z.to_N (v mod 256)) with
  | Some b => b
  | None => x00
  end.

Definition byte_eqb (a b : byte) : bool := Byte.eqb a b.

Arguments u8 : simpl never.
Arguments byte_of_Z : simpl never.

(** ** Slices that are read *)

Record slice : Type := mkSlice {
  elems : list byte;   (* s[0], ..., s[len(s)-1] *)
  spare : list byte    (* the backing array from len(s) up to cap(s) *)
}.

Definition fresh (bs : list byte) : slice := mkSlice bs [].

Definition len (s : slice) : Z := Z.of_nat (length (elems s)).
Definition cap (s : slice) : Z := Z.of_nat (length (elems s ++ spare s)).

(** [s[i]]: checked against the length. *)
Definition index (s : slice) (i : Z) : result byte :=
  if (0 <=? i) && (i <? len s) then
    match nth_error (elems s) (Z.to_nat i) with
    | Some b => Ok b
    | None => Panic
    end
  else Panic.

(** [s[lo:hi]]: checked against the capacity. *)
Definition reslice (s : slice) (lo hi : Z) : result slice :=
  if (0 <=? lo) && (lo <=? hi) && (hi <=? cap s) then
    let backing := elems s ++ spare s in
    Ok (mkSlice (firstn (Z.to_nat (hi - lo)) (skipn (Z.to_nat lo) backing))
                (skipn (Z.to_nat hi) backing))
  else Panic.

(** The octets [l[lo]], ..., [l[hi-1]] of a backing array. *)
Definition sub (l : list byte) (lo hi : Z) : list byte :=
  firstn (Z.to_nat (hi - lo)) (skipn (Z.to_nat lo) l).

(** The backing array of a slice from its first element on. *)
Definition backing (s : slice) : list byte := elems s ++ spare s.

(** The unsigned integer an octet string denotes, most significant first. *)
Definition be_value (l : list byte) : Z :=
  fold_left (fun acc b => 256 * acc + u8 b) l 0.

(** [s[lo:]] is [s[lo:len(s)]] and [s[:hi]] is [s[0:hi]]. *)
Definition reslice_from (s : slice) (lo : Z) : result slice := reslice s lo (len s).
Definition reslice_to (s : slice) (hi : Z) : result slice := reslice s 0 hi.

(** ** Buffers that are written *)

(** [make([]byte, n)] *)
Definition make (n : nat) : list byte := repeat x00 n.

(** [buf[i] = x] *)
Definition store (buf : list byte) (i : Z) (x : byte) : result (list byte) :=
  if (0 <=? i) && (i <? Z.of_nat (length buf)) then
    Ok (firstn (Z.to_nat i) buf ++ x :: skipn (Z.to_nat (i + 1)) buf)
  else Panic.

(** ** encoding/binary, big endian *)

Module binary.

(** [binary.BigEndian.Uint16(b)]: [_ = b[1]] first, then
    [uint16(b[1]) | uint16(b[0])<<8]. *)
Definition Uint16 (b : slice) : result Z :=
  (_ <- index b 1 ;;
   b1 <- index b 1 ;;
   b0 <- index b 0 ;;
   Ok (Z.lor (u8 b1) (Z.shiftl (u8 b0) 8)))%go.

(** [binary.BigEndian.Uint32(b)]: [_ = b[3]] first, then
    [uint32(b[3]) | uint32(b[2])<<8 | uint32(b[1])<<16 | uint32(b[0])<<24]. *)
Definition Uint32 (b : slice) : result Z :=
  (_ <- index b 3 ;;
   b3 <- index b 3 ;;
   b2 <- index b 2 ;;
   b1 <- index b 1 ;;
   b0 <- index b 0 ;;
   Ok (Z.lor (Z.lor (Z.lor (u8 b3) (Z.shiftl (u8 b2) 8))
                    (Z.shiftl (u8 b1) 16))
             (Z.shiftl (u8 b0) 24)))%go.

(** [binary.BigEndian.PutUint16(buf[lo:hi], v)]: the sub-slice shares the
    buffer, so the two octets land in [buf[lo]] and [buf[lo+1]]. *)
Definition PutUint16 (buf : list byte) (lo hi : Z) (v : Z) : result (list byte) :=
  if (0 <=? lo) && (lo <=? hi) && (hi <=? Z.of_nat (length buf)) && (1 <? hi - lo) then
    (buf <- store buf lo (byte_of_Z (Z.shiftr v 8)) ;;
     store buf (lo + 1) (byte_of_Z v))%go
  else Panic.

(** [binary.BigEndian.PutUint32(buf[lo:hi], v)] *)
Definition PutUint32 (buf : list byte) (lo hi : Z) (v : Z) : result (list byte) :=
  if (0 <=? lo) && (lo <=? hi) && (hi <=? Z.of_nat (length buf)) && (3 <? hi - lo) then
    (buf <- store buf lo (byte_of_Z (Z.shiftr v 24)) ;;
     buf <- store buf (lo + 1) (byte_of_Z (Z.shiftr v 16)) ;;
     buf <- store buf (lo + 2) (byte_of_Z (Z.shiftr v 8)) ;;
     store buf (lo + 3) (byte_of_Z v))%go
  else Panic.

End binary.

(** ** fmt verbs used by [mup.go] *)

Module fmt.

(** [%d] of an integer. *)
Definition d (v : Z) : string := NilZero.string_of_int (Z.to_int v).

Definition hexdigit (n : Z) : ascii :=
  if n <? 10 then ascii_of_N (Z.to_N (48 + n)) else ascii_of_N (Z.to_N (87 + n)).

(** [%x] of a byte slice: two lower-case hexadecimal digits per octet. *)
Fixpoint x (bs : list byte) : string :=
  match bs with
  | [] => EmptyString
  | b :: bs' => String (hexdigit (u8 b / 16)) (String (hexdigit (u8 b mod 16)) (x bs'))
  end.

(** [%s] of a byte slice: the octets as they are. *)
Definition s (bs : list byte) : string := string_of_list_byte bs.

Fixpoint d_join (bs : list byte) : string :=
  match bs with
  | [] => EmptyString
  | [b] => d (u8 b)
  | b :: bs' => (d (u8 b) ++ " " ++ d_join bs')%string
  end.

(** [%d] of a byte slice: [[1 2 3]]. *)
Definition ds (bs : list byte) : string := ("[" ++ d_join bs ++ "]")%string.

End fmt.

(** ** net/netip, as far as [mup.go] uses it *)

Module netip.

(** An [Addr] is the zero value, an IPv4 address or an IPv6 address with an
    optional zone (the empty string is "no zone").  The octets are kept as
    the list [AsSlice] returns: 4 for IPv4, 16 for IPv6 in every address that
    [AddrFromSlice] makes. *)
Inductive Addr : Type :=
| Zero
| V4 (octets : list byte)
| V6 (octets : list byte) (zone : string).

(** [AddrFromSlice]: 4 octets give an IPv4 address, 16 octets an IPv6
    address without zone, any other length gives [(Addr{}, false)]. *)
Definition AddrFromSlice (s : slice) : Addr * bool :=
  match length (elems s) with
  | 4%nat => (V4 (elems s), true)
  | 16%nat => (V6 (elems s) EmptyString, true)
  | _ => (Zero, false)
  end.

Definition AsSlice (a : Addr) : list byte :=
  match a with
  | Zero => []
  | V4 o => o
  | V6 o _ => o
  end.

Definition BitLen (a : Addr) : Z :=
  match a with
  | Zero => 0
  | V4 _ => 32
  | V6 _ _ => 128
  end.

Definition Is6 (a : Addr) : bool :=
  match a with
  | V6 _ _ => true
  | _ => false
  end.

Definition isZero (a : Addr) : bool :=
  match a with
  | Zero => true
  | _ => false
  end.

Definition withoutZone (a : Addr) : Addr :=
  match a with
  | V6 o _ => V6 o EmptyString
  | _ => a
  end.

(** A [Prefix] is an address and a bit count; [Bits()] is [-1] for an
    invalid prefix. *)
Record Prefix : Type := mkPrefix {
  Addr_ : Addr;   (* Prefix.Addr() *)
  Bits : Z        (* Prefix.Bits() *)
}.

(** [PrefixFrom(ip, bits)]: never fails; the prefix is invalid (Bits() = -1)
    when [ip] is the zero address or [bits] is outside [0, ip.BitLen()]. *)
Definition PrefixFrom (ip : Addr) (bits : Z) : Prefix :=
  if negb (isZero ip) && (0 <=? bits) && (bits <=? BitLen ip)
  then mkPrefix (withoutZone ip) bits
  else mkPrefix (withoutZone ip) (-1).

Definition Prefix_valid (p : Prefix) : Prop :=
  match Addr_ p with
  | Zero => False
  | V4 o => length o = 4%nat /\ 0 <= Bits p <= 32
  | V6 o z => length o = 16%nat /\ z = EmptyString /\ 0 <= Bits p <= 128
  end.

End netip.

(** ** Declarations of package [bgp] that [mup.go] uses but does not make *)

(** The constants of [bgp.go] that [mup.go] names, taken as parameters. *)
Class Constants : Type := {
  EC_TYPE_MUP : byte;                  (* ExtendedCommunityAttrType, a uint8 *)
  EC_SUBTYPE_MUP_DIRECT_SEG : byte;    (* ExtendedCommunityAttrSubType, a uint8 *)
  AFI_IP : Z;
  AFI_IP6 : Z
}.

(** The route distinguisher, taken as a parameter: [mup.go] calls the factory
    [GetRouteDistinguisher] and the methods [Len] and [Serialize] of the value
    it returns.  The factory has no error result, so it is a function. *)
Class RouteDistinguisherInterface : Type := {
  RD : Type;
  GetRouteDistinguisher : slice -> RD;
  RD_Len : RD -> Z;
  RD_Serialize : RD -> result (list byte)
}.

(** Modelled from the spec: the length every route distinguisher reports.
    The [Len] method is not in [mup.go]; the spec says every known form is 8
    octets, and the comments of the [Len] methods of [mup.go] count "RD(8)". *)
Class RouteDistinguisherLen8 (I : RouteDistinguisherInterface) : Prop :=
  RD_Len_8 : forall rd : RD, RD_Len rd = 8.

(** Modelled from the spec: the codec of the route-distinguisher
    collaborator, which is not in [mup.go].  The spec calls it an opaque
    8-octet identifier with its own decode and encode and asks for lossless
    (de)serialization: [Serialize] gives 8 octets, the factory reads the
    leading 8 octets, and each undoes the other. *)
Class RouteDistinguisherCodec (I : RouteDistinguisherInterface) : Prop := {
  RD_Serialize_8 : forall rd : RD,
      exists bs, RD_Serialize rd = Ok bs /\ length bs = 8%nat;
  RD_Serialize_Get : forall s : slice,
      (8 <= length (elems s))%nat ->
      RD_Serialize (GetRouteDistinguisher s) = Ok (firstn 8 (elems s));
  RD_Get_Serialize : forall (rd : RD) (bs : list byte) (s : slice),
      RD_Serialize rd = Ok bs -> firstn 8 (elems s) = bs ->
      GetRouteDistinguisher s = rd
}.

(** Modelled from the spec: one collaborator that meets the contract, the
    opaque 8-octet identifier itself.  Where fewer than 8 octets are there the
    missing ones read as zero; no statement below depends on that. *)
Module RD8.

Record t : Type := mk { o0 : byte; o1 : byte; o2 : byte; o3 : byte;
                        o4 : byte; o5 : byte; o6 : byte; o7 : byte }.

Definition octets (rd : t) : list byte :=
  [o0 rd; o1 rd; o2 rd; o3 rd; o4 rd; o5 rd; o6 rd; o7 rd].

Definition get (s : slice) : t :=
  let at_ (i : nat) := nth i (elems s) x00 in
  mk (at_ 0%nat) (at_ 1%nat) (at_ 2%nat) (at_ 3%nat)
     (at_ 4%nat) (at_ 5%nat) (at_ 6%nat) (at_ 7%nat).

#[global] Instance rdi : RouteDistinguisherInterface := {|
  RD := t;
  GetRouteDistinguisher := get;
  RD_Len := fun _ => 8;
  RD_Serialize := fun rd => Ok (octets rd)
|}.

End RD8.

(** One choice of the constants, for worked examples: the extended-community
    tags 0x0c and 0x00 and the address families 1 and 2. *)
#[global] Instance consts : Constants := {|
  EC_TYPE_MUP := x0c;
  EC_SUBTYPE_MUP_DIRECT_SEG := x00;
  AFI_IP := 1;
  AFI_IP6 := 2
|}.

(** ** Methods with a pointer receiver: state passing *)

(** A method that mutates its receiver and returns an [error] is a function
    from the receiver's state to its new state and the outcome: [Ok tt] for a
    [nil] error.  The state after a failure is the partially updated one. *)
Definition M (S A : Type) : Type := S -> S * result A.

Definition mret {S A} (a : A) : M S A := fun s => (s, Ok a).

Definition mbind {S A B} (m : M S A) (k : A -> M S B) : M S B :=
  fun s =>
    match m s with
    | (s', Ok a) => k a s'
    | (s', Err e) => (s', Err e)
    | (s', Panic) => (s', Panic)
    end.

Definition modify {S} (f : S -> S) : M S unit := fun s => (f s, Ok tt).
Definition lift {S A} (r : result A) : M S A := fun s => (s, r).
Definition fail {S A} (detail : string) : M S A :=
  fun s => (s, Err (MalformedAttribute detail)).

Declare Scope recv_scope.
Delimit Scope recv_scope with recv.
Notation "x <- m ;; k" := (mbind m (fun x => k))
  (at level 61, m at next level, right associativity) : recv_scope.
Notation "' pat <- m ;; k" := (mbind m (fun x => match x with pat => k end))
  (at level 61, pat pattern, m at next level, right associativity) : recv_scope.
Notation "m ;; k" := (mbind m (fun _ => k))
  (at level 61, right associativity) : recv_scope.

(** ** The records of [mup.go] *)

Record MUPExtended : Type := mkMUPExtended {
  SubType : byte;
  SegmentID2 : Z;   (* uint16 *)
  SegmentID4 : Z    (* uint32 *)
}.

(** The architecture types and the route types ([iota] constants). *)
Definition MUP_ARCH_TYPE_UNDEFINED : Z := 0.
Definition MUP_ARCH_TYPE_3GPP_5G : Z := 1.

Definition MUP_ROUTE_TYPE_INTERWORK_SEGMENT_DISCOVERY : Z := 1.
Definition MUP_ROUTE_TYPE_DIRECT_SEGMENT_DISCOVERY : Z := 2.
Definition MUP_ROUTE_TYPE_TYPE_1_SESSION_TRANSFORMED : Z := 3.
Definition MUP_ROUTE_TYPE_TYPE_2_SESSION_TRANSFORMED : Z := 4.

(** The four pairs of the registry: the architecture 3GPP-5G with one of the
    four defined route types. *)
Definition registered (at_ : byte) (rt : Z) : Prop :=
  u8 at_ = MUP_ARCH_TYPE_3GPP_5G
  /\ (rt = MUP_ROUTE_TYPE_INTERWORK_SEGMENT_DISCOVERY
      \/ rt = MUP_ROUTE_TYPE_DIRECT_SEGMENT_DISCOVERY
      \/ rt = MUP_ROUTE_TYPE_TYPE_1_SESSION_TRANSFORMED
      \/ rt = MUP_ROUTE_TYPE_TYPE_2_SESSION_TRANSFORMED).

Section MUP.

Context {K : Constants} {RDI : RouteDistinguisherInterface}.

(** A [RouteDistinguisherInterface] field may be [nil]: [option RD]. *)
Record MUPInterworkSegmentDiscoveryRoute : Type := mkInterwork {
  isd_RD : option RD;
  isd_PrefixLength : byte;
  isd_Prefix : netip.Prefix
}.

Record MUPDirectSegmentDiscoveryRoute : Type := mkDirect {
  dsd_RD : option RD;
  dsd_Address : netip.Addr
}.

Record MUPType1SessionTransformedRoute : Type := mkType1 {
  t1_RD : option RD;
  t1_PrefixLength : byte;
  t1_Prefix : netip.Addr;
  t1_TEID : Z;   (* uint32 *)
  t1_QFI : byte;
  t1_EndpointAddressLength : byte;
  t1_EndpointAddress : netip.Addr
}.

Record MUPType2SessionTransformedRoute : Type := mkType2 {
  t2_RD : option RD;
  t2_EndpointAddressLength : byte;
  t2_EndpointAddress : netip.Addr;
  t2_TEID : Z    (* uint32 *)
}.

(** The four implementations of [MUPRouteTypeInterface]. *)
Inductive MUPRouteTypeInterface : Type :=
| InterworkRoute (r : MUPInterworkSegmentDiscoveryRoute)
| DirectRoute (r : MUPDirectSegmentDiscoveryRoute)
| Type1Route (r : MUPType1SessionTransformedRoute)
| Type2Route (r : MUPType2SessionTransformedRoute).

(** [MUPNLRI]; the embedded [PrefixDefault] is declared elsewhere and no
    function of [mup.go] touches it.  [RouteTypeData] may be [nil]. *)
Record MUPNLRI : Type := mkMUPNLRI {
  ArchitectureType : byte;
  RouteType : Z;   (* uint16 *)
  Length : byte;
  RouteTypeData : option MUPRouteTypeInterface
}.

(** The zero values that [&T{}] allocates. *)
Definition zeroPrefix : netip.Prefix := netip.mkPrefix netip.Zero (-1).
Definition zeroInterwork : MUPInterworkSegmentDiscoveryRoute :=
  mkInterwork None x00 zeroPrefix.
Definition zeroDirect : MUPDirectSegmentDiscoveryRoute :=
  mkDirect None netip.Zero.
Definition zeroType1 : MUPType1SessionTransformedRoute :=
  mkType1 None x00 netip.Zero 0 x00 x00 netip.Zero.
Definition zeroType2 : MUPType2SessionTransformedRoute :=
  mkType2 None x00 netip.Zero 0.

(** *** The extended community *)

Definition MUPExtended_Serialize (e : MUPExtended) : result (list byte) :=
  (let buf := make 8 in
   buf <- store buf 0 EC_TYPE_MUP ;;
   buf <- store buf 1 EC_SUBTYPE_MUP_DIRECT_SEG ;;
   buf <- binary.PutUint16 buf 2 4 (SegmentID2 e) ;;
   buf <- binary.PutUint32 buf 4 8 (SegmentID4 e) ;;
   Ok buf)%go.

Definition MUPExtended_String (e : MUPExtended) : string :=
  (fmt.d (SegmentID2 e) ++ ":" ++ fmt.d (SegmentID4 e))%string.

Definition MUPExtended_GetTypes (e : MUPExtended) : byte * byte :=
  (EC_TYPE_MUP, EC_SUBTYPE_MUP_DIRECT_SEG).

Definition NewMUPExtended (sid2 sid4 : Z) : MUPExtended :=
  mkMUPExtended EC_SUBTYPE_MUP_DIRECT_SEG sid2 sid4.

Definition parseMUPExtended (data : slice) : result MUPExtended :=
  (typ <- index data 0 ;;
   if negb (byte_eqb typ EC_TYPE_MUP) then
     d0 <- index data 0 ;;
     Err (MalformedAttribute
            ("ext comm type is not EC_TYPE_MUP: " ++ fmt.d (u8 d0))%string)
   else
     subType <- index data 1 ;;
     if byte_eqb subType EC_SUBTYPE_MUP_DIRECT_SEG then
       s24 <- reslice data 2 4 ;;
       sid2 <- binary.Uint16 s24 ;;
       s48 <- reslice data 4 8 ;;
       sid4 <- binary.Uint32 s48 ;;
       Ok (NewMUPExtended sid2 sid4)
     else
       Err (MalformedAttribute
              ("unknown mup subtype: " ++ fmt.d (u8 subType))%string))%go.

(** *** The registry *)

Definition getMUPRouteType (at_ : byte) (rt : Z) : result MUPRouteTypeInterface :=
  let unknown :=
    Err (MalformedAttribute
           ("Unknown MUP Architecture and Route type: "
              ++ fmt.d (u8 at_) ++ ", " ++ fmt.d rt)%string) in
  if rt =? MUP_ROUTE_TYPE_INTERWORK_SEGMENT_DISCOVERY then
    if u8 at_ =? MUP_ARCH_TYPE_3GPP_5G then Ok (InterworkRoute zeroInterwork)
    else unknown
  else if rt =? MUP_ROUTE_TYPE_DIRECT_SEGMENT_DISCOVERY then
    if u8 at_ =? MUP_ARCH_TYPE_3GPP_5G then Ok (DirectRoute zeroDirect)
    else unknown
  else if rt =? MUP_ROUTE_TYPE_TYPE_1_SESSION_TRANSFORMED then
    if u8 at_ =? MUP_ARCH_TYPE_3GPP_5G then Ok (Type1Route zeroType1)
    else unknown
  else if rt =? MUP_ROUTE_TYPE_TYPE_2_SESSION_TRANSFORMED then
    if u8 at_ =? MUP_ARCH_TYPE_3GPP_5G then Ok (Type2Route zeroType2)
    else unknown
  else unknown.

(** *** Interwork Segment Discovery route *)

Definition isd_set_RD (v : option RD) (r : MUPInterworkSegmentDiscoveryRoute) :=
  mkInterwork v (isd_PrefixLength r) (isd_Prefix r).
Definition isd_set_PrefixLength (v : byte) (r : MUPInterworkSegmentDiscoveryRoute) :=
  mkInterwork (isd_RD r) v (isd_Prefix r).
Definition isd_set_Prefix (v : netip.Prefix) (r : MUPInterworkSegmentDiscoveryRoute) :=
  mkInterwork (isd_RD r) (isd_PrefixLength r) v.

Definition MUPInterworkSegmentDiscoveryRoute_DecodeFromBytes (data : slice)
  : M MUPInterworkSegmentDiscoveryRoute unit :=
  (let rd := GetRouteDistinguisher data in
   modify (isd_set_RD (Some rd)) ;;
   let p := RD_Len rd in
   if len data <? p then
     fail "invalid Interwork Segment Discovery Route length"
   else
     pl <- lift (index data p) ;;
     modify (isd_set_PrefixLength pl) ;;
     let p := p + 1 in
     tail <- lift (reslice_from data p) ;;
     let '(addr, ok) := netip.AddrFromSlice tail in
     if negb ok then
       fail ("Invalid Prefix: " ++ fmt.x (elems tail))
     else
       let prefix := netip.PrefixFrom addr (u8 pl) in
       modify (isd_set_Prefix prefix) ;;
       if netip.Bits prefix =? -1 then
         (* [%s] of an invalid [netip.Prefix] prints "invalid Prefix" *)
         fail "Invalid Prefix: invalid Prefix"
       else mret tt)%recv.

Definition MUPInterworkSegmentDiscoveryRoute_Serialize
           (r : MUPInterworkSegmentDiscoveryRoute) : result (list byte) :=
  (buf <- match isd_RD r with
          | Some rd => RD_Serialize rd
          | None => Ok (make 8)
          end ;;
   let buf := buf ++ [isd_PrefixLength r] in
   let buf := buf ++ netip.AsSlice (netip.Addr_ (isd_Prefix r)) in
   Ok buf)%go.

Definition MUPInterworkSegmentDiscoveryRoute_AFI
           (r : MUPInterworkSegmentDiscoveryRoute) : Z :=
  if netip.Is6 (netip.Addr_ (isd_Prefix r)) then AFI_IP6 else AFI_IP.

Definition MUPInterworkSegmentDiscoveryRoute_Len
           (r : MUPInterworkSegmentDiscoveryRoute) : Z :=
  9 + netip.BitLen (netip.Addr_ (isd_Prefix r)) / 8.

(** *** Direct Segment Discovery route *)

Definition dsd_set_RD (v : option RD) (r : MUPDirectSegmentDiscoveryRoute) :=
  mkDirect v (dsd_Address r).
Definition dsd_set_Address (v : netip.Addr) (r : MUPDirectSegmentDiscoveryRoute) :=
  mkDirect (dsd_RD r) v.

Definition MUPDirectSegmentDiscoveryRoute_DecodeFromBytes (data : slice)
  : M MUPDirectSegmentDiscoveryRoute unit :=
  (let rd := GetRouteDistinguisher data in
   modify (dsd_set_RD (Some rd)) ;;
   let rdLen := RD_Len rd in
   if negb (len data =? 12) && negb (len data =? 24) then
     fail "invalid Direct Segment Discovery Route length"
   else if len data =? 12 then
     a <- lift (reslice data rdLen (rdLen + 4)) ;;
     let '(address, ok) := netip.AddrFromSlice a in
     if negb ok then
       a' <- lift (reslice data rdLen (rdLen + 4)) ;;
       fail ("Invalid Address: " ++ fmt.s (elems a'))
     else
       modify (dsd_set_Address address) ;;
       mret tt
   else if len data =? 24 then
     a <- lift (reslice data rdLen (rdLen + 16)) ;;
     let '(address, ok) := netip.AddrFromSlice a in
     if negb ok then
       a' <- lift (reslice data rdLen (rdLen + 16)) ;;
       fail ("Invalid Address: " ++ fmt.ds (elems a'))
     else
       modify (dsd_set_Address address) ;;
       mret tt
   else mret tt)%recv.

Definition MUPDirectSegmentDiscoveryRoute_Serialize
           (r : MUPDirectSegmentDiscoveryRoute) : result (list byte) :=
  (buf <- match dsd_RD r with
          | Some rd => RD_Serialize rd
          | None => Ok (make 8)
          end ;;
   let buf := buf ++ netip.AsSlice (dsd_Address r) in
   Ok buf)%go.

Definition MUPDirectSegmentDiscoveryRoute_AFI
           (r : MUPDirectSegmentDiscoveryRoute) : Z :=
  if netip.Is6 (dsd_Address r) then AFI_IP6 else AFI_IP.

Definition MUPDirectSegmentDiscoveryRoute_Len
           (r : MUPDirectSegmentDiscoveryRoute) : Z :=
  8 + netip.BitLen (dsd_Address r) / 8.

(** *** Type 1 Session Transformed route *)

Definition t1_set_RD (v : option RD) (r : MUPType1SessionTransformedRoute) :=
  mkType1 v (t1_PrefixLength r) (t1_Prefix r) (t1_TEID r) (t1_QFI r)
          (t1_EndpointAddressLength r) (t1_EndpointAddress r).
Definition t1_set_PrefixLength (v : byte) (r : MUPType1SessionTransformedRoute) :=
  mkType1 (t1_RD r) v (t1_Prefix r) (t1_TEID r) (t1_QFI r)
          (t1_EndpointAddressLength r) (t1_EndpointAddress r).
Definition t1_set_Prefix (v : netip.Addr) (r : MUPType1SessionTransformedRoute) :=
  mkType1 (t1_RD r) (t1_PrefixLength r) v (t1_TEID r) (t1_QFI r)
          (t1_EndpointAddressLength r) (t1_EndpointAddress r).
Definition t1_set_TEID (v : Z) (r : MUPType1SessionTransformedRoute) :=
  mkType1 (t1_RD r) (t1_PrefixLength r) (t1_Prefix r) v (t1_QFI r)
          (t1_EndpointAddressLength r) (t1_EndpointAddress r).
Definition t1_set_QFI (v : byte) (r : MUPType1SessionTransformedRoute) :=
  mkType1 (t1_RD r) (t1_PrefixLength r) (t1_Prefix r) (t1_TEID r) v
          (t1_EndpointAddressLength r) (t1_EndpointAddress r).
Definition t1_set_EndpointAddressLength (v : byte) (r : MUPType1SessionTransformedRoute) :=
  mkType1 (t1_RD r) (t1_PrefixLength r) (t1_Prefix r) (t1_TEID r) (t1_QFI r)
          v (t1_EndpointAddress r).
Definition t1_set_EndpointAddress (v : netip.Addr) (r : MUPType1SessionTransformedRoute) :=
  mkType1 (t1_RD r) (t1_PrefixLength r) (t1_Prefix r) (t1_TEID r) (t1_QFI r)
          (t1_EndpointAddressLength r) v.

Definition MUPType1SessionTransformedRoute_DecodeFromBytes (data : slice)
  : M MUPType1SessionTransformedRoute unit :=
  (let rd := GetRouteDistinguisher data in
   modify (t1_set_RD (Some rd)) ;;
   let p := RD_Len rd in
   if len data <? p then
     fail "invalid 3GPP 5G specific Type 1 Session Transformed Route length"
   else
     pl <- lift (index data p) ;;
     modify (t1_set_PrefixLength pl) ;;
     let p := p + 1 in
     (if (u8 pl =? 32) || (u8 pl =? 128) then
        a <- lift (reslice data p (p + u8 pl / 8)) ;;
        let '(prefix, ok) := netip.AddrFromSlice a in
        if negb ok then
          a' <- lift (reslice data p (p + u8 pl / 8)) ;;
          fail ("Invalid Prefix: " ++ fmt.x (elems a'))
        else modify (t1_set_Prefix prefix)
      else
        fail ("Invalid Prefix length: " ++ fmt.d (u8 pl))) ;;
     let p := p + u8 pl / 8 in
     t <- lift (reslice data p (p + 4)) ;;
     teid <- lift (binary.Uint32 t) ;;
     modify (t1_set_TEID teid) ;;
     let p := p + 4 in
     qfi <- lift (index data p) ;;
     modify (t1_set_QFI qfi) ;;
     let p := p + 1 in
     eal <- lift (index data p) ;;
     modify (t1_set_EndpointAddressLength eal) ;;
     let p := p + 1 in
     (if (u8 eal =? 32) || (u8 eal =? 128) then
        a <- lift (reslice data p (p + u8 eal / 8)) ;;
        let '(ea, ok) := netip.AddrFromSlice a in
        if negb ok then
          a' <- lift (reslice data p (p + u8 eal / 8)) ;;
          fail ("Invalid Endpoint Address: " ++ fmt.x (elems a'))
        else modify (t1_set_EndpointAddress ea)
      else
        fail ("Invalid Endpoint Address length: " ++ fmt.d (u8 eal))) ;;
     mret tt)%recv.

Definition MUPType1SessionTransformedRoute_Serialize
           (r : MUPType1SessionTransformedRoute) : result (list byte) :=
  (buf <- match t1_RD r with
          | Some rd => RD_Serialize rd
          | None => Ok (make 8)
          end ;;
   let buf := buf ++ [t1_PrefixLength r] in
   let buf := buf ++ netip.AsSlice (t1_Prefix r) in
   let t := make 4 in
   t <- binary.PutUint32 t 0 4 (t1_TEID r) ;;
   let buf := buf ++ t in
   let buf := buf ++ [t1_QFI r] in
   let buf := buf ++ [t1_EndpointAddressLength r] in
   let buf := buf ++ netip.AsSlice (t1_EndpointAddress r) in
   Ok buf)%go.

Definition MUPType1SessionTransformedRoute_AFI
           (r : MUPType1SessionTransformedRoute) : Z :=
  if netip.Is6 (t1_Prefix r) then AFI_IP6 else AFI_IP.

Definition MUPType1SessionTransformedRoute_Len
           (r : MUPType1SessionTransformedRoute) : Z :=
  15 + u8 (t1_PrefixLength r) / 8 + u8 (t1_EndpointAddressLength r) / 8.

(** *** Type 2 Session Transformed route *)

Definition t2_set_RD (v : option RD) (r : MUPType2SessionTransformedRoute) :=
  mkType2 v (t2_EndpointAddressLength r) (t2_EndpointAddress r) (t2_TEID r).
Definition t2_set_EndpointAddressLength (v : byte) (r : MUPType2SessionTransformedRoute) :=
  mkType2 (t2_RD r) v (t2_EndpointAddress r) (t2_TEID r).
Definition t2_set_EndpointAddress (v : netip.Addr) (r : MUPType2SessionTransformedRoute) :=
  mkType2 (t2_RD r) (t2_EndpointAddressLength r) v (t2_TEID r).
Definition t2_set_TEID (v : Z) (r : MUPType2SessionTransformedRoute) :=
  mkType2 (t2_RD r) (t2_EndpointAddressLength r) (t2_EndpointAddress r) v.

Definition MUPType2SessionTransformedRoute_DecodeFromBytes (data : slice)
  : M MUPType2SessionTransformedRoute unit :=
  (let rd := GetRouteDistinguisher data in
   modify (t2_set_RD (Some rd)) ;;
   let p := RD_Len rd in
   if len data <? p then
     fail "invalid 3GPP 5G specific Type 2 Session Transformed Route length"
   else
     eal <- lift (index data p) ;;
     modify (t2_set_EndpointAddressLength eal) ;;
     let p := p + 1 in
     '(ea, p, teidLen) <-
       (if (32 <=? u8 eal) && (u8 eal <=? 64) then
          a <- lift (reslice data p (p + 4)) ;;
          let '(ea, ok) := netip.AddrFromSlice a in
          if negb ok then
            a' <- lift (reslice data p (p + u8 eal / 8)) ;;
            fail ("Invalid Endpoint Address: " ++ fmt.x (elems a'))
          else mret (ea, p + 4, u8 eal / 8 - 4)
        else if (128 <=? u8 eal) && (u8 eal <=? 160) then
          a <- lift (reslice data p (p + 16)) ;;
          let '(ea, ok) := netip.AddrFromSlice a in
          if negb ok then
            a' <- lift (reslice data p (p + u8 eal / 8)) ;;
            fail ("Invalid Endpoint Address: " ++ fmt.x (elems a'))
          else mret (ea, p + 16, u8 eal / 8 - 16)
        else
          fail ("Invalid Endpoint Address length: " ++ fmt.d (u8 eal))) ;;
     modify (t2_set_EndpointAddress ea) ;;
     t <- lift (reslice data p (p + teidLen)) ;;
     teid <- lift (binary.Uint32 t) ;;
     modify (t2_set_TEID teid) ;;
     mret tt)%recv.

Definition MUPType2SessionTransformedRoute_Serialize
           (r : MUPType2SessionTransformedRoute) : result (list byte) :=
  (buf <- match t2_RD r with
          | Some rd => RD_Serialize rd
          | None => Ok (make 8)
          end ;;
   let buf := buf ++ [t2_EndpointAddressLength r] in
   let buf := buf ++ netip.AsSlice (t2_EndpointAddress r) in
   let t := make 4 in
   t <- binary.PutUint32 t 0 4 (t2_TEID r) ;;
   let buf := buf ++ t in
   Ok buf)%go.

Definition MUPType2SessionTransformedRoute_AFI
           (r : MUPType2SessionTransformedRoute) : Z :=
  if netip.Is6 (t2_EndpointAddress r) then AFI_IP6 else AFI_IP.

Definition MUPType2SessionTransformedRoute_Len
           (r : MUPType2SessionTransformedRoute) : Z :=
  9 + u8 (t2_EndpointAddressLength r) / 8.

(** *** Dynamic dispatch through [MUPRouteTypeInterface] *)

Definition route_DecodeFromBytes (data : slice) : M MUPRouteTypeInterface unit :=
  fun r =>
    match r with
    | InterworkRoute x =>
        let '(x', e) := MUPInterworkSegmentDiscoveryRoute_DecodeFromBytes data x in
        (InterworkRoute x', e)
    | DirectRoute x =>
        let '(x', e) := MUPDirectSegmentDiscoveryRoute_DecodeFromBytes data x in
        (DirectRoute x', e)
    | Type1Route x =>
        let '(x', e) := MUPType1SessionTransformedRoute_DecodeFromBytes data x in
        (Type1Route x', e)
    | Type2Route x =>
        let '(x', e) := MUPType2SessionTransformedRoute_DecodeFromBytes data x in
        (Type2Route x', e)
    end.

Definition route_Serialize (r : MUPRouteTypeInterface) : result (list byte) :=
  match r with
  | InterworkRoute x => MUPInterworkSegmentDiscoveryRoute_Serialize x
  | DirectRoute x => MUPDirectSegmentDiscoveryRoute_Serialize x
  | Type1Route x => MUPType1SessionTransformedRoute_Serialize x
  | Type2Route x => MUPType2SessionTransformedRoute_Serialize x
  end.

Definition route_AFI (r : MUPRouteTypeInterface) : Z :=
  match r with
  | InterworkRoute x => MUPInterworkSegmentDiscoveryRoute_AFI x
  | DirectRoute x => MUPDirectSegmentDiscoveryRoute_AFI x
  | Type1Route x => MUPType1SessionTransformedRoute_AFI x
  | Type2Route x => MUPType2SessionTransformedRoute_AFI x
  end.

Definition route_Len (r : MUPRouteTypeInterface) : Z :=
  match r with
  | InterworkRoute x => MUPInterworkSegmentDiscoveryRoute_Len x
  | DirectRoute x => MUPDirectSegmentDiscoveryRoute_Len x
  | Type1Route x => MUPType1SessionTransformedRoute_Len x
  | Type2Route x => MUPType2SessionTransformedRoute_Len x
  end.

Definition route_rd (r : MUPRouteTypeInterface) : option RD :=
  match r with
  | InterworkRoute x => isd_RD x
  | DirectRoute x => dsd_RD x
  | Type1Route x => t1_RD x
  | Type2Route x => t2_RD x
  end.

(** *** The NLRI envelope *)

Definition set_ArchitectureType (v : byte) (n : MUPNLRI) :=
  mkMUPNLRI v (RouteType n) (Length n) (RouteTypeData n).
Definition set_RouteType (v : Z) (n : MUPNLRI) :=
  mkMUPNLRI (ArchitectureType n) v (Length n) (RouteTypeData n).
Definition set_Length (v : byte) (n : MUPNLRI) :=
  mkMUPNLRI (ArchitectureType n) (RouteType n) v (RouteTypeData n).
Definition set_RouteTypeData (v : option MUPRouteTypeInterface) (n : MUPNLRI) :=
  mkMUPNLRI (ArchitectureType n) (RouteType n) (Length n) v.

(** [n.RouteTypeData.DecodeFromBytes(d)]: the route is reached through the
    pointer held in [n], so what it becomes is what [n] holds afterwards. *)
Definition RouteTypeData_DecodeFromBytes (d : slice) : M MUPNLRI unit :=
  fun n =>
    match RouteTypeData n with
    | Some r =>
        let '(r', e) := route_DecodeFromBytes d r in
        (set_RouteTypeData (Some r') n, e)
    | None => (n, Panic)
    end.

Definition MUPNLRI_DecodeFromBytes (data : slice) : M MUPNLRI unit :=
  (if len data <? 4 then
     fail "Not all MUPNLRI bytes available"
   else
     at_ <- lift (index data 0) ;;
     modify (set_ArchitectureType at_) ;;
     s13 <- lift (reslice data 1 3) ;;
     rt <- lift (binary.Uint16 s13) ;;
     modify (set_RouteType rt) ;;
     l <- lift (index data 3) ;;
     modify (set_Length l) ;;
     data <- lift (reslice_from data 4) ;;
     if len data <? u8 l then
       fail "Not all MUPNLRI Route type bytes available"
     else
       r <- lift (getMUPRouteType at_ rt) ;;
       modify (set_RouteTypeData (Some r)) ;;
       d <- lift (reslice_to data (u8 l)) ;;
       RouteTypeData_DecodeFromBytes d)%recv.

Definition MUPNLRI_Serialize (n : MUPNLRI) : result (list byte) :=
  (let buf := make 4 in
   buf <- store buf 0 (ArchitectureType n) ;;
   buf <- binary.PutUint16 buf 1 3 (RouteType n) ;;
   buf <- store buf 3 (Length n) ;;
   tbuf <- match RouteTypeData n with
           | Some r => route_Serialize r
           | None => Panic
           end ;;
   Ok (buf ++ tbuf))%go.

Definition MUPNLRI_AFI (n : MUPNLRI) : result Z :=
  match RouteTypeData n with
  | Some r => Ok (route_AFI r)
  | None => Panic
  end.

Definition MUPNLRI_Len (n : MUPNLRI) : Z := u8 (Length n) + 4.

Definition MUPNLRI_RD (n : MUPNLRI) : result (option RD) :=
  match RouteTypeData n with
  | Some r => Ok (route_rd r)
  | None => Panic
  end.

(** *** Constructors *)

Definition NewMUPNLRI (at_ : byte) (rt : Z) (data : option MUPRouteTypeInterface)
  : MUPNLRI :=
  let l := match data with
           | Some d => byte_of_Z (route_Len d)
           | None => x00
           end in
  mkMUPNLRI at_ rt l data.

Definition NewMUPInterworkSegmentDiscoveryRoute (rd : option RD)
           (prefix : netip.Prefix) : MUPNLRI :=
  NewMUPNLRI (byte_of_Z MUP_ARCH_TYPE_3GPP_5G)
             MUP_ROUTE_TYPE_INTERWORK_SEGMENT_DISCOVERY
             (Some (InterworkRoute
                      (mkInterwork rd (byte_of_Z (netip.Bits prefix)) prefix))).

Definition NewMUPDirectSegmentDiscoveryRoute (rd : option RD)
           (address : netip.Addr) : MUPNLRI :=
  NewMUPNLRI (byte_of_Z MUP_ARCH_TYPE_3GPP_5G)
             MUP_ROUTE_TYPE_DIRECT_SEGMENT_DISCOVERY
             (Some (DirectRoute (mkDirect rd address))).

Definition NewMUPType1SessionTransformedRoute (rd : option RD)
           (prefix : netip.Addr) (teid : Z) (qfi : byte) (ea : netip.Addr)
  : MUPNLRI :=
  NewMUPNLRI (byte_of_Z MUP_ARCH_TYPE_3GPP_5G)
             MUP_ROUTE_TYPE_TYPE_1_SESSION_TRANSFORMED
             (Some (Type1Route
                      (mkType1 rd (byte_of_Z (netip.BitLen prefix)) prefix teid qfi
                               (byte_of_Z (netip.BitLen ea)) ea))).

Definition NewMUPType2SessionTransformedRoute (rd : option RD)
           (ea : netip.Addr) (teid : Z) : MUPNLRI :=
  NewMUPNLRI (byte_of_Z MUP_ARCH_TYPE_3GPP_5G)
             MUP_ROUTE_TYPE_TYPE_2_SESSION_TRANSFORMED
             (Some (Type2Route
                      (mkType2 rd (byte_of_Z (u8 (byte_of_Z (netip.BitLen ea)) + 32))
                               ea teid))).

(** *** Vocabulary of the statements below *)

(** The same route with another distinguisher. *)
Definition route_set_rd (v : option RD) (r : MUPRouteTypeInterface)
  : MUPRouteTypeInterface :=
  match r with
  | InterworkRoute x => InterworkRoute (isd_set_RD v x)
  | DirectRoute x => DirectRoute (dsd_set_RD v x)
  | Type1Route x => Type1Route (t1_set_RD v x)
  | Type2Route x => Type2Route (t2_set_RD v x)
  end.

(** An address a caller can pass to a constructor and get back from the
    wire: IPv4, or IPv6 without a zone (the wire format has no zone). *)
Definition Addr_valid (a : netip.Addr) : Prop :=
  match a with
  | netip.Zero => False
  | netip.V4 o => length o = 4%nat
  | netip.V6 o z => length o = 16%nat /\ z = EmptyString
  end.

(** The envelopes the four constructors build from a distinguisher that is
    present, valid addresses and a TEID that is a [uint32]. *)
Inductive constructed : MUPNLRI -> Prop :=
| constructed_isd (rd : RD) (prefix : netip.Prefix) :
    netip.Prefix_valid prefix ->
    constructed (NewMUPInterworkSegmentDiscoveryRoute (Some rd) prefix)
| constructed_dsd (rd : RD) (address : netip.Addr) :
    Addr_valid address ->
    constructed (NewMUPDirectSegmentDiscoveryRoute (Some rd) address)
| constructed_t1 (rd : RD) (prefix : netip.Addr) (teid : Z) (qfi : byte)
                 (ea : netip.Addr) :
    Addr_valid prefix -> Addr_valid ea -> 0 <= teid < 2 ^ 32 ->
    constructed (NewMUPType1SessionTransformedRoute (Some rd) prefix teid qfi ea)
| constructed_t2 (rd : RD) (ea : netip.Addr) (teid : Z) :
    Addr_valid ea -> 0 <= teid < 2 ^ 32 ->
    constructed (NewMUPType2SessionTransformedRoute (Some rd) ea teid).

(** An address whose octet count fits its kind: none for the zero address,
    4 for IPv4, 16 for IPv6 (with or without zone). *)
Definition Addr_wf (a : netip.Addr) : Prop :=
  match a with
  | netip.Zero => True
  | netip.V4 o => length o = 4%nat
  | netip.V6 o _ => length o = 16%nat
  end.

(** The route type under which the registry hands out each kind of route. *)
Definition route_type_of (r : MUPRouteTypeInterface) : Z :=
  match r with
  | InterworkRoute _ => MUP_ROUTE_TYPE_INTERWORK_SEGMENT_DISCOVERY
  | DirectRoute _ => MUP_ROUTE_TYPE_DIRECT_SEGMENT_DISCOVERY
  | Type1Route _ => MUP_ROUTE_TYPE_TYPE_1_SESSION_TRANSFORMED
  | Type2Route _ => MUP_ROUTE_TYPE_TYPE_2_SESSION_TRANSFORMED
  end.

(** The same envelope with another distinguisher in its route. *)
Definition MUPNLRI_set_rd (v : option RD) (n : MUPNLRI) : MUPNLRI :=
  mkMUPNLRI (ArchitectureType n) (RouteType n) (Length n)
            (option_map (route_set_rd v) (RouteTypeData n)).

(** The envelopes the four constructors build around a given distinguisher,
    nil or not, from valid addresses and a TEID that is a [uint32]. *)
Inductive built (ro : option RD) : MUPNLRI -> Prop :=
| built_isd (prefix : netip.Prefix) :
    netip.Prefix_valid prefix ->
    built ro (NewMUPInterworkSegmentDiscoveryRoute ro prefix)
| built_dsd (address : netip.Addr) :
    Addr_valid address ->
    built ro (NewMUPDirectSegmentDiscoveryRoute ro address)
| built_t1 (prefix : netip.Addr) (teid : Z) (qfi : byte) (ea : netip.Addr) :
    Addr_valid prefix -> Addr_valid ea -> 0 <= teid < 2 ^ 32 ->
    built ro (NewMUPType1SessionTransformedRoute ro prefix teid qfi ea)
| built_t2 (ea : netip.Addr) (teid : Z) :
    Addr_valid ea -> 0 <= teid < 2 ^ 32 ->
    built ro (NewMUPType2SessionTransformedRoute ro ea teid).

(** The stored length of an envelope is the size of its serialized body:
    the encoding exists and is as long as [Len()] says. *)
Definition Length_exact (n : MUPNLRI) : Prop :=
  exists b : list byte,
    MUPNLRI_Serialize n = Ok b /\ Z.of_nat (length b) = MUPNLRI_Len n.

End MUP.

(** ** Vocabulary for the text form of the extended community *)

(** No colon among the characters of a string. *)
Fixpoint no_colon (s : string) : Prop :=
  match s with
  | EmptyString => True
  | String c s' => c <> ":"%char /\ no_colon s'
  end.

(** ** Worked examples *)

Module Examples.

(** The distinguisher 0:1:2 in its 8 octets. *)
Definition rd_octets : list byte := [x00; x00; x00; x01; x00; x00; x00; x02].
Definition rd : RD8.t := RD8.mk x00 x00 x00 x01 x00 x00 x00 x02.

Definition addr_10_0_0_1 : netip.Addr := netip.V4 [x0a; x00; x00; x01].
Definition addr_10_0_0_2 : netip.Addr := netip.V4 [x0a; x00; x00; x02].

(** An extended community as it arrives: tags, 100, 200000. *)
Definition ec_octets : list byte := [x0c; x00; x00; x64; x00; x03; x0d; x40].

(** A Direct Segment Discovery route without distinguisher, held by two
    envelopes that differ in the stored length only. *)
Definition dsd_nil : MUPRouteTypeInterface :=
  DirectRoute (mkDirect None addr_10_0_0_1).
Definition stale_envelope : MUPNLRI := mkMUPNLRI x01 2 x00 (Some dsd_nil).
Definition exact_envelope : MUPNLRI := mkMUPNLRI x01 2 x0c (Some dsd_nil).

(** A Direct Segment Discovery envelope from its constructor, and its
    encoding: header, distinguisher, address. *)
Definition dsd : MUPNLRI := NewMUPDirectSegmentDiscoveryRoute (Some rd) addr_10_0_0_1.
Definition dsd_body : list byte := rd_octets ++ [x0a; x00; x00; x01].
Definition dsd_octets : list byte := [x01; x00; x02; x0c] ++ dsd_body.

(** The spec's Type 2 body: declared length 48, 10.0.0.1, then 0,0,0,42. *)
Definition t2_body_48 : list byte :=
  rd_octets ++ [x30; x0a; x00; x00; x01; x00; x00; x00; x2a].

(** A Type 1 body: 10.0.0.1/32, TEID 77, QFI 9, endpoint 10.0.0.2/32. *)
Definition t1_body : list byte :=
  rd_octets ++ [x20; x0a; x00; x00; x01; x00; x00; x00; x4d; x09;
                x20; x0a; x00; x00; x02].

(** The same body in an envelope that declares 28 octets, 5 of them after
    the endpoint address. *)
Definition t1_padded : list byte :=
  [x01; x00; x03; x1c] ++ t1_body ++ [x00; x00; x00; x00; x00].

(** An Interwork Segment Discovery body: 10.0.0.0/24. *)
Definition isd_body : list byte := rd_octets ++ [x18; x0a; x00; x00; x00].

(** A Type 2 body: declared length 64, 10.0.0.1, TEID 42. *)
Definition t2_body : list byte :=
  rd_octets ++ [x40; x0a; x00; x00; x01; x00; x00; x00; x2a].
Definition t2_route : MUPType2SessionTransformedRoute :=
  mkType2 (Some rd) x40 addr_10_0_0_1 42.

(** The Type 1 route of [t1_body]. *)
Definition t1_route : MUPType1SessionTransformedRoute :=
  mkType1 (Some rd) x20 addr_10_0_0_1 77 x09 x20 addr_10_0_0_2.

(** A Direct Segment Discovery envelope built without distinguisher. *)
Definition dsd_built_nil : MUPNLRI :=
  NewMUPDirectSegmentDiscoveryRoute None addr_10_0_0_1.

Definition zeroNLRI : MUPNLRI := mkMUPNLRI x00 0 x00 None.

End Examples.

(** * Properties *)

(** ** Octets and big-endian integers *)

Lemma u8_range (b : byte) : 0 <= u8 b < 256.
Proof.
  unfold u8. pose proof (Byte.to_N_bounded b). lia.
Qed.

Lemma byte_of_u8 (b : byte) : byte_of_Z (u8 b) = b.
Proof.
  unfold byte_of_Z. rewrite Z.mod_small by apply u8_range.
  unfold u8. rewrite N2Z.id, Byte.of_to_N. reflexivity.
Qed.

Lemma u8_byte_of_Z (v : Z) : u8 (byte_of_Z v) = v mod 256.
Proof.
  unfold byte_of_Z, u8.
  assert (R : 0 <= v mod 256 < 256) by (apply Z.mod_pos_bound; lia).
  destruct (Byte.of_N (Z.to_N (v mod 256))) as [b|] eqn:E.
  - apply Byte.to_of_N in E. rewrite E. lia.
  - apply Byte.of_N_None_iff in E. lia.
Qed.

Lemma u8_inj (a b : byte) : u8 a = u8 b -> a = b.
Proof.
  intros H. rewrite <- (byte_of_u8 a), <- (byte_of_u8 b), H. reflexivity.
Qed.

Lemma byte_eqb_spec (a b : byte) : byte_eqb a b = true <-> a = b.
Proof.
  unfold byte_eqb. split.
  - apply Byte.byte_dec_bl.
  - apply Byte.byte_dec_lb.
Qed.

Lemma byte_eqb_neq (a b : byte) : byte_eqb a b = false <-> a <> b.
Proof.
  rewrite <- byte_eqb_spec. destruct (byte_eqb a b); split; congruence.
Qed.

(** [lo | hi<<k] is [lo + hi * 2^k] when [lo] fits in [k] bits. *)
Lemma lor_shiftl_add (lo hi k : Z) :
  0 <= k -> 0 <= lo < 2 ^ k -> Z.lor lo (Z.shiftl hi k) = lo + hi * 2 ^ k.
Proof.
  intros Hk Hlo.
  rewrite <- Z.shiftl_mul_pow2 by assumption.
  rewrite <- Z.add_lor_land.
  assert (E : Z.land lo (Z.shiftl hi k) = 0).
  { apply Z.bits_inj'. intros n Hn.
    rewrite Z.land_spec, Z.bits_0.
    destruct (Z.lt_ge_cases n k) as [L|G].
    - rewrite (Z.shiftl_spec_low hi k n L). apply andb_false_r.
    - destruct (Z.eq_dec lo 0) as [->|NZ].
      + rewrite Z.bits_0. reflexivity.
      + assert (Z.log2 lo < k) by (apply Z.log2_lt_pow2; lia).
        rewrite (Z.bits_above_log2 lo n); [reflexivity|lia|lia]. }
  rewrite E. lia.
Qed.

Lemma be16_value (b0 b1 : byte) :
  Z.lor (u8 b1) (Z.shiftl (u8 b0) 8) = 256 * u8 b0 + u8 b1.
Proof.
  pose proof (u8_range b1).
  rewrite lor_shiftl_add; lia.
Qed.

Lemma be32_value (b0 b1 b2 b3 : byte) :
  Z.lor (Z.lor (Z.lor (u8 b3) (Z.shiftl (u8 b2) 8)) (Z.shiftl (u8 b1) 16))
        (Z.shiftl (u8 b0) 24)
  = 16777216 * u8 b0 + 65536 * u8 b1 + 256 * u8 b2 + u8 b3.
Proof.
  pose proof (u8_range b0). pose proof (u8_range b1).
  pose proof (u8_range b2). pose proof (u8_range b3).
  rewrite (lor_shiftl_add (u8 b3) (u8 b2) 8) by lia.
  rewrite (lor_shiftl_add _ (u8 b1) 16) by lia.
  rewrite (lor_shiftl_add _ (u8 b0) 24) by lia.
  lia.
Qed.

(** ** Slices *)

Lemma index_ok (s : slice) (i : Z) (b : byte) :
  0 <= i -> nth_error (elems s) (Z.to_nat i) = Some b -> index s i = Ok b.
Proof.
  intros Hi Hn. unfold index, len.
  assert (Z.to_nat i < length (elems s))%nat
    by (apply nth_error_Some; congruence).
  replace (0 <=? i) with true by (symmetry; apply Z.leb_le; lia).
  replace (i <? Z.of_nat (length (elems s))) with true
    by (symmetry; apply Z.ltb_lt; lia).
  cbn [andb]. rewrite Hn. reflexivity.
Qed.

Lemma index_out (s : slice) (i : Z) : len s <= i -> index s i = Panic.
Proof.
  intros H. unfold index.
  replace (i <? len s) with false by (symmetry; apply Z.ltb_ge; lia).
  rewrite andb_false_r. reflexivity.
Qed.

Lemma index_inv (s : slice) (i : Z) (b : byte) :
  index s i = Ok b ->
  0 <= i < len s /\ nth_error (elems s) (Z.to_nat i) = Some b.
Proof.
  unfold index. intros H.
  destruct (0 <=? i) eqn:E1; [|discriminate].
  destruct (i <? len s) eqn:E2; [|discriminate].
  cbn [andb] in H. apply Z.leb_le in E1. apply Z.ltb_lt in E2.
  destruct (nth_error (elems s) (Z.to_nat i)); [|discriminate].
  split; [lia|congruence].
Qed.

Lemma index_not_err (s : slice) (i : Z) (e : MessageError) : index s i <> Err e.
Proof.
  unfold index. destruct ((0 <=? i) && (i <? len s)); [|discriminate].
  destruct (nth_error (elems s) (Z.to_nat i)); discriminate.
Qed.

Lemma reslice_ok (s : slice) (lo hi : Z) :
  0 <= lo <= hi -> hi <= cap s ->
  reslice s lo hi = Ok (mkSlice (sub (elems s ++ spare s) lo hi)
                                (skipn (Z.to_nat hi) (elems s ++ spare s))).
Proof.
  intros H1 H2. unfold reslice.
  replace (0 <=? lo) with true by (symmetry; apply Z.leb_le; lia).
  replace (lo <=? hi) with true by (symmetry; apply Z.leb_le; lia).
  replace (hi <=? cap s) with true by (symmetry; apply Z.leb_le; lia).
  reflexivity.
Qed.

Lemma reslice_inv (s t : slice) (lo hi : Z) :
  reslice s lo hi = Ok t ->
  0 <= lo <= hi /\ hi <= cap s /\
  t = mkSlice (sub (elems s ++ spare s) lo hi)
              (skipn (Z.to_nat hi) (elems s ++ spare s)).
Proof.
  unfold reslice. intros H.
  destruct (0 <=? lo) eqn:E1; [|discriminate].
  destruct (lo <=? hi) eqn:E2; [|discriminate].
  destruct (hi <=? cap s) eqn:E3; [|discriminate].
  cbn [andb] in H. apply Z.leb_le in E1, E2, E3.
  injection H as <-. repeat split; lia.
Qed.

Lemma reslice_not_err (s : slice) (lo hi : Z) (e : MessageError) :
  reslice s lo hi <> Err e.
Proof.
  unfold reslice. destruct ((0 <=? lo) && (lo <=? hi) && (hi <=? cap s)); discriminate.
Qed.

Lemma sub_length (l : list byte) (lo hi : Z) :
  0 <= lo <= hi -> hi <= Z.of_nat (length l) ->
  length (sub l lo hi) = Z.to_nat (hi - lo).
Proof.
  intros H1 H2. unfold sub. rewrite length_firstn, length_skipn. lia.
Qed.

Lemma firstn_plus (l : list byte) (n m : nat) :
  firstn (n + m) l = firstn n l ++ firstn m (skipn n l).
Proof.
  revert l. induction n as [|n IH]; intros l.
  - reflexivity.
  - destruct l as [|x l].
    + cbn. rewrite firstn_nil. reflexivity.
    + cbn [Nat.add firstn skipn app]. rewrite IH. reflexivity.
Qed.

Lemma sub_app (l : list byte) (a b c : Z) :
  0 <= a <= b -> b <= c -> sub l a b ++ sub l b c = sub l a c.
Proof.
  intros H1 H2. unfold sub.
  replace (Z.to_nat (c - a)) with (Z.to_nat (b - a) + Z.to_nat (c - b))%nat by lia.
  rewrite firstn_plus, skipn_skipn.
  replace (Z.to_nat (b - a) + Z.to_nat a)%nat with (Z.to_nat b) by lia.
  reflexivity.
Qed.

Lemma sub_single (l : list byte) (i : Z) (b : byte) :
  0 <= i -> nth_error l (Z.to_nat i) = Some b -> sub l i (i + 1) = [b].
Proof.
  intros Hi Hn. unfold sub.
  replace (Z.to_nat (i + 1 - i)) with 1%nat by lia.
  revert Hn. generalize (Z.to_nat i) as n. intros n. revert l.
  induction n as [|n IH]; intros [|x l] Hn; try discriminate.
  - injection Hn as ->. reflexivity.
  - cbn [skipn]. apply IH. exact Hn.
Qed.

Lemma sub_elems (l sp : list byte) (lo hi : Z) :
  0 <= lo <= hi -> hi <= Z.of_nat (length l) -> sub (l ++ sp) lo hi = sub l lo hi.
Proof.
  intros H1 H2. unfold sub.
  rewrite skipn_app, firstn_app, length_skipn.
  replace (Z.to_nat (hi - lo) - (length l - Z.to_nat lo))%nat with 0%nat by lia.
  rewrite firstn_O, app_nil_r. reflexivity.
Qed.

Lemma Uint16_elems (b0 b1 : byte) (rest sp : list byte) :
  binary.Uint16 (mkSlice (b0 :: b1 :: rest) sp) = Ok (256 * u8 b0 + u8 b1).
Proof.
  unfold binary.Uint16.
  rewrite (index_ok _ 1 b1), (index_ok _ 0 b0) by (reflexivity || lia).
  cbn [rbind]. rewrite be16_value. reflexivity.
Qed.

Lemma Uint32_elems (b0 b1 b2 b3 : byte) (rest sp : list byte) :
  binary.Uint32 (mkSlice (b0 :: b1 :: b2 :: b3 :: rest) sp)
  = Ok (16777216 * u8 b0 + 65536 * u8 b1 + 256 * u8 b2 + u8 b3).
Proof.
  unfold binary.Uint32.
  rewrite (index_ok _ 3 b3), (index_ok _ 2 b2), (index_ok _ 1 b1), (index_ok _ 0 b0)
    by (reflexivity || lia).
  cbn [rbind]. rewrite be32_value. reflexivity.
Qed.

(** [Uint32] needs four visible octets: on a shorter slice the bounds check
    [_ = b[3]] panics, whatever the capacity. *)
Lemma Uint32_short (s : slice) : len s < 4 -> binary.Uint32 s = Panic.
Proof.
  intros H. unfold binary.Uint32. rewrite index_out by lia. reflexivity.
Qed.

Lemma Uint32_inv (s : slice) (v : Z) :
  binary.Uint32 s = Ok v ->
  exists b0 b1 b2 b3 rest,
    elems s = b0 :: b1 :: b2 :: b3 :: rest /\
    v = 16777216 * u8 b0 + 65536 * u8 b1 + 256 * u8 b2 + u8 b3.
Proof.
  intros H. destruct s as [el sp].
  destruct el as [|b0 [|b1 [|b2 [|b3 rest]]]];
    try (rewrite Uint32_short in H by (cbn; lia); discriminate).
  rewrite Uint32_elems in H. injection H as <-.
  exists b0, b1, b2, b3, rest. split; reflexivity.
Qed.

Lemma PutUint32_make (v : Z) :
  binary.PutUint32 (make 4) 0 4 v
  = Ok [byte_of_Z (Z.shiftr v 24); byte_of_Z (Z.shiftr v 16);
        byte_of_Z (Z.shiftr v 8); byte_of_Z v].
Proof. reflexivity. Qed.

Lemma be16_of_put (v : Z) :
  256 * u8 (byte_of_Z (Z.shiftr v 8)) + u8 (byte_of_Z v) = v mod 2 ^ 16.
Proof.
  rewrite !u8_byte_of_Z, Z.shiftr_div_pow2 by lia.
  change (2 ^ 8) with 256. change (2 ^ 16) with 65536.
  Z.div_mod_to_equations. lia.
Qed.

Lemma be32_of_put (v : Z) :
  16777216 * u8 (byte_of_Z (Z.shiftr v 24)) + 65536 * u8 (byte_of_Z (Z.shiftr v 16))
  + 256 * u8 (byte_of_Z (Z.shiftr v 8)) + u8 (byte_of_Z v) = v mod 2 ^ 32.
Proof.
  rewrite !u8_byte_of_Z, !Z.shiftr_div_pow2 by lia.
  change (2 ^ 8) with 256. change (2 ^ 16) with 65536.
  change (2 ^ 24) with 16777216. change (2 ^ 32) with 4294967296.
  Z.div_mod_to_equations. lia.
Qed.

Lemma put_of_be16 (b0 b1 : byte) :
  let v := 256 * u8 b0 + u8 b1 in
  byte_of_Z (Z.shiftr v 8) = b0 /\ byte_of_Z v = b1.
Proof.
  cbv zeta. pose proof (u8_range b0). pose proof (u8_range b1).
  split; apply u8_inj; rewrite u8_byte_of_Z, ?Z.shiftr_div_pow2 by lia;
    change (2 ^ 8) with 256; Z.div_mod_to_equations; lia.
Qed.

Lemma put_of_be32 (b0 b1 b2 b3 : byte) :
  let v := 16777216 * u8 b0 + 65536 * u8 b1 + 256 * u8 b2 + u8 b3 in
  byte_of_Z (Z.shiftr v 24) = b0 /\ byte_of_Z (Z.shiftr v 16) = b1 /\
  byte_of_Z (Z.shiftr v 8) = b2 /\ byte_of_Z v = b3.
Proof.
  cbv zeta. pose proof (u8_range b0). pose proof (u8_range b1).
  pose proof (u8_range b2). pose proof (u8_range b3).
  repeat split; apply u8_inj; rewrite u8_byte_of_Z, ?Z.shiftr_div_pow2 by lia;
    change (2 ^ 8) with 256; change (2 ^ 16) with 65536;
    change (2 ^ 24) with 16777216; Z.div_mod_to_equations; lia.
Qed.


Section Properties.

Context {K : Constants} {RDI : RouteDistinguisherInterface}.
Context {L8 : RouteDistinguisherLen8 RDI} {CD : RouteDistinguisherCodec RDI}.

(** ** The extended community *)

Lemma MUPExtended_Serialize_eq (e : MUPExtended) :
  MUPExtended_Serialize e
  = Ok [EC_TYPE_MUP; EC_SUBTYPE_MUP_DIRECT_SEG;
        byte_of_Z (Z.shiftr (SegmentID2 e) 8); byte_of_Z (SegmentID2 e);
        byte_of_Z (Z.shiftr (SegmentID4 e) 24); byte_of_Z (Z.shiftr (SegmentID4 e) 16);
        byte_of_Z (Z.shiftr (SegmentID4 e) 8); byte_of_Z (SegmentID4 e)].
Proof. reflexivity. Qed.

(** C8. [MUPExtended.Serialize] never fails and returns exactly 8 octets:
    the type tag, the sub-type tag, the 16-bit segment identifier big-endian
    in octets 2-3 and the 32-bit segment identifier big-endian in octets
    4-7.  For the identifiers 100 and 200000 the octets are
    [type, subtype, 0, 100, 0, 3, 13, 64] and [String] is "100:200000". *)
Theorem MUPExtended_Serialize_layout (e : MUPExtended) :
  (exists b2 b3 b4 b5 b6 b7 : byte,
      MUPExtended_Serialize e
      = Ok [EC_TYPE_MUP; EC_SUBTYPE_MUP_DIRECT_SEG; b2; b3; b4; b5; b6; b7]
      /\ 256 * u8 b2 + u8 b3 = SegmentID2 e mod 2 ^ 16
      /\ 16777216 * u8 b4 + 65536 * u8 b5 + 256 * u8 b6 + u8 b7
         = SegmentID4 e mod 2 ^ 32)
  /\ MUPExtended_Serialize (NewMUPExtended 100 200000)
     = Ok [EC_TYPE_MUP; EC_SUBTYPE_MUP_DIRECT_SEG; x00; x64; x00; x03; x0d; x40]
  /\ MUPExtended_String (NewMUPExtended 100 200000) = "100:200000"%string.
Proof.
  split; [|split].
  - do 6 eexists. split; [apply MUPExtended_Serialize_eq|].
    split; [apply be16_of_put|apply be32_of_put].
  - reflexivity.
  - reflexivity.
Qed.

Lemma parseMUPExtended_elems (d0 d1 d2 d3 d4 d5 d6 d7 : byte) (rest sp : list byte) :
  parseMUPExtended (mkSlice (d0 :: d1 :: d2 :: d3 :: d4 :: d5 :: d6 :: d7 :: rest) sp)
  = if negb (byte_eqb d0 EC_TYPE_MUP) then
      Err (MalformedAttribute
             ("ext comm type is not EC_TYPE_MUP: " ++ fmt.d (u8 d0))%string)
    else if byte_eqb d1 EC_SUBTYPE_MUP_DIRECT_SEG then
      Ok (NewMUPExtended (256 * u8 d2 + u8 d3)
                         (16777216 * u8 d4 + 65536 * u8 d5 + 256 * u8 d6 + u8 d7))
    else
      Err (MalformedAttribute ("unknown mup subtype: " ++ fmt.d (u8 d1))%string).
Proof.
  unfold parseMUPExtended.
  rewrite (index_ok _ 0 d0), (index_ok _ 1 d1) by (reflexivity || lia).
  cbn [rbind].
  destruct (byte_eqb d0 EC_TYPE_MUP); cbn [negb]; [|reflexivity].
  destruct (byte_eqb d1 EC_SUBTYPE_MUP_DIRECT_SEG); [|reflexivity].
  rewrite !reslice_ok by (unfold cap; cbn [elems spare length app]; lia).
  cbn [rbind]. unfold sub. cbn [elems spare app].
  change (Z.to_nat (4 - 2)) with 2%nat. change (Z.to_nat 2) with 2%nat.
  change (Z.to_nat (8 - 4)) with 4%nat. change (Z.to_nat 4) with 4%nat.
  cbn [firstn skipn].
  rewrite Uint16_elems, Uint32_elems. reflexivity.
Qed.

(** C9. On an input of at least 8 octets [parseMUPExtended] fails exactly
    when octet 0 is not the type tag or octet 1 is not the one defined
    sub-type; the error for a wrong sub-type names the offending value;
    when both tags match the result carries octets 2-3 and octets 4-7 read
    big-endian. *)
Theorem parseMUPExtended_spec (data : slice)
        (d0 d1 d2 d3 d4 d5 d6 d7 : byte) (rest : list byte) :
  elems data = d0 :: d1 :: d2 :: d3 :: d4 :: d5 :: d6 :: d7 :: rest ->
  ((exists e, parseMUPExtended data = Err e)
   <-> (d0 <> EC_TYPE_MUP \/ d1 <> EC_SUBTYPE_MUP_DIRECT_SEG))
  /\ parseMUPExtended data <> Panic
  /\ (d0 = EC_TYPE_MUP -> d1 <> EC_SUBTYPE_MUP_DIRECT_SEG ->
      parseMUPExtended data
      = Err (MalformedAttribute ("unknown mup subtype: " ++ fmt.d (u8 d1))%string))
  /\ (d0 = EC_TYPE_MUP -> d1 = EC_SUBTYPE_MUP_DIRECT_SEG ->
      parseMUPExtended data
      = Ok {| SubType := EC_SUBTYPE_MUP_DIRECT_SEG;
              SegmentID2 := 256 * u8 d2 + u8 d3;
              SegmentID4 := 16777216 * u8 d4 + 65536 * u8 d5 + 256 * u8 d6 + u8 d7 |}).
Proof.
  intros E. destruct data as [el sp]. cbn [elems] in E. subst el.
  rewrite parseMUPExtended_elems.
  destruct (byte_eqb d0 EC_TYPE_MUP) eqn:E0; cbn [negb];
    [apply byte_eqb_spec in E0|apply byte_eqb_neq in E0].
  - destruct (byte_eqb d1 EC_SUBTYPE_MUP_DIRECT_SEG) eqn:E1;
      [apply byte_eqb_spec in E1|apply byte_eqb_neq in E1].
    + repeat split; try discriminate; try reflexivity; try congruence.
      * intros [e He]. discriminate.
      * intros [H|H]; congruence.
    + repeat split; try discriminate; try reflexivity; try congruence.
      * intros _. right. exact E1.
      * intros _. eexists. reflexivity.
  - repeat split; try discriminate; try congruence.
    + intros _. left. exact E0.
    + intros _. eexists. reflexivity.
Qed.

(** ** The registry *)

(** C5. [getMUPRouteType] succeeds exactly for the architecture 3GPP-5G
    with one of the four defined route types, giving the matching empty
    route; for every other pair, a defined route type under another
    architecture included, it fails with an error whose text holds both
    numbers. *)
Theorem getMUPRouteType_registry (at_ : byte) (rt : Z) :
  ((exists r, getMUPRouteType at_ rt = Ok r) <-> registered at_ rt)
  /\ (~ registered at_ rt ->
      getMUPRouteType at_ rt
      = Err (MalformedAttribute
               ("Unknown MUP Architecture and Route type: "
                  ++ fmt.d (u8 at_) ++ ", " ++ fmt.d rt)%string))
  /\ (u8 at_ = MUP_ARCH_TYPE_3GPP_5G ->
      getMUPRouteType at_ MUP_ROUTE_TYPE_INTERWORK_SEGMENT_DISCOVERY
      = Ok (InterworkRoute zeroInterwork)
      /\ getMUPRouteType at_ MUP_ROUTE_TYPE_DIRECT_SEGMENT_DISCOVERY
         = Ok (DirectRoute zeroDirect)
      /\ getMUPRouteType at_ MUP_ROUTE_TYPE_TYPE_1_SESSION_TRANSFORMED
         = Ok (Type1Route zeroType1)
      /\ getMUPRouteType at_ MUP_ROUTE_TYPE_TYPE_2_SESSION_TRANSFORMED
         = Ok (Type2Route zeroType2)).
Proof.
  unfold registered, getMUPRouteType, MUP_ARCH_TYPE_3GPP_5G,
    MUP_ROUTE_TYPE_INTERWORK_SEGMENT_DISCOVERY, MUP_ROUTE_TYPE_DIRECT_SEGMENT_DISCOVERY,
    MUP_ROUTE_TYPE_TYPE_1_SESSION_TRANSFORMED, MUP_ROUTE_TYPE_TYPE_2_SESSION_TRANSFORMED.
  split; [|split].
  - destruct (Z.eqb_spec (u8 at_) 1), (Z.eqb_spec rt 1), (Z.eqb_spec rt 2),
      (Z.eqb_spec rt 3), (Z.eqb_spec rt 4); try lia;
      (split; [intros [r Hr]; try discriminate; lia
              | intros H; try lia; eexists; reflexivity]).
  - intros ND.
    destruct (Z.eqb_spec (u8 at_) 1), (Z.eqb_spec rt 1), (Z.eqb_spec rt 2),
      (Z.eqb_spec rt 3), (Z.eqb_spec rt 4);
      try reflexivity; exfalso; apply ND; lia.
  - intros EA. apply Z.eqb_eq in EA. cbn. rewrite EA. repeat split; reflexivity.
Qed.

(** ** Running a method step by step *)

Lemma run_modify {S B} (f : S -> S) (k : unit -> M S B) (s : S) :
  mbind (modify f) k s = k tt (f s).
Proof. reflexivity. Qed.

Lemma run_lift_Ok {S A B} (a : A) (k : A -> M S B) (s : S) :
  mbind (lift (Ok a)) k s = k a s.
Proof. reflexivity. Qed.

Lemma run_lift_Panic {S A B} (k : A -> M S B) (s : S) :
  mbind (lift (@Panic A)) k s = (s, Panic).
Proof. reflexivity. Qed.

Lemma run_fail {S A B} (detail : string) (k : A -> M S B) (s : S) :
  mbind (fail detail) k s = (s, Err (MalformedAttribute detail)).
Proof. reflexivity. Qed.

Lemma AddrFromSlice_4 (s : slice) :
  length (elems s) = 4%nat -> netip.AddrFromSlice s = (netip.V4 (elems s), true).
Proof. intros H. unfold netip.AddrFromSlice. rewrite H. reflexivity. Qed.

Lemma AddrFromSlice_16 (s : slice) :
  length (elems s) = 16%nat ->
  netip.AddrFromSlice s = (netip.V6 (elems s) EmptyString, true).
Proof. intros H. unfold netip.AddrFromSlice. rewrite H. reflexivity. Qed.

Lemma cap_ge_len (s : slice) : len s <= cap s.
Proof. unfold len, cap. rewrite length_app. lia. Qed.

(** ** Serialization with a nil distinguisher *)

(** C10. A route of any of the four kinds whose distinguisher is nil is
    serialized without failure: 8 zero octets, then the same octets that
    follow the distinguisher when one is present. *)
Theorem route_Serialize_nil_RD (r : MUPRouteTypeInterface) :
  route_rd r = None ->
  exists fields : list byte,
    route_Serialize r = Ok ([x00; x00; x00; x00; x00; x00; x00; x00] ++ fields)
    /\ forall (rd : RD) (bs : list byte),
        RD_Serialize rd = Ok bs ->
        route_Serialize (route_set_rd (Some rd) r) = Ok (bs ++ fields).
Proof.
  intros H. destruct r as [[rd pl pfx]|[rd a]|[rd pl pfx teid qfi eal ea]|[rd eal ea teid]];
    cbn in H; subst rd;
    unfold route_Serialize, route_set_rd,
      MUPInterworkSegmentDiscoveryRoute_Serialize, isd_set_RD,
      MUPDirectSegmentDiscoveryRoute_Serialize, dsd_set_RD,
      MUPType1SessionTransformedRoute_Serialize, t1_set_RD,
      MUPType2SessionTransformedRoute_Serialize, t2_set_RD;
    cbn -[binary.PutUint32 make]; rewrite ?PutUint32_make; cbn [rbind].
  - exists ([pl] ++ netip.AsSlice (netip.Addr_ pfx)). split.
    + reflexivity.
    + intros rd bs Hs. rewrite Hs. cbn [rbind]. rewrite <- app_assoc. reflexivity.
  - exists (netip.AsSlice a). split.
    + reflexivity.
    + intros rd bs Hs. rewrite Hs. reflexivity.
  - exists ([pl] ++ netip.AsSlice pfx
              ++ [byte_of_Z (Z.shiftr teid 24); byte_of_Z (Z.shiftr teid 16);
                  byte_of_Z (Z.shiftr teid 8); byte_of_Z teid]
              ++ [qfi] ++ [eal] ++ netip.AsSlice ea).
    split.
    + rewrite <- !app_assoc. reflexivity.
    + intros rd bs Hs. rewrite Hs. cbn [rbind]. rewrite <- !app_assoc. reflexivity.
  - exists ([eal] ++ netip.AsSlice ea
              ++ [byte_of_Z (Z.shiftr teid 24); byte_of_Z (Z.shiftr teid 16);
                  byte_of_Z (Z.shiftr teid 8); byte_of_Z teid]).
    split.
    + rewrite <- !app_assoc. reflexivity.
    + intros rd bs Hs. rewrite Hs. cbn [rbind]. rewrite <- !app_assoc. reflexivity.
Qed.

(** ** Direct Segment Discovery: the family comes from the body length *)

(** C7. [MUPDirectSegmentDiscoveryRoute.DecodeFromBytes] succeeds only on
    a body of exactly 12 or 24 octets and fails with MalformedAttribute on
    every other length; 12 octets (distinguisher and 4 address octets) give
    the IPv4 family, 24 octets (distinguisher and 16 address octets) the
    IPv6 family. *)
Theorem MUPDirectSegmentDiscoveryRoute_DecodeFromBytes_length
        (data : slice) (r0 : MUPDirectSegmentDiscoveryRoute) :
  let r := fst (MUPDirectSegmentDiscoveryRoute_DecodeFromBytes data r0) in
  let e := snd (MUPDirectSegmentDiscoveryRoute_DecodeFromBytes data r0) in
  (e = Ok tt -> len data = 12 \/ len data = 24)
  /\ (len data <> 12 -> len data <> 24 ->
      e = Err (MalformedAttribute "invalid Direct Segment Discovery Route length"))
  /\ (len data = 12 ->
      e = Ok tt
      /\ dsd_Address r = netip.V4 (sub (elems data) 8 12)
      /\ MUPDirectSegmentDiscoveryRoute_AFI r = AFI_IP)
  /\ (len data = 24 ->
      e = Ok tt
      /\ dsd_Address r = netip.V6 (sub (elems data) 8 24) EmptyString
      /\ MUPDirectSegmentDiscoveryRoute_AFI r = AFI_IP6).
Proof.
  cbv zeta. unfold MUPDirectSegmentDiscoveryRoute_DecodeFromBytes.
  rewrite run_modify, !RD_Len_8.
  pose proof (cap_ge_len data) as Hc.
  destruct (Z.eqb_spec (len data) 12) as [E12|N12];
    [|destruct (Z.eqb_spec (len data) 24) as [E24|N24]]; cbn [negb andb].
  - rewrite reslice_ok by lia. rewrite run_lift_Ok.
    rewrite AddrFromSlice_4.
    2:{ cbn [elems]. rewrite sub_elems by (unfold len in E12; lia).
        rewrite sub_length by (unfold len in E12; lia). reflexivity. }
    cbn [negb]. rewrite run_modify. cbn [fst snd mret dsd_set_Address dsd_Address].
    rewrite sub_elems by (unfold len in E12; lia).
    repeat split; try reflexivity; try lia.
  - rewrite reslice_ok by lia. rewrite run_lift_Ok.
    rewrite AddrFromSlice_16.
    2:{ cbn [elems]. rewrite sub_elems by (unfold len in E24; lia).
        rewrite sub_length by (unfold len in E24; lia). reflexivity. }
    cbn [negb]. rewrite run_modify. cbn [fst snd mret dsd_set_Address dsd_Address].
    rewrite sub_elems by (unfold len in E24; lia).
    repeat split; try reflexivity; try lia.
  - cbn [fail fst snd]. repeat split; try discriminate; try lia.
Qed.

Lemma reslice_elems_length (s t : slice) (lo hi : Z) :
  reslice s lo hi = Ok t -> length (elems t) = Z.to_nat (hi - lo).
Proof.
  intros H. apply reslice_inv in H as (H1 & H2 & ->). cbn [elems].
  apply sub_length; [lia|exact H2].
Qed.

Lemma index_len (s : slice) (i : Z) (b : byte) : index s i = Ok b -> i < len s.
Proof. intros H. apply index_inv in H. lia. Qed.

(** ** Type 2: the TEID is read with [Uint32] whatever its width *)

(** With a declared length inside a band but below its top, the TEID slice
    is shorter than 4 octets and [Uint32] panics on it. *)
Lemma Type2_DecodeFromBytes_narrow_teid (data : slice)
      (r0 : MUPType2SessionTransformedRoute) (eal : byte) :
  index data 8 = Ok eal ->
  32 <= u8 eal < 64 \/ 128 <= u8 eal < 160 ->
  snd (MUPType2SessionTransformedRoute_DecodeFromBytes data r0) = Panic.
Proof.
  intros Hi Hb. unfold MUPType2SessionTransformedRoute_DecodeFromBytes.
  rewrite run_modify, !RD_Len_8.
  pose proof (index_len _ _ _ Hi) as Hl.
  replace (len data <? 8) with false by (symmetry; apply Z.ltb_ge; lia).
  rewrite Hi, run_lift_Ok, run_modify.
  assert (Hd : 0 <= u8 eal / 8 - (if u8 eal <? 128 then 4 else 16) < 4).
  { destruct (Z.ltb_spec (u8 eal) 128); Z.div_mod_to_equations; lia. }
  destruct Hb as [Hb|Hb].
  - replace ((32 <=? u8 eal) && (u8 eal <=? 64)) with true
      by (symmetry; apply andb_true_iff; split; apply Z.leb_le; lia).
    replace (u8 eal <? 128) with true in Hd by (symmetry; apply Z.ltb_lt; lia).
    unfold mbind at 1. unfold mbind at 1.
    destruct (reslice data (8 + 1) (8 + 1 + 4)) as [a| |] eqn:Ea; cbn [lift];
      [|exfalso; eapply reslice_not_err; eassumption|reflexivity].
    rewrite AddrFromSlice_4 by (apply reslice_elems_length in Ea; rewrite Ea; reflexivity).
    cbn [negb mret]. rewrite run_modify.
    destruct (reslice data (8 + 1 + 4) (8 + 1 + 4 + (u8 eal / 8 - 4))) as [t| |] eqn:Et;
      [|exfalso; eapply reslice_not_err; eassumption|reflexivity].
    rewrite run_lift_Ok, Uint32_short; [reflexivity|].
    apply reslice_elems_length in Et. unfold len. lia.
  - replace ((32 <=? u8 eal) && (u8 eal <=? 64)) with false
      by (symmetry; apply andb_false_iff; right; apply Z.leb_gt; lia).
    replace ((128 <=? u8 eal) && (u8 eal <=? 160)) with true
      by (symmetry; apply andb_true_iff; split; apply Z.leb_le; lia).
    replace (u8 eal <? 128) with false in Hd by (symmetry; apply Z.ltb_ge; lia).
    unfold mbind at 1. unfold mbind at 1.
    destruct (reslice data (8 + 1) (8 + 1 + 16)) as [a| |] eqn:Ea; cbn [lift];
      [|exfalso; eapply reslice_not_err; eassumption|reflexivity].
    rewrite AddrFromSlice_16 by (apply reslice_elems_length in Ea; rewrite Ea; reflexivity).
    cbn [negb mret]. rewrite run_modify.
    destruct (reslice data (8 + 1 + 16) (8 + 1 + 16 + (u8 eal / 8 - 16))) as [t| |] eqn:Et;
      [|exfalso; eapply reslice_not_err; eassumption|reflexivity].
    rewrite run_lift_Ok, Uint32_short; [reflexivity|].
    apply reslice_elems_length in Et. unfold len. lia.
Qed.

Lemma index_app_at (d rest sp : list byte) (b : byte) (n : Z) :
  Z.of_nat (length d) = n -> index (mkSlice (d ++ b :: rest) sp) n = Ok b.
Proof.
  intros H. apply index_ok; [lia|]. cbn [elems].
  rewrite nth_error_app2 by lia.
  replace (Z.to_nat n - length d)%nat with 0%nat by lia. reflexivity.
Qed.

(** C1 on the code.  The spec's own example body, any 8-octet
    distinguisher followed by [48], [10,0,0,1] and [0,0,0,42], does not
    decode: the declared length 48 makes the TEID slice 2 octets long and
    [binary.BigEndian.Uint32] panics on it (index out of range).  The same
    happens for every declared length of either band other than 64 and 160,
    136 included. *)
Theorem MUPType2SessionTransformedRoute_DecodeFromBytes_48_panics
        (d : list byte) (r0 : MUPType2SessionTransformedRoute) :
  length d = 8%nat ->
  snd (MUPType2SessionTransformedRoute_DecodeFromBytes
         (fresh (d ++ [x30; x0a; x00; x00; x01; x00; x00; x00; x2a])) r0) = Panic
  /\ forall tail : list byte,
      snd (MUPType2SessionTransformedRoute_DecodeFromBytes
             (fresh (d ++ x88 :: tail)) r0) = Panic.
Proof.
  intros Hd. split; [|intros tail].
  - apply (Type2_DecodeFromBytes_narrow_teid _ _ x30).
    + apply index_app_at. lia.
    + left. vm_compute. split; [discriminate|reflexivity].
  - apply (Type2_DecodeFromBytes_narrow_teid _ _ x88).
    + apply index_app_at. lia.
    + right. vm_compute. split; [discriminate|reflexivity].
Qed.

Lemma index_total (s : slice) (i : Z) :
  0 <= i < len s -> exists b, index s i = Ok b.
Proof.
  intros H. destruct (nth_error (elems s) (Z.to_nat i)) as [b|] eqn:E.
  - exists b. apply index_ok; [lia|exact E].
  - apply nth_error_None in E. unfold len in H. lia.
Qed.

Lemma Uint32_be_value (s : slice) :
  length (elems s) = 4%nat -> binary.Uint32 s = Ok (be_value (elems s)).
Proof.
  destruct s as [[|b0 [|b1 [|b2 [|b3 [|]]]]] sp]; try discriminate. intros _.
  rewrite Uint32_elems. unfold be_value. cbn [fold_left elems]. f_equal. lia.
Qed.

Lemma reslice_backing (s : slice) (lo hi : Z) :
  0 <= lo <= hi -> hi <= cap s ->
  reslice s lo hi = Ok (mkSlice (sub (backing s) lo hi)
                                (skipn (Z.to_nat hi) (backing s))).
Proof. apply reslice_ok. Qed.

Lemma sub_backing_length (s : slice) (lo hi : Z) :
  0 <= lo <= hi -> hi <= cap s -> length (sub (backing s) lo hi) = Z.to_nat (hi - lo).
Proof. intros H1 H2. apply sub_length; [lia|exact H2]. Qed.

(** ** Type 1: the two declared lengths *)

Lemma Type1_DecodeFromBytes_bad_prefix_length (data : slice)
      (r0 : MUPType1SessionTransformedRoute) (pl : byte) :
  index data 8 = Ok pl -> u8 pl <> 32 -> u8 pl <> 128 ->
  snd (MUPType1SessionTransformedRoute_DecodeFromBytes data r0)
  = Err (MalformedAttribute ("Invalid Prefix length: " ++ fmt.d (u8 pl))%string).
Proof.
  intros Hi N32 N128. unfold MUPType1SessionTransformedRoute_DecodeFromBytes.
  rewrite run_modify, !RD_Len_8.
  pose proof (index_len _ _ _ Hi) as Hl.
  replace (len data <? 8) with false by (symmetry; apply Z.ltb_ge; lia).
  rewrite Hi, run_lift_Ok, run_modify.
  replace (u8 pl =? 32) with false by (symmetry; apply Z.eqb_neq; exact N32).
  replace (u8 pl =? 128) with false by (symmetry; apply Z.eqb_neq; exact N128).
  cbn [orb]. rewrite run_fail. reflexivity.
Qed.

(** What [DecodeFromBytes] does up to and including the read of the
    endpoint-address length, when the prefix length is accepted. *)
Lemma Type1_DecodeFromBytes_prefix_ok (data : slice)
      (r0 : MUPType1SessionTransformedRoute) (pl qfi eal : byte) :
  index data 8 = Ok pl -> u8 pl = 32 \/ u8 pl = 128 ->
  index data (13 + u8 pl / 8) = Ok qfi ->
  index data (14 + u8 pl / 8) = Ok eal ->
  MUPType1SessionTransformedRoute_DecodeFromBytes data r0
  = ((if (u8 eal =? 32) || (u8 eal =? 128) then
        a <- lift (reslice data (15 + u8 pl / 8) (15 + u8 pl / 8 + u8 eal / 8)) ;;
        let '(ea, ok) := netip.AddrFromSlice a in
        if negb ok then
          a' <- lift (reslice data (15 + u8 pl / 8) (15 + u8 pl / 8 + u8 eal / 8)) ;;
          fail ("Invalid Endpoint Address: " ++ fmt.x (elems a'))
        else modify (t1_set_EndpointAddress ea)
      else
        fail ("Invalid Endpoint Address length: " ++ fmt.d (u8 eal))) ;;
     mret tt)%recv
      (mkType1 (Some (GetRouteDistinguisher data)) pl
               (if u8 pl =? 32
                then netip.V4 (sub (backing data) 9 (9 + u8 pl / 8))
                else netip.V6 (sub (backing data) 9 (9 + u8 pl / 8)) EmptyString)
               (be_value (sub (backing data) (9 + u8 pl / 8) (13 + u8 pl / 8)))
               qfi eal (t1_EndpointAddress r0)).
Proof.
  intros Hi Hp Hq He. unfold MUPType1SessionTransformedRoute_DecodeFromBytes.
  rewrite run_modify, !RD_Len_8.
  pose proof (index_len _ _ _ He) as Hl. pose proof (cap_ge_len data) as Hc.
  assert (Hd : u8 pl / 8 = 4 \/ u8 pl / 8 = 16)
    by (destruct Hp as [-> | ->]; [left|right]; reflexivity).
  replace (len data <? 8) with false by (symmetry; apply Z.ltb_ge; lia).
  rewrite Hi, run_lift_Ok, run_modify.
  replace ((u8 pl =? 32) || (u8 pl =? 128)) with true
    by (symmetry; apply orb_true_iff; destruct Hp; [left|right]; apply Z.eqb_eq; assumption).
  set (tailprog := (if (u8 eal =? 32) || (u8 eal =? 128) then _ else _)).
  replace (8 + 1 + u8 pl / 8 + 4 + 1 + 1) with (15 + u8 pl / 8) in * by lia.
  unfold mbind at 1. unfold mbind at 1. unfold mbind at 1.
  rewrite reslice_backing by lia. cbn [lift].
  assert (Ha : netip.AddrFromSlice
                 {| elems := sub (backing data) (8 + 1) (8 + 1 + u8 pl / 8);
                    spare := skipn (Z.to_nat (8 + 1 + u8 pl / 8)) (backing data) |}
               = (if u8 pl =? 32
                  then netip.V4 (sub (backing data) 9 (9 + u8 pl / 8))
                  else netip.V6 (sub (backing data) 9 (9 + u8 pl / 8)) EmptyString, true)).
  { destruct Hp as [E|E].
    - assert (u8 pl / 8 = 4) by (rewrite E; reflexivity).
      replace (u8 pl =? 32) with true by (symmetry; apply Z.eqb_eq; exact E).
      apply AddrFromSlice_4. cbn [elems]. rewrite sub_backing_length by lia. lia.
    - assert (u8 pl / 8 = 16) by (rewrite E; reflexivity).
      replace (u8 pl =? 32) with false by (symmetry; apply Z.eqb_neq; lia).
      apply AddrFromSlice_16. cbn [elems]. rewrite sub_backing_length by lia. lia. }
  rewrite Ha. cbn [negb modify].
  rewrite reslice_backing by lia. rewrite run_lift_Ok.
  rewrite Uint32_be_value
    by (cbn [elems]; rewrite sub_backing_length by lia; lia).
  rewrite run_lift_Ok, run_modify.
  replace (8 + 1 + u8 pl / 8 + 4) with (13 + u8 pl / 8) by lia.
  rewrite Hq, run_lift_Ok, run_modify.
  replace (13 + u8 pl / 8 + 1) with (14 + u8 pl / 8) by lia.
  rewrite He, run_lift_Ok, run_modify.
  cbn [elems]. replace (8 + 1) with 9 by reflexivity.
  replace (9 + u8 pl / 8 + 4) with (13 + u8 pl / 8) by lia.
  reflexivity.
Qed.

Lemma Type1_DecodeFromBytes_ok (data : slice)
      (r0 : MUPType1SessionTransformedRoute) (pl qfi eal : byte) :
  index data 8 = Ok pl ->
  u8 pl = 32 \/ u8 pl = 128 ->
  index data (13 + u8 pl / 8) = Ok qfi ->
  index data (14 + u8 pl / 8) = Ok eal ->
  u8 eal = 32 \/ u8 eal = 128 ->
  15 + u8 pl / 8 + u8 eal / 8 <= cap data ->
  MUPType1SessionTransformedRoute_DecodeFromBytes data r0
  = (mkType1 (Some (GetRouteDistinguisher data)) pl
             (if u8 pl =? 32
              then netip.V4 (sub (backing data) 9 (9 + u8 pl / 8))
              else netip.V6 (sub (backing data) 9 (9 + u8 pl / 8)) EmptyString)
             (be_value (sub (backing data) (9 + u8 pl / 8) (13 + u8 pl / 8)))
             qfi eal
             (if u8 eal =? 32
              then netip.V4 (sub (backing data) (15 + u8 pl / 8)
                                 (15 + u8 pl / 8 + u8 eal / 8))
              else netip.V6 (sub (backing data) (15 + u8 pl / 8)
                                 (15 + u8 pl / 8 + u8 eal / 8)) EmptyString),
     Ok tt).
Proof.
  intros Hi Hp Hq He Hv Hc.
  assert (Hd : u8 pl / 8 = 4 \/ u8 pl / 8 = 16)
    by (destruct Hp as [-> | ->]; [left|right]; reflexivity).
  rewrite (Type1_DecodeFromBytes_prefix_ok data r0 pl qfi eal) by assumption.
  replace ((u8 eal =? 32) || (u8 eal =? 128)) with true
    by (symmetry; apply orb_true_iff; destruct Hv; [left|right]; apply Z.eqb_eq; assumption).
  assert (Hd' : u8 eal / 8 = 4 \/ u8 eal / 8 = 16)
    by (destruct Hv as [E | E]; rewrite E; [left|right]; reflexivity).
  unfold mbind at 1. unfold mbind at 1.
  rewrite reslice_backing by lia. cbn [lift].
  destruct Hv as [E|E].
  + assert (u8 eal / 8 = 4) by (rewrite E; reflexivity).
    replace (u8 eal =? 32) with true by (symmetry; apply Z.eqb_eq; exact E).
    rewrite AddrFromSlice_4
      by (cbn [elems]; rewrite sub_backing_length by lia; lia).
    reflexivity.
  + assert (u8 eal / 8 = 16) by (rewrite E; reflexivity).
    replace (u8 eal =? 32) with false by (symmetry; apply Z.eqb_neq; lia).
    rewrite AddrFromSlice_16
      by (cbn [elems]; rewrite sub_backing_length by lia; lia).
    reflexivity.
Qed.

(** C6. [MUPType1SessionTransformedRoute.DecodeFromBytes]: a declared
    prefix length other than 32 and 128 is rejected with MalformedAttribute,
    and so is a declared endpoint-address length other than 32 and 128;
    when both are 32 or 128 and the body holds the fields, the prefix
    address, the TEID (4 octets, big-endian), the QFI (1 octet) and, after
    its length octet, the endpoint address are read in that order after the
    8-octet distinguisher. *)
Theorem MUPType1SessionTransformedRoute_DecodeFromBytes_lengths
        (data : slice) (r0 : MUPType1SessionTransformedRoute) (pl : byte) :
  index data 8 = Ok pl ->
  (u8 pl <> 32 -> u8 pl <> 128 ->
   snd (MUPType1SessionTransformedRoute_DecodeFromBytes data r0)
   = Err (MalformedAttribute ("Invalid Prefix length: " ++ fmt.d (u8 pl))%string))
  /\ (forall eal : byte,
         u8 pl = 32 \/ u8 pl = 128 ->
         index data (14 + u8 pl / 8) = Ok eal ->
         u8 eal <> 32 -> u8 eal <> 128 ->
         snd (MUPType1SessionTransformedRoute_DecodeFromBytes data r0)
         = Err (MalformedAttribute
                  ("Invalid Endpoint Address length: " ++ fmt.d (u8 eal))%string))
  /\ (forall qfi eal : byte,
         u8 pl = 32 \/ u8 pl = 128 ->
         index data (13 + u8 pl / 8) = Ok qfi ->
         index data (14 + u8 pl / 8) = Ok eal ->
         u8 eal = 32 \/ u8 eal = 128 ->
         15 + u8 pl / 8 + u8 eal / 8 <= cap data ->
         MUPType1SessionTransformedRoute_DecodeFromBytes data r0
         = (mkType1 (Some (GetRouteDistinguisher data)) pl
                    (if u8 pl =? 32
                     then netip.V4 (sub (backing data) 9 (9 + u8 pl / 8))
                     else netip.V6 (sub (backing data) 9 (9 + u8 pl / 8)) EmptyString)
                    (be_value (sub (backing data) (9 + u8 pl / 8) (13 + u8 pl / 8)))
                    qfi eal
                    (if u8 eal =? 32
                     then netip.V4 (sub (backing data) (15 + u8 pl / 8)
                                        (15 + u8 pl / 8 + u8 eal / 8))
                     else netip.V6 (sub (backing data) (15 + u8 pl / 8)
                                        (15 + u8 pl / 8 + u8 eal / 8)) EmptyString),
            Ok tt)).
Proof.
  intros Hi. split; [|split].
  - intros N32 N128. apply Type1_DecodeFromBytes_bad_prefix_length; assumption.
  - intros eal Hp He N32 N128.
    assert (Hd : u8 pl / 8 = 4 \/ u8 pl / 8 = 16)
      by (destruct Hp as [-> | ->]; [left|right]; reflexivity).
    pose proof (index_len _ _ _ He) as Hl.
    destruct (index_total data (13 + u8 pl / 8)) as [qfi Hq]; [lia|].
    rewrite (Type1_DecodeFromBytes_prefix_ok data r0 pl qfi eal) by assumption.
    replace (u8 eal =? 32) with false by (symmetry; apply Z.eqb_neq; exact N32).
    replace (u8 eal =? 128) with false by (symmetry; apply Z.eqb_neq; exact N128).
    cbn [orb]. rewrite run_fail. reflexivity.
  - intros qfi eal Hp Hq He Hv Hc.
    apply Type1_DecodeFromBytes_ok; assumption.
Qed.

(** ** The envelope *)

Lemma skipn_length_app (a b : list byte) : skipn (length a) (a ++ b) = b.
Proof.
  rewrite skipn_app, skipn_all, Nat.sub_diag. reflexivity.
Qed.

Lemma firstn_length_app (a b : list byte) : firstn (length a) (a ++ b) = a.
Proof.
  rewrite firstn_app, firstn_all, Nat.sub_diag, firstn_O, app_nil_r. reflexivity.
Qed.

Lemma reslice_from_app (a b sp : list byte) :
  reslice_from (mkSlice (a ++ b) sp) (Z.of_nat (length a)) = Ok (mkSlice b sp).
Proof.
  unfold reslice_from, len. cbn [elems].
  rewrite reslice_ok
    by (unfold cap; cbn [elems spare]; rewrite ?length_app; lia).
  unfold sub. cbn [elems spare].
  replace (Z.to_nat (Z.of_nat (length (a ++ b)) - Z.of_nat (length a)))
    with (length b) by (rewrite length_app; lia).
  rewrite !Nat2Z.id. f_equal. f_equal.
  - rewrite <- app_assoc, skipn_length_app. apply firstn_length_app.
  - apply skipn_length_app.
Qed.

Lemma reslice_to_app (a b sp : list byte) :
  reslice_to (mkSlice (a ++ b) sp) (Z.of_nat (length a)) = Ok (mkSlice a (b ++ sp)).
Proof.
  unfold reslice_to.
  rewrite reslice_ok
    by (unfold cap; cbn [elems spare]; rewrite ?length_app; lia).
  unfold sub. cbn [elems spare]. rewrite Z.sub_0_r, Nat2Z.id.
  change (Z.to_nat 0) with 0%nat. cbn [skipn].
  rewrite <- app_assoc. f_equal. f_equal.
  - apply firstn_length_app.
  - apply skipn_length_app.
Qed.

Lemma MUPNLRI_Serialize_eq (n : MUPNLRI) (r : MUPRouteTypeInterface) (tbuf : list byte) :
  RouteTypeData n = Some r -> route_Serialize r = Ok tbuf ->
  MUPNLRI_Serialize n
  = Ok ([ArchitectureType n; byte_of_Z (Z.shiftr (RouteType n) 8);
         byte_of_Z (RouteType n); Length n] ++ tbuf).
Proof.
  intros H1 H2. unfold MUPNLRI_Serialize. rewrite H1, H2. reflexivity.
Qed.

(** The envelope decoder up to the hand-over to the registry. *)
Lemma MUPNLRI_DecodeFromBytes_header (at_ h l ln : byte) (body sp : list byte)
      (n0 : MUPNLRI) :
  MUPNLRI_DecodeFromBytes (mkSlice (at_ :: h :: l :: ln :: body) sp) n0
  = (if Z.of_nat (length body) <? u8 ln then
       fail "Not all MUPNLRI Route type bytes available"
     else
       r <- lift (getMUPRouteType at_ (256 * u8 h + u8 l)) ;;
       modify (set_RouteTypeData (Some r)) ;;
       d <- lift (reslice_to (mkSlice body sp) (u8 ln)) ;;
       RouteTypeData_DecodeFromBytes d)%recv
      (mkMUPNLRI at_ (256 * u8 h + u8 l) ln (RouteTypeData n0)).
Proof.
  unfold MUPNLRI_DecodeFromBytes.
  replace (len (mkSlice (at_ :: h :: l :: ln :: body) sp) <? 4) with false
    by (symmetry; apply Z.ltb_ge; unfold len; cbn [elems length]; lia).
  rewrite (index_ok _ 0 at_) by (reflexivity || lia).
  rewrite run_lift_Ok, run_modify.
  rewrite reslice_ok
    by (unfold cap; cbn [elems spare length app]; lia).
  rewrite run_lift_Ok.
  unfold sub. cbn [elems spare app].
  change (Z.to_nat (3 - 1)) with 2%nat. change (Z.to_nat 1) with 1%nat.
  cbn [skipn firstn]. rewrite Uint16_elems, run_lift_Ok, run_modify.
  rewrite (index_ok _ 3 ln) by (reflexivity || lia).
  rewrite run_lift_Ok, run_modify.
  change (at_ :: h :: l :: ln :: body) with ([at_; h; l; ln] ++ body).
  change 4 with (Z.of_nat (length [at_; h; l; ln])).
  rewrite reslice_from_app, run_lift_Ok.
  reflexivity.
Qed.

(** C4. Decoding a proper non-empty prefix of the encoding of an envelope
    whose length field is the size of its serialized body fails with
    MalformedAttribute: on the header check below 4 octets, on the body
    length check from 4 octets on.  No panic, whatever lies in the buffer
    behind the prefix. *)
Theorem MUPNLRI_DecodeFromBytes_truncated
        (n : MUPNLRI) (r : MUPRouteTypeInterface) (tbuf b p q sp : list byte)
        (n0 : MUPNLRI) :
  RouteTypeData n = Some r ->
  route_Serialize r = Ok tbuf ->
  u8 (Length n) = Z.of_nat (length tbuf) ->
  MUPNLRI_Serialize n = Ok b ->
  b = p ++ q -> p <> [] -> q <> [] ->
  snd (MUPNLRI_DecodeFromBytes (mkSlice p sp) n0)
  = Err (MalformedAttribute
           (if (length p <? 4)%nat
            then "Not all MUPNLRI bytes available"
            else "Not all MUPNLRI Route type bytes available")).
Proof.
  intros Hr Hs Hl Hb E Hp Hq.
  rewrite (MUPNLRI_Serialize_eq n r tbuf Hr Hs) in Hb.
  injection Hb as <-.
  destruct p as [|x0 [|x1 [|x2 [|x3 p']]]]; try congruence;
    try (unfold MUPNLRI_DecodeFromBytes; reflexivity).
  cbn [app] in E. injection E as <- _ _ <- Et.
  rewrite MUPNLRI_DecodeFromBytes_header.
  replace (Z.of_nat (length p') <? u8 (Length n)) with true.
  - reflexivity.
  - symmetry. apply Z.ltb_lt. rewrite Hl, Et, length_app.
    destruct q; [congruence|]. cbn [length]. lia.
Qed.

(** C2 as the code has it.  [MUPNLRI.Serialize] copies the stored [Length]
    field into octet 3 of the header; it does not recompute it.  The field
    of an envelope made by [NewMUPNLRI] is the 8-bit truncation of the
    body's [Len()]. *)
Theorem MUPNLRI_Serialize_length_octet
        (n : MUPNLRI) (r : MUPRouteTypeInterface) (tbuf : list byte) :
  RouteTypeData n = Some r ->
  route_Serialize r = Ok tbuf ->
  MUPNLRI_Serialize n
  = Ok ([ArchitectureType n; byte_of_Z (Z.shiftr (RouteType n) 8);
         byte_of_Z (RouteType n); Length n] ++ tbuf)
  /\ forall (at_ : byte) (rt : Z),
      MUPNLRI_Serialize (NewMUPNLRI at_ rt (Some r))
      = Ok ([at_; byte_of_Z (Z.shiftr rt 8); byte_of_Z rt; byte_of_Z (route_Len r)]
              ++ tbuf).
Proof.
  intros Hr Hs. split.
  - apply (MUPNLRI_Serialize_eq n r tbuf); assumption.
  - intros at_ rt.
    apply (MUPNLRI_Serialize_eq (NewMUPNLRI at_ rt (Some r)) r tbuf); [reflexivity|exact Hs].
Qed.

(** ** Symbolic execution of a successful decode *)

Lemma run_bind_assoc {S A B C} (m : M S A) (k1 : A -> M S B) (k2 : B -> M S C) (s : S) :
  mbind (mbind m k1) k2 s = mbind m (fun a => mbind (k1 a) k2) s.
Proof.
  unfold mbind. destruct (m s) as [s' [a| |]]; reflexivity.
Qed.

Lemma run_mret {S A B} (a : A) (k : A -> M S B) (s : S) :
  mbind (mret a) k s = k a s.
Proof. reflexivity. Qed.

Lemma run_lift_Err {S A B} (e : MessageError) (k : A -> M S B) (s : S) :
  mbind (lift (@Err A e)) k s = (s, Err e).
Proof. reflexivity. Qed.

Lemma run_if {S A B} (c : bool) (m1 m2 : M S A) (k : A -> M S B) (s : S) :
  mbind (if c then m1 else m2) k s = if c then mbind m1 k s else mbind m2 k s.
Proof. destruct c; reflexivity. Qed.

Lemma run_if_top {S A} (c : bool) (m1 m2 : M S A) (s : S) :
  (if c then m1 else m2) s = if c then m1 s else m2 s.
Proof. destruct c; reflexivity. Qed.

Lemma run_pair {S A B X Y} (p : X * Y) (f : X -> Y -> M S A) (k : A -> M S B) (s : S) :
  mbind (let '(x, y) := p in f x y) k s = mbind (f (fst p) (snd p)) k s.
Proof. destruct p; reflexivity. Qed.

Lemma run_pair_top {S A X Y} (p : X * Y) (f : X -> Y -> M S A) (s : S) :
  (let '(x, y) := p in f x y) s = f (fst p) (snd p) s.
Proof. destruct p; reflexivity. Qed.

Ltac mstep H :=
  first
    [ rewrite run_modify in H
    | rewrite run_bind_assoc in H
    | rewrite run_mret in H
    | rewrite run_pair in H
    | rewrite run_pair_top in H
    | rewrite run_if in H
    | rewrite run_if_top in H
    | rewrite run_fail in H; discriminate H
    | match type of H with
      | mbind (lift ?r) _ _ = _ =>
          let E := fresh "E" in
          destruct r eqn:E;
          [ rewrite run_lift_Ok in H
          | rewrite run_lift_Err in H; discriminate H
          | rewrite run_lift_Panic in H; discriminate H ]
      | (if ?c then _ else _) = _ =>
          let E := fresh "C" in destruct c eqn:E
      | fail _ _ = _ => unfold fail in H; discriminate H
      end ].

Ltac mexec H := repeat (mstep H; cbv beta iota in H).

Lemma AddrFromSlice_ok (s : slice) :
  snd (netip.AddrFromSlice s) = true ->
  (length (elems s) = 4%nat /\ fst (netip.AddrFromSlice s) = netip.V4 (elems s))
  \/ (length (elems s) = 16%nat
      /\ fst (netip.AddrFromSlice s) = netip.V6 (elems s) EmptyString).
Proof.
  unfold netip.AddrFromSlice.
  destruct (length (elems s)) as [|[|[|[|[|n]]]]] eqn:E; cbn; try discriminate.
  - intros _. left. split; reflexivity.
  - do 11 (destruct n as [|n]; cbn; try discriminate).
    destruct n; cbn; [|discriminate]. intros _. right. split; reflexivity.
Qed.

Lemma firstn8_sub (s : slice) :
  8 <= len s -> firstn 8 (elems s) = sub (backing s) 0 8.
Proof.
  intros H. unfold backing. rewrite sub_elems by (unfold len in H; lia).
  reflexivity.
Qed.

Lemma index_sub (s : slice) (i : Z) (b : byte) :
  index s i = Ok b -> sub (backing s) i (i + 1) = [b].
Proof.
  intros H. apply index_inv in H as [H1 H2].
  apply sub_single; [lia|]. unfold backing.
  rewrite nth_error_app1; [exact H2|]. unfold len in H1. lia.
Qed.

Lemma reslice_sub (s t : slice) (lo hi : Z) :
  reslice s lo hi = Ok t ->
  elems t = sub (backing s) lo hi /\ 0 <= lo <= hi /\ hi <= cap s.
Proof.
  intros H. apply reslice_inv in H as (H1 & H2 & ->). cbn [elems].
  repeat split; lia.
Qed.

Lemma Uint32_put (t : slice) (v : Z) :
  binary.Uint32 t = Ok v -> length (elems t) = 4%nat ->
  binary.PutUint32 (make 4) 0 4 v = Ok (elems t).
Proof.
  intros H L. apply Uint32_inv in H as (b0 & b1 & b2 & b3 & rest & E & ->).
  rewrite E in L |- *. destruct rest; [|discriminate].
  rewrite PutUint32_make.
  destruct (put_of_be32 b0 b1 b2 b3) as (-> & -> & -> & ->). reflexivity.
Qed.

Lemma Uint32_len (t : slice) (v : Z) : binary.Uint32 t = Ok v -> 4 <= len t.
Proof.
  intros H. destruct (Z.lt_ge_cases (len t) 4) as [L|G]; [|exact G].
  rewrite Uint32_short in H by exact L. discriminate.
Qed.

Lemma Interwork_decode_serialize (data : slice)
      (r0 r : MUPInterworkSegmentDiscoveryRoute) :
  MUPInterworkSegmentDiscoveryRoute_DecodeFromBytes data r0 = (r, Ok tt) ->
  0 <= MUPInterworkSegmentDiscoveryRoute_Len r <= cap data
  /\ MUPInterworkSegmentDiscoveryRoute_Serialize r
     = Ok (sub (backing data) 0 (MUPInterworkSegmentDiscoveryRoute_Len r)).
Proof.
  unfold MUPInterworkSegmentDiscoveryRoute_DecodeFromBytes. intros H.
  rewrite !RD_Len_8 in H. mexec H.
  injection H as <-.
  pose proof (index_len _ _ _ E) as Hl. pose proof (cap_ge_len data) as Hc.
  apply negb_false_iff in C0.
  unfold reslice_from in E0. apply reslice_sub in E0 as (Ea & _ & _).
  assert (La : length (elems a0) = Z.to_nat (len data - 9))
    by (rewrite Ea; apply sub_backing_length; lia).
  unfold MUPInterworkSegmentDiscoveryRoute_Len, MUPInterworkSegmentDiscoveryRoute_Serialize.
  cbn [isd_set_Prefix isd_set_PrefixLength isd_set_RD isd_RD isd_PrefixLength isd_Prefix].
  rewrite RD_Serialize_Get by (unfold len in Hl; lia). cbn [rbind].
  rewrite firstn8_sub by lia. rewrite <- (index_sub _ _ _ E).
  assert (Hp : netip.Addr_ (netip.PrefixFrom (fst (netip.AddrFromSlice a0)) (u8 a))
               = netip.withoutZone (fst (netip.AddrFromSlice a0))).
  { unfold netip.PrefixFrom. destruct (_ && _); reflexivity. }
  rewrite Hp.
  destruct (AddrFromSlice_ok a0 C0) as [[L ->]|[L ->]];
    cbn [netip.withoutZone netip.AsSlice netip.BitLen];
    [change (32 / 8) with 4|change (128 / 8) with 16];
    (split; [lia|]);
    rewrite Ea, !sub_app by lia; do 2 f_equal; lia.
Qed.

Ltac norm_tests :=
  repeat match goal with
    | X : (_ =? _) = true |- _ => apply Z.eqb_eq in X
    | X : (_ =? _) = false |- _ => apply Z.eqb_neq in X
    | X : (_ <? _) = true |- _ => apply Z.ltb_lt in X
    | X : (_ <? _) = false |- _ => apply Z.ltb_ge in X
    | X : (_ <=? _) = true |- _ => apply Z.leb_le in X
    | X : (_ <=? _) = false |- _ => apply Z.leb_gt in X
    | X : negb _ = false |- _ => apply negb_false_iff in X
    | X : _ && _ = true |- _ => apply andb_true_iff in X as [? ?]
    | X : _ || _ = false |- _ => apply orb_false_iff in X as [? ?]
    end.

Lemma Direct_decode_serialize (data : slice)
      (r0 r : MUPDirectSegmentDiscoveryRoute) :
  MUPDirectSegmentDiscoveryRoute_DecodeFromBytes data r0 = (r, Ok tt) ->
  0 <= MUPDirectSegmentDiscoveryRoute_Len r <= cap data
  /\ MUPDirectSegmentDiscoveryRoute_Serialize r
     = Ok (sub (backing data) 0 (MUPDirectSegmentDiscoveryRoute_Len r)).
Proof.
  unfold MUPDirectSegmentDiscoveryRoute_DecodeFromBytes. intros H.
  rewrite !RD_Len_8 in H. pose proof (cap_ge_len data) as Hc.
  mexec H; cbn [negb andb] in *; try discriminate; norm_tests;
    injection H as <-;
    match goal with
    | X : reslice _ _ _ = Ok ?a |- _ => apply reslice_sub in X as (Ea & _ & _)
    end;
    unfold MUPDirectSegmentDiscoveryRoute_Len, MUPDirectSegmentDiscoveryRoute_Serialize;
    cbn [dsd_set_Address dsd_set_RD dsd_RD dsd_Address];
    rewrite RD_Serialize_Get by (unfold len in *; lia); cbn [rbind];
    rewrite firstn8_sub by lia;
    match goal with
    | X : snd (netip.AddrFromSlice ?a) = true |- _ =>
        assert (La : length (elems a) = Z.to_nat (len data - 8))
          by (rewrite Ea, sub_backing_length by lia; f_equal; lia);
        destruct (AddrFromSlice_ok a X) as [[L ->]|[L ->]]
    end; try lia;
    cbn [netip.AsSlice netip.BitLen];
    [change (32 / 8) with 4|change (128 / 8) with 16];
    (split; [lia|]); rewrite Ea, sub_app by lia; reflexivity.
Qed.

Lemma AsSlice_AddrFromSlice (s : slice) :
  snd (netip.AddrFromSlice s) = true ->
  netip.AsSlice (fst (netip.AddrFromSlice s)) = elems s.
Proof.
  intros H. destruct (AddrFromSlice_ok s H) as [[_ ->]|[_ ->]]; reflexivity.
Qed.

Lemma valid_length_div (b : byte) :
  (u8 b =? 32) || (u8 b =? 128) = true -> u8 b / 8 = 4 \/ u8 b / 8 = 16.
Proof.
  intros H. apply orb_true_iff in H as [H|H]; apply Z.eqb_eq in H; rewrite H;
    [left|right]; reflexivity.
Qed.

Lemma Type1_decode_serialize (data : slice)
      (r0 r : MUPType1SessionTransformedRoute) :
  MUPType1SessionTransformedRoute_DecodeFromBytes data r0 = (r, Ok tt) ->
  0 <= MUPType1SessionTransformedRoute_Len r <= cap data
  /\ MUPType1SessionTransformedRoute_Serialize r
     = Ok (sub (backing data) 0 (MUPType1SessionTransformedRoute_Len r)).
Proof.
  unfold MUPType1SessionTransformedRoute_DecodeFromBytes. intros H.
  rewrite !RD_Len_8 in H. pose proof (cap_ge_len data) as Hc.
  mexec H; cbn [negb andb] in *; try discriminate; norm_tests.
  injection H as <-.
  apply valid_length_div in C0, C2.
  pose proof (index_len _ _ _ E4) as Hl.
  apply reslice_sub in E0 as (Ea0 & _ & _).
  pose proof (reslice_elems_length _ _ _ _ E1) as La1.
  apply reslice_sub in E1 as (Ea1 & _ & _).
  apply reslice_sub in E5 as (Ea5 & _ & Hc5).
  unfold MUPType1SessionTransformedRoute_Len, MUPType1SessionTransformedRoute_Serialize.
  cbn [t1_set_EndpointAddress t1_set_EndpointAddressLength t1_set_QFI t1_set_TEID
       t1_set_Prefix t1_set_PrefixLength t1_set_RD
       t1_RD t1_PrefixLength t1_Prefix t1_TEID t1_QFI t1_EndpointAddressLength
       t1_EndpointAddress].
  rewrite RD_Serialize_Get by (unfold len in *; lia). cbn [rbind].
  rewrite (Uint32_put a1 a2 E2) by (rewrite La1; lia). cbn [rbind].
  rewrite !AsSlice_AddrFromSlice by assumption.
  rewrite firstn8_sub by lia.
  rewrite <- (index_sub _ _ _ E), <- (index_sub _ _ _ E3), <- (index_sub _ _ _ E4).
  rewrite Ea0, Ea1, Ea5.
  split; [lia|].
  rewrite !sub_app by lia. do 2 f_equal. lia.
Qed.

Lemma Type2_decode_serialize (data : slice)
      (r0 r : MUPType2SessionTransformedRoute) :
  MUPType2SessionTransformedRoute_DecodeFromBytes data r0 = (r, Ok tt) ->
  0 <= MUPType2SessionTransformedRoute_Len r <= cap data
  /\ MUPType2SessionTransformedRoute_Serialize r
     = Ok (sub (backing data) 0 (MUPType2SessionTransformedRoute_Len r)).
Proof.
  unfold MUPType2SessionTransformedRoute_DecodeFromBytes. intros H.
  rewrite !RD_Len_8 in H. pose proof (cap_ge_len data) as Hc.
  mexec H; cbn [negb andb] in *; try discriminate; norm_tests;
    injection H as <-;
    pose proof (index_len _ _ _ E) as Hl;
    apply reslice_sub in E0 as (Ea0 & _ & _);
    pose proof (reslice_elems_length _ _ _ _ E1) as La1;
    pose proof (Uint32_len _ _ E2) as L4; unfold len in L4;
    apply reslice_sub in E1 as (Ea1 & Hr1 & Hc1);
    unfold MUPType2SessionTransformedRoute_Len, MUPType2SessionTransformedRoute_Serialize;
    cbn [t2_set_TEID t2_set_EndpointAddress t2_set_EndpointAddressLength t2_set_RD
         t2_RD t2_EndpointAddressLength t2_EndpointAddress t2_TEID];
    rewrite RD_Serialize_Get by (unfold len in *; lia); cbn [rbind];
    [assert (Hw : u8 a / 8 = 8) by (Z.div_mod_to_equations; lia)
    |pose proof (u8_range a);
     assert (Hw : u8 a / 8 = 20) by (Z.div_mod_to_equations; lia)];
    rewrite (Uint32_put a1 a2 E2) by (rewrite La1; lia); cbn [rbind];
    rewrite !AsSlice_AddrFromSlice by assumption;
    rewrite firstn8_sub by lia;
    rewrite <- (index_sub _ _ _ E);
    rewrite Ea0, Ea1;
    (split; [lia|]);
    rewrite !sub_app by lia; do 2 f_equal; lia.
Qed.

Lemma route_decode_serialize (data : slice) (r0 r : MUPRouteTypeInterface) :
  route_DecodeFromBytes data r0 = (r, Ok tt) ->
  0 <= route_Len r <= cap data
  /\ route_Serialize r = Ok (sub (backing data) 0 (route_Len r)).
Proof.
  destruct r0 as [x|x|x|x]; cbn [route_DecodeFromBytes]; intros H.
  - destruct (MUPInterworkSegmentDiscoveryRoute_DecodeFromBytes data x) as [x' e] eqn:E.
    injection H as <- ->. apply (Interwork_decode_serialize _ _ _ E).
  - destruct (MUPDirectSegmentDiscoveryRoute_DecodeFromBytes data x) as [x' e] eqn:E.
    injection H as <- ->. apply (Direct_decode_serialize _ _ _ E).
  - destruct (MUPType1SessionTransformedRoute_DecodeFromBytes data x) as [x' e] eqn:E.
    injection H as <- ->. apply (Type1_decode_serialize _ _ _ E).
  - destruct (MUPType2SessionTransformedRoute_DecodeFromBytes data x) as [x' e] eqn:E.
    injection H as <- ->. apply (Type2_decode_serialize _ _ _ E).
Qed.

(** ** Decoding what was serialized *)

(** The octets of [b] inside [a ++ b ++ c]. *)
Lemma sub_at (l a b c : list byte) (lo hi : Z) :
  l = a ++ b ++ c -> lo = Z.of_nat (length a) -> hi = lo + Z.of_nat (length b) ->
  sub l lo hi = b.
Proof.
  intros -> -> ->. unfold sub.
  replace (Z.to_nat (Z.of_nat (length a) + Z.of_nat (length b) - Z.of_nat (length a)))
    with (length b) by lia.
  rewrite Nat2Z.id, skipn_length_app. apply firstn_length_app.
Qed.

Lemma index_at (s : slice) (a c : list byte) (b : byte) (i : Z) :
  elems s = a ++ b :: c -> i = Z.of_nat (length a) -> index s i = Ok b.
Proof.
  intros E ->. apply index_ok; [lia|]. rewrite E, Nat2Z.id.
  rewrite nth_error_app2 by lia. rewrite Nat.sub_diag. reflexivity.
Qed.

Lemma be_value_put32 (v : Z) :
  0 <= v < 2 ^ 32 ->
  be_value [byte_of_Z (Z.shiftr v 24); byte_of_Z (Z.shiftr v 16);
            byte_of_Z (Z.shiftr v 8); byte_of_Z v] = v.
Proof.
  intros H. unfold be_value. cbn [fold_left].
  rewrite <- (Z.mod_small v (2 ^ 32)) at 5 by exact H.
  rewrite <- be32_of_put. lia.
Qed.

Lemma Interwork_DecodeFromBytes_ok (data : slice)
      (r0 : MUPInterworkSegmentDiscoveryRoute) (pl : byte) :
  index data 8 = Ok pl ->
  (len data = 13 /\ u8 pl <= 32) \/ (len data = 25 /\ u8 pl <= 128) ->
  MUPInterworkSegmentDiscoveryRoute_DecodeFromBytes data r0
  = (mkInterwork (Some (GetRouteDistinguisher data)) pl
                 (netip.mkPrefix
                    (if len data =? 13
                     then netip.V4 (sub (backing data) 9 13)
                     else netip.V6 (sub (backing data) 9 25) EmptyString)
                    (u8 pl)),
     Ok tt).
Proof.
  intros Hi Hl. unfold MUPInterworkSegmentDiscoveryRoute_DecodeFromBytes.
  rewrite run_modify, !RD_Len_8.
  pose proof (cap_ge_len data) as Hc. pose proof (u8_range pl) as Hr.
  replace (len data <? 8) with false by (symmetry; apply Z.ltb_ge; lia).
  rewrite Hi, run_lift_Ok, run_modify.
  unfold reslice_from. rewrite reslice_backing by lia. rewrite run_lift_Ok.
  destruct Hl as [[L B]|[L B]]; rewrite L.
  - rewrite AddrFromSlice_4
      by (cbn [elems]; rewrite sub_backing_length by lia; reflexivity).
    cbn [negb elems]. rewrite run_modify.
    unfold netip.PrefixFrom. cbn [netip.isZero negb netip.BitLen netip.withoutZone andb].
    replace (0 <=? u8 pl) with true by (symmetry; apply Z.leb_le; lia).
    replace (u8 pl <=? 32) with true by (symmetry; apply Z.leb_le; lia).
    cbn [andb netip.Bits].
    replace (u8 pl =? -1) with false by (symmetry; apply Z.eqb_neq; lia).
    reflexivity.
  - rewrite AddrFromSlice_16
      by (cbn [elems]; rewrite sub_backing_length by lia; reflexivity).
    cbn [negb elems]. rewrite run_modify.
    unfold netip.PrefixFrom. cbn [netip.isZero negb netip.BitLen netip.withoutZone andb].
    replace (0 <=? u8 pl) with true by (symmetry; apply Z.leb_le; lia).
    replace (u8 pl <=? 128) with true by (symmetry; apply Z.leb_le; lia).
    cbn [andb netip.Bits].
    replace (u8 pl =? -1) with false by (symmetry; apply Z.eqb_neq; lia).
    reflexivity.
Qed.

Lemma Direct_DecodeFromBytes_ok (data : slice) (r0 : MUPDirectSegmentDiscoveryRoute) :
  len data = 12 \/ len data = 24 ->
  MUPDirectSegmentDiscoveryRoute_DecodeFromBytes data r0
  = (mkDirect (Some (GetRouteDistinguisher data))
              (if len data =? 12
               then netip.V4 (sub (backing data) 8 12)
               else netip.V6 (sub (backing data) 8 24) EmptyString),
     Ok tt).
Proof.
  intros Hl. unfold MUPDirectSegmentDiscoveryRoute_DecodeFromBytes.
  rewrite run_modify, !RD_Len_8. pose proof (cap_ge_len data) as Hc.
  destruct Hl as [L|L]; rewrite L; cbn [Z.eqb Pos.eqb negb andb].
  - rewrite reslice_backing by lia. rewrite run_lift_Ok.
    rewrite AddrFromSlice_4
      by (cbn [elems]; rewrite sub_backing_length by lia; reflexivity).
    reflexivity.
  - rewrite reslice_backing by lia. rewrite run_lift_Ok.
    rewrite AddrFromSlice_16
      by (cbn [elems]; rewrite sub_backing_length by lia; reflexivity).
    reflexivity.
Qed.

Lemma Type2_DecodeFromBytes_ok (data : slice)
      (r0 : MUPType2SessionTransformedRoute) (eal : byte) :
  index data 8 = Ok eal ->
  u8 eal = 64 \/ u8 eal = 160 ->
  9 + u8 eal / 8 <= cap data ->
  MUPType2SessionTransformedRoute_DecodeFromBytes data r0
  = (mkType2 (Some (GetRouteDistinguisher data)) eal
             (if u8 eal =? 64
              then netip.V4 (sub (backing data) 9 13)
              else netip.V6 (sub (backing data) 9 25) EmptyString)
             (be_value (sub (backing data) (5 + u8 eal / 8) (9 + u8 eal / 8))),
     Ok tt).
Proof.
  intros Hi Hv Hc. unfold MUPType2SessionTransformedRoute_DecodeFromBytes.
  rewrite run_modify, !RD_Len_8.
  pose proof (index_len _ _ _ Hi) as Hl.
  replace (len data <? 8) with false by (symmetry; apply Z.ltb_ge; lia).
  rewrite Hi, run_lift_Ok, run_modify.
  destruct Hv as [E|E]; rewrite E in *;
    cbn [Z.leb Z.eqb Z.compare Pos.compare Pos.compare_cont Pos.eqb andb].
  - change (64 / 8) with 8 in *.
    rewrite run_bind_assoc. rewrite reslice_backing by lia. rewrite run_lift_Ok.
    rewrite AddrFromSlice_4
      by (cbn [elems]; rewrite sub_backing_length by lia; reflexivity).
    cbn [negb]. rewrite run_mret. rewrite run_modify.
    rewrite reslice_backing by lia. rewrite run_lift_Ok.
    rewrite Uint32_be_value
      by (cbn [elems]; rewrite sub_backing_length by lia; reflexivity).
    rewrite run_lift_Ok, run_modify. reflexivity.
  - change (160 / 8) with 20 in *.
    rewrite run_bind_assoc. rewrite reslice_backing by lia. rewrite run_lift_Ok.
    rewrite AddrFromSlice_16
      by (cbn [elems]; rewrite sub_backing_length by lia; reflexivity).
    cbn [negb]. rewrite run_mret. rewrite run_modify.
    rewrite reslice_backing by lia. rewrite run_lift_Ok.
    rewrite Uint32_be_value
      by (cbn [elems]; rewrite sub_backing_length by lia; reflexivity).
    rewrite run_lift_Ok, run_modify. reflexivity.
Qed.

Lemma Addr_valid_facts (a : netip.Addr) :
  Addr_valid a ->
  (netip.BitLen a = 32 \/ netip.BitLen a = 128)
  /\ u8 (byte_of_Z (netip.BitLen a)) = netip.BitLen a
  /\ netip.BitLen a / 8 = Z.of_nat (length (netip.AsSlice a))
  /\ a = (if netip.BitLen a =? 32
          then netip.V4 (netip.AsSlice a)
          else netip.V6 (netip.AsSlice a) EmptyString).
Proof.
  destruct a as [|o|o z]; cbn [Addr_valid netip.BitLen netip.AsSlice].
  - intros [].
  - intros H. rewrite H. repeat split; try reflexivity. left. reflexivity.
  - intros [H ->]. rewrite H. repeat split; try reflexivity. right. reflexivity.
Qed.

Lemma firstn_8_app (bs rest : list byte) :
  length bs = 8%nat -> firstn 8 (bs ++ rest) = bs.
Proof. intros <-. apply firstn_length_app. Qed.

Lemma Direct_roundtrip (rd : RD) (a : netip.Addr) :
  Addr_valid a ->
  exists tbuf : list byte,
    MUPDirectSegmentDiscoveryRoute_Serialize (mkDirect (Some rd) a) = Ok tbuf
    /\ MUPDirectSegmentDiscoveryRoute_Len (mkDirect (Some rd) a) = Z.of_nat (length tbuf)
    /\ forall r0, MUPDirectSegmentDiscoveryRoute_DecodeFromBytes (fresh tbuf) r0
                  = (mkDirect (Some rd) a, Ok tt).
Proof.
  intros Ha. destruct (RD_Serialize_8 rd) as (bs & Hs & Lbs).
  exists (bs ++ netip.AsSlice a).
  unfold MUPDirectSegmentDiscoveryRoute_Serialize, MUPDirectSegmentDiscoveryRoute_Len.
  cbn [dsd_RD dsd_Address]. rewrite Hs. cbn [rbind].
  split; [reflexivity|].
  destruct a as [|o|o z]; [contradiction| |];
    cbn [Addr_valid netip.AsSlice netip.BitLen] in *.
  - split; [rewrite length_app; change (32 / 8) with 4; lia|].
    intros r0.
    assert (Hlen : len (fresh (bs ++ o)) = 12)
      by (unfold len, fresh; cbn [elems]; rewrite length_app; lia).
    rewrite Direct_DecodeFromBytes_ok by (left; exact Hlen).
    rewrite Hlen. cbn [Z.eqb Pos.eqb].
    rewrite (RD_Get_Serialize rd bs _ Hs) by (apply firstn_8_app; exact Lbs).
    rewrite (sub_at _ bs o [])
      by (unfold backing, fresh; cbn [elems spare];
          rewrite ?app_nil_r; solve [reflexivity|lia]).
    reflexivity.
  - destruct Ha as [Lo ->].
    split; [rewrite length_app; change (128 / 8) with 16; lia|].
    intros r0.
    assert (Hlen : len (fresh (bs ++ o)) = 24)
      by (unfold len, fresh; cbn [elems]; rewrite length_app; lia).
    rewrite Direct_DecodeFromBytes_ok by (right; exact Hlen).
    rewrite Hlen. cbn [Z.eqb Pos.eqb].
    rewrite (RD_Get_Serialize rd bs _ Hs) by (apply firstn_8_app; exact Lbs).
    rewrite (sub_at _ bs o [])
      by (unfold backing, fresh; cbn [elems spare];
          rewrite ?app_nil_r; solve [reflexivity|lia]).
    reflexivity.
Qed.

Lemma Interwork_roundtrip (rd : RD) (p : netip.Prefix) :
  netip.Prefix_valid p ->
  let r := mkInterwork (Some rd) (byte_of_Z (netip.Bits p)) p in
  exists tbuf : list byte,
    MUPInterworkSegmentDiscoveryRoute_Serialize r = Ok tbuf
    /\ MUPInterworkSegmentDiscoveryRoute_Len r = Z.of_nat (length tbuf)
    /\ forall r0, MUPInterworkSegmentDiscoveryRoute_DecodeFromBytes (fresh tbuf) r0
                  = (r, Ok tt).
Proof.
  intros Hp r. destruct (RD_Serialize_8 rd) as (bs & Hs & Lbs).
  destruct p as [a bits]. unfold netip.Prefix_valid in Hp. cbn [netip.Addr_ netip.Bits] in *.
  subst r. cbn [netip.Bits].
  set (o := netip.AsSlice a).
  exists (bs ++ byte_of_Z bits :: o).
  unfold MUPInterworkSegmentDiscoveryRoute_Serialize, MUPInterworkSegmentDiscoveryRoute_Len.
  cbn [isd_RD isd_PrefixLength isd_Prefix netip.Addr_]. rewrite Hs. cbn [rbind]. fold o.
  rewrite <- app_assoc. cbn [app].
  split; [reflexivity|].
  assert (Hu : 0 <= bits < 256 -> u8 (byte_of_Z bits) = bits)
    by (intros; rewrite u8_byte_of_Z; apply Z.mod_small; assumption).
  assert (Hi : index (fresh (bs ++ byte_of_Z bits :: o)) 8 = Ok (byte_of_Z bits))
    by (apply (index_at _ bs o); [reflexivity|lia]).
  destruct a as [|oo|oo z]; [contradiction| |]; cbn [netip.AsSlice netip.BitLen] in *.
  - destruct Hp as [Lo Hbits]. subst o.
    split; [rewrite length_app; cbn [length]; change (32 / 8) with 4; lia|].
    intros r0.
    assert (Hlen : len (fresh (bs ++ byte_of_Z bits :: oo)) = 13)
      by (unfold len, fresh; cbn [elems]; rewrite length_app; cbn [length]; lia).
    rewrite (Interwork_DecodeFromBytes_ok _ r0 _ Hi)
      by (left; rewrite Hu by lia; lia).
    rewrite Hlen, Hu by lia. cbn [Z.eqb Pos.eqb].
    rewrite (RD_Get_Serialize rd bs _ Hs) by (apply firstn_8_app; exact Lbs).
    rewrite (sub_at _ (bs ++ [byte_of_Z bits]) oo [])
      by (unfold backing, fresh; cbn [elems spare];
          rewrite ?app_nil_r, <- ?app_assoc, ?length_app; cbn [app length];
          solve [reflexivity|lia]).
    reflexivity.
  - destruct Hp as (Lo & -> & Hbits). subst o.
    split; [rewrite length_app; cbn [length]; change (128 / 8) with 16; lia|].
    intros r0.
    assert (Hlen : len (fresh (bs ++ byte_of_Z bits :: oo)) = 25)
      by (unfold len, fresh; cbn [elems]; rewrite length_app; cbn [length]; lia).
    rewrite (Interwork_DecodeFromBytes_ok _ r0 _ Hi)
      by (right; rewrite Hu by lia; lia).
    rewrite Hlen, Hu by lia. cbn [Z.eqb Pos.eqb].
    rewrite (RD_Get_Serialize rd bs _ Hs) by (apply firstn_8_app; exact Lbs).
    rewrite (sub_at _ (bs ++ [byte_of_Z bits]) oo [])
      by (unfold backing, fresh; cbn [elems spare];
          rewrite ?app_nil_r, <- ?app_assoc, ?length_app; cbn [app length];
          solve [reflexivity|lia]).
    reflexivity.
Qed.

Ltac list_eq := repeat first [rewrite <- app_assoc | progress cbn [app]]; reflexivity.
Ltac list_len := repeat first [rewrite length_app | progress cbn [length]]; lia.

Lemma Type1_roundtrip (rd : RD) (prefix : netip.Addr) (teid : Z) (qfi : byte)
      (ea : netip.Addr) :
  Addr_valid prefix -> Addr_valid ea -> 0 <= teid < 2 ^ 32 ->
  let r := mkType1 (Some rd) (byte_of_Z (netip.BitLen prefix)) prefix teid qfi
                   (byte_of_Z (netip.BitLen ea)) ea in
  exists tbuf : list byte,
    MUPType1SessionTransformedRoute_Serialize r = Ok tbuf
    /\ MUPType1SessionTransformedRoute_Len r = Z.of_nat (length tbuf)
    /\ forall r0, MUPType1SessionTransformedRoute_DecodeFromBytes (fresh tbuf) r0
                  = (r, Ok tt).
Proof.
  intros Hp He Ht r. destruct (RD_Serialize_8 rd) as (bs & Hs & Lbs).
  destruct (Addr_valid_facts prefix Hp) as (Vp & Up & Dp & Fp).
  destruct (Addr_valid_facts ea He) as (Ve & Ue & De & Fe).
  subst r.
  set (pl := byte_of_Z (netip.BitLen prefix)) in *.
  set (eal := byte_of_Z (netip.BitLen ea)) in *.
  set (o1 := netip.AsSlice prefix) in *. set (o2 := netip.AsSlice ea) in *.
  set (T := [byte_of_Z (Z.shiftr teid 24); byte_of_Z (Z.shiftr teid 16);
             byte_of_Z (Z.shiftr teid 8); byte_of_Z teid]).
  exists (bs ++ pl :: o1 ++ T ++ qfi :: eal :: o2).
  unfold MUPType1SessionTransformedRoute_Serialize, MUPType1SessionTransformedRoute_Len.
  cbn [t1_RD t1_PrefixLength t1_Prefix t1_TEID t1_QFI t1_EndpointAddressLength
       t1_EndpointAddress].
  rewrite Hs, PutUint32_make. cbn [rbind]. fold o1 o2 T.
  split; [f_equal; list_eq|].
  split; [rewrite Up, Ue, Dp, De; subst T; list_len|].
  intros r0.
  set (data := fresh (bs ++ pl :: o1 ++ T ++ qfi :: eal :: o2)).
  assert (LT : length T = 4%nat) by reflexivity.
  assert (Dp' : u8 pl / 8 = Z.of_nat (length o1)) by (rewrite Up; exact Dp).
  assert (De' : u8 eal / 8 = Z.of_nat (length o2)) by (rewrite Ue; exact De).
  rewrite (Type1_DecodeFromBytes_ok data r0 pl qfi eal).
  - rewrite (RD_Get_Serialize rd bs data Hs) by (apply firstn_8_app; exact Lbs).
    rewrite Dp', De', Up, Ue.
    rewrite (sub_at (backing data) (bs ++ [pl]) o1 (T ++ qfi :: eal :: o2))
      by (unfold data, backing, fresh; cbn [elems spare]; rewrite ?app_nil_r;
          solve [list_eq|try unfold T; list_len]).
    rewrite (sub_at (backing data) (bs ++ pl :: o1) T (qfi :: eal :: o2))
      by (unfold data, backing, fresh; cbn [elems spare]; rewrite ?app_nil_r;
          solve [list_eq|try unfold T; list_len]).
    rewrite (sub_at (backing data) (bs ++ pl :: o1 ++ T ++ [qfi; eal]) o2 [])
      by (unfold data, backing, fresh; cbn [elems spare]; rewrite ?app_nil_r;
          solve [list_eq|try unfold T; list_len]).
    rewrite <- Fp, <- Fe. unfold T. rewrite be_value_put32 by exact Ht.
    reflexivity.
  - apply (index_at data bs (o1 ++ T ++ qfi :: eal :: o2)); [reflexivity|lia].
  - rewrite Up. exact Vp.
  - apply (index_at data (bs ++ pl :: o1 ++ T) (eal :: o2)); [unfold data, fresh; cbn [elems]; list_eq|try unfold T; list_len].
  - apply (index_at data (bs ++ pl :: o1 ++ T ++ [qfi]) o2); [unfold data, fresh; cbn [elems]; list_eq|try unfold T; list_len].
  - rewrite Ue. exact Ve.
  - unfold cap, data, fresh, T. cbn [elems spare]. list_len.
Qed.

Lemma Type2_roundtrip (rd : RD) (ea : netip.Addr) (teid : Z) :
  Addr_valid ea -> 0 <= teid < 2 ^ 32 ->
  let r := mkType2 (Some rd) (byte_of_Z (u8 (byte_of_Z (netip.BitLen ea)) + 32))
                   ea teid in
  exists tbuf : list byte,
    MUPType2SessionTransformedRoute_Serialize r = Ok tbuf
    /\ MUPType2SessionTransformedRoute_Len r = Z.of_nat (length tbuf)
    /\ forall r0, MUPType2SessionTransformedRoute_DecodeFromBytes (fresh tbuf) r0
                  = (r, Ok tt).
Proof.
  intros He Ht r. destruct (RD_Serialize_8 rd) as (bs & Hs & Lbs).
  subst r.
  set (T := [byte_of_Z (Z.shiftr teid 24); byte_of_Z (Z.shiftr teid 16);
             byte_of_Z (Z.shiftr teid 8); byte_of_Z teid]).
  set (eal := byte_of_Z (u8 (byte_of_Z (netip.BitLen ea)) + 32)).
  exists (bs ++ eal :: netip.AsSlice ea ++ T).
  unfold MUPType2SessionTransformedRoute_Serialize, MUPType2SessionTransformedRoute_Len.
  cbn [t2_RD t2_EndpointAddressLength t2_EndpointAddress t2_TEID].
  rewrite Hs, PutUint32_make. cbn [rbind]. fold T.
  split; [f_equal; list_eq|].
  destruct ea as [|o|o z]; [contradiction| |];
    cbn [Addr_valid netip.AsSlice netip.BitLen] in *.
  - assert (Ue : u8 eal = 64) by reflexivity.
    split; [rewrite Ue; change (64 / 8) with 8; unfold T; list_len|].
    intros r0. set (data := fresh (bs ++ eal :: o ++ T)).
    rewrite (Type2_DecodeFromBytes_ok data r0 eal).
    + rewrite (RD_Get_Serialize rd bs data Hs) by (apply firstn_8_app; exact Lbs).
      rewrite Ue. change (64 / 8) with 8. cbn [Z.eqb Pos.eqb Z.add Pos.add].
      rewrite (sub_at (backing data) (bs ++ [eal]) o T)
        by (unfold data, backing, fresh; cbn [elems spare]; rewrite ?app_nil_r;
            solve [list_eq|try unfold T; list_len]).
      rewrite (sub_at (backing data) (bs ++ eal :: o) T [])
        by (unfold data, backing, fresh; cbn [elems spare]; rewrite ?app_nil_r;
            solve [list_eq|try unfold T; list_len]).
      unfold T. rewrite be_value_put32 by exact Ht. reflexivity.
    + apply (index_at data bs (o ++ T)); [reflexivity|lia].
    + left. exact Ue.
    + rewrite Ue. change (64 / 8) with 8.
      unfold cap, data, fresh, T. cbn [elems spare]. list_len.
  - destruct He as [Lo ->].
    assert (Ue : u8 eal = 160) by reflexivity.
    split; [rewrite Ue; change (160 / 8) with 20; unfold T; list_len|].
    intros r0. set (data := fresh (bs ++ eal :: o ++ T)).
    rewrite (Type2_DecodeFromBytes_ok data r0 eal).
    + rewrite (RD_Get_Serialize rd bs data Hs) by (apply firstn_8_app; exact Lbs).
      rewrite Ue. change (160 / 8) with 20. cbn [Z.eqb Pos.eqb Z.add Pos.add].
      rewrite (sub_at (backing data) (bs ++ [eal]) o T)
        by (unfold data, backing, fresh; cbn [elems spare]; rewrite ?app_nil_r;
            solve [list_eq|try unfold T; list_len]).
      rewrite (sub_at (backing data) (bs ++ eal :: o) T [])
        by (unfold data, backing, fresh; cbn [elems spare]; rewrite ?app_nil_r;
            solve [list_eq|try unfold T; list_len]).
      unfold T. rewrite be_value_put32 by exact Ht. reflexivity.
    + apply (index_at data bs (o ++ T)); [reflexivity|lia].
    + right. exact Ue.
    + rewrite Ue. change (160 / 8) with 20.
      unfold cap, data, fresh, T. cbn [elems spare]. list_len.
Qed.

Lemma reslice_to_all (body sp : list byte) :
  reslice_to (mkSlice body sp) (Z.of_nat (length body)) = Ok (mkSlice body sp).
Proof.
  pose proof (reslice_to_app body [] sp) as H.
  rewrite app_nil_r in H. exact H.
Qed.

Lemma MUPNLRI_DecodeFromBytes_ok (at_ h l ln : byte) (body sp : list byte)
      (n0 : MUPNLRI) (r1 r : MUPRouteTypeInterface) :
  Z.of_nat (length body) = u8 ln ->
  getMUPRouteType at_ (256 * u8 h + u8 l) = Ok r1 ->
  route_DecodeFromBytes (mkSlice body sp) r1 = (r, Ok tt) ->
  MUPNLRI_DecodeFromBytes (mkSlice (at_ :: h :: l :: ln :: body) sp) n0
  = (mkMUPNLRI at_ (256 * u8 h + u8 l) ln (Some r), Ok tt).
Proof.
  intros Hl Hg Hd. rewrite MUPNLRI_DecodeFromBytes_header.
  replace (Z.of_nat (length body) <? u8 ln) with false
    by (symmetry; apply Z.ltb_ge; lia).
  rewrite Hg, run_lift_Ok, run_modify.
  rewrite <- Hl, reslice_to_all, run_lift_Ok.
  unfold RouteTypeData_DecodeFromBytes.
  cbn [RouteTypeData set_RouteTypeData ArchitectureType RouteType Length].
  rewrite Hd. reflexivity.
Qed.

Lemma constructed_roundtrip (at_ : byte) (rt : Z)
      (r r1 : MUPRouteTypeInterface) (tbuf : list byte) :
  0 <= rt < 2 ^ 16 ->
  getMUPRouteType at_ rt = Ok r1 ->
  route_Serialize r = Ok tbuf ->
  route_Len r = Z.of_nat (length tbuf) -> route_Len r < 256 ->
  route_DecodeFromBytes (fresh tbuf) r1 = (r, Ok tt) ->
  exists bytes : list byte,
    MUPNLRI_Serialize (NewMUPNLRI at_ rt (Some r)) = Ok bytes
    /\ forall n0, MUPNLRI_DecodeFromBytes (fresh bytes) n0
                  = (NewMUPNLRI at_ rt (Some r), Ok tt).
Proof.
  intros Hrt Hg Hs Hl Hb Hd.
  eexists. split.
  - apply (MUPNLRI_Serialize_eq _ r tbuf); [reflexivity|exact Hs].
  - intros n0. cbn [NewMUPNLRI ArchitectureType RouteType Length app].
    unfold NewMUPNLRI, fresh.
    assert (Hv : 256 * u8 (byte_of_Z (Z.shiftr rt 8)) + u8 (byte_of_Z rt) = rt)
      by (rewrite be16_of_put; apply Z.mod_small; exact Hrt).
    rewrite (MUPNLRI_DecodeFromBytes_ok _ _ _ _ tbuf [] n0 r1 r).
    + rewrite Hv. reflexivity.
    + rewrite u8_byte_of_Z, Z.mod_small by lia. lia.
    + rewrite Hv. exact Hg.
    + exact Hd.
Qed.

Lemma reslice_to_backing (s t : slice) (hi : Z) :
  reslice_to s hi = Ok t -> backing t = backing s /\ cap t = cap s.
Proof.
  unfold reslice_to. intros H. apply reslice_inv in H as (H1 & H2 & ->).
  match goal with |- backing ?x = _ /\ _ => set (t := x) end.
  assert (E : backing t = backing s).
  { unfold t, backing, sub. cbn [elems spare]. rewrite Z.sub_0_r.
    change (Z.to_nat 0) with 0%nat. cbn [skipn]. apply firstn_skipn. }
  split; [exact E|].
  change (Z.of_nat (length (backing t)) = Z.of_nat (length (backing s))).
  rewrite E. reflexivity.
Qed.

Lemma sub_whole (l : list byte) : sub l 0 (Z.of_nat (length l)) = l.
Proof.
  unfold sub. rewrite Z.sub_0_r, Nat2Z.id. change (Z.to_nat 0) with 0%nat.
  cbn [skipn]. apply firstn_all.
Qed.

(** Encoding what a successful envelope decode returned: the header octets
    as they came, then the first [Len()] octets that followed them. *)
Lemma MUPNLRI_decode_serialize (at_ h l ln : byte) (body : list byte) (n0 n : MUPNLRI) :
  MUPNLRI_DecodeFromBytes (fresh (at_ :: h :: l :: ln :: body)) n0 = (n, Ok tt) ->
  exists r : MUPRouteTypeInterface,
    RouteTypeData n = Some r
    /\ 0 <= route_Len r <= Z.of_nat (length body)
    /\ MUPNLRI_Serialize n
       = Ok (at_ :: h :: l :: ln :: sub body 0 (route_Len r)).
Proof.
  unfold fresh. rewrite MUPNLRI_DecodeFromBytes_header. intros H.
  mexec H. unfold RouteTypeData_DecodeFromBytes in H.
  cbn [RouteTypeData set_RouteTypeData ArchitectureType RouteType Length] in H.
  destruct (route_DecodeFromBytes a0 a) as [r e] eqn:Ed.
  injection H as <- ->.
  destruct (route_decode_serialize _ _ _ Ed) as [Hl Hs].
  apply reslice_to_backing in E0 as [Eb Ec]. rewrite Ec in Hl. rewrite Eb in Hs.
  unfold cap, backing in *. cbn [elems spare] in *. rewrite app_nil_r in *.
  exists r. split; [reflexivity|]. split; [exact Hl|].
  match goal with
  | |- MUPNLRI_Serialize ?n = _ => rewrite (MUPNLRI_Serialize_eq n r _ eq_refl Hs)
  end.
  destruct (put_of_be16 h l) as [P1 P2].
  change (Ok (at_ :: byte_of_Z (Z.shiftr (256 * u8 h + u8 l) 8)
                  :: byte_of_Z (256 * u8 h + u8 l) :: ln :: sub body 0 (route_Len r))
          = Ok (at_ :: h :: l :: ln :: sub body 0 (route_Len r))).
  rewrite P1, P2. reflexivity.
Qed.

Lemma BitLen_div8 (a : netip.Addr) : 0 <= netip.BitLen a / 8 <= 16.
Proof. destruct a; cbn [netip.BitLen]; split; discriminate. Qed.

Lemma u8_div8 (b : byte) : 0 <= u8 b / 8 <= 31.
Proof. pose proof (u8_range b). Z.div_mod_to_equations. lia. Qed.

(** ** Round trips *)

(** C3 as the code has it.  (1) An envelope built by one of the four
    constructors (distinguisher present, valid addresses, TEID a uint32) is
    serialized without failure and decoding the octets gives it back.
    (2) When decoding a byte sequence succeeds, the envelope holds a route,
    and if the sequence carries no octet beyond that route's own [Len()],
    serializing the envelope gives the sequence back. *)
Theorem MUPNLRI_roundtrip :
  (forall v : MUPNLRI,
      constructed v ->
      exists bytes : list byte,
        MUPNLRI_Serialize v = Ok bytes
        /\ forall n0 : MUPNLRI,
            MUPNLRI_DecodeFromBytes (fresh bytes) n0 = (v, Ok tt))
  /\ (forall (bytes : list byte) (n0 n : MUPNLRI),
         MUPNLRI_DecodeFromBytes (fresh bytes) n0 = (n, Ok tt) ->
         exists r : MUPRouteTypeInterface,
           RouteTypeData n = Some r
           /\ (Z.of_nat (length bytes) = 4 + route_Len r ->
               MUPNLRI_Serialize n = Ok bytes)).
Proof.
  split.
  - intros v Hv. destruct Hv as [rd p Hp|rd a Ha|rd p teid qfi ea Hp He Ht|rd ea teid He Ht].
    + destruct (Interwork_roundtrip rd p Hp) as (tbuf & Hs & Hl & Hd).
      apply (constructed_roundtrip _ _ _ (InterworkRoute zeroInterwork) tbuf);
        try reflexivity; try assumption.
      * cbv; split; [discriminate|reflexivity].
      * cbn [route_Len]. unfold MUPInterworkSegmentDiscoveryRoute_Len.
        cbn [isd_Prefix]. pose proof (BitLen_div8 (netip.Addr_ p)). lia.
      * cbn [route_DecodeFromBytes]. rewrite Hd. reflexivity.
    + destruct (Direct_roundtrip rd a Ha) as (tbuf & Hs & Hl & Hd).
      apply (constructed_roundtrip _ _ _ (DirectRoute zeroDirect) tbuf);
        try reflexivity; try assumption.
      * cbv; split; [discriminate|reflexivity].
      * cbn [route_Len]. unfold MUPDirectSegmentDiscoveryRoute_Len.
        cbn [dsd_Address]. pose proof (BitLen_div8 a). lia.
      * cbn [route_DecodeFromBytes]. rewrite Hd. reflexivity.
    + destruct (Type1_roundtrip rd p teid qfi ea Hp He Ht) as (tbuf & Hs & Hl & Hd).
      apply (constructed_roundtrip _ _ _ (Type1Route zeroType1) tbuf);
        try reflexivity; try assumption.
      * cbv; split; [discriminate|reflexivity].
      * cbn [route_Len]. unfold MUPType1SessionTransformedRoute_Len.
        cbn [t1_PrefixLength t1_EndpointAddressLength].
        pose proof (u8_div8 (byte_of_Z (netip.BitLen p))).
        pose proof (u8_div8 (byte_of_Z (netip.BitLen ea))). lia.
      * cbn [route_DecodeFromBytes]. rewrite Hd. reflexivity.
    + destruct (Type2_roundtrip rd ea teid He Ht) as (tbuf & Hs & Hl & Hd).
      apply (constructed_roundtrip _ _ _ (Type2Route zeroType2) tbuf);
        try reflexivity; try assumption.
      * cbv; split; [discriminate|reflexivity].
      * cbn [route_Len]. unfold MUPType2SessionTransformedRoute_Len.
        cbn [t2_EndpointAddressLength].
        pose proof (u8_div8 (byte_of_Z (u8 (byte_of_Z (netip.BitLen ea)) + 32))). lia.
      * cbn [route_DecodeFromBytes]. rewrite Hd. reflexivity.
  - intros bytes n0 n H.
    destruct bytes as [|at_ [|h [|l [|ln body]]]];
      try (unfold MUPNLRI_DecodeFromBytes in H; cbn in H; discriminate).
    destruct (MUPNLRI_decode_serialize _ _ _ _ _ _ _ H) as (r & Hr & Hl & Hs).
    exists r. split; [exact Hr|].
    intros Hlen. rewrite Hs. cbn [length] in Hlen.
    replace (route_Len r) with (Z.of_nat (length body)) by lia.
    rewrite sub_whole. reflexivity.
Qed.


(** * Further properties of the code *)
(** ** The extended community, both ways and on short input *)

Lemma byte_eqb_refl (b : byte) : byte_eqb b b = true.
Proof. apply byte_eqb_spec. reflexivity. Qed.

(** X1. Parsing what [MUPExtended.Serialize] wrote gives the two segment
    identifiers back, reduced to 16 and 32 bits, under the one defined
    sub-type: the [SubType] field of the record is not written and does not
    come back. *)
Theorem parseMUPExtended_Serialize (e : MUPExtended) :
  exists bytes : list byte,
    MUPExtended_Serialize e = Ok bytes
    /\ forall sp : list byte,
        parseMUPExtended (mkSlice bytes sp)
        = Ok (NewMUPExtended (SegmentID2 e mod 2 ^ 16) (SegmentID4 e mod 2 ^ 32)).
Proof.
  eexists. split; [apply MUPExtended_Serialize_eq|].
  intros sp. rewrite parseMUPExtended_elems, !byte_eqb_refl. cbn [negb].
  rewrite be16_of_put, be32_of_put. reflexivity.
Qed.

Lemma Uint16_inv (s : slice) (v : Z) :
  binary.Uint16 s = Ok v ->
  exists b0 b1 rest, elems s = b0 :: b1 :: rest /\ v = 256 * u8 b0 + u8 b1.
Proof.
  intros H. destruct s as [[|b0 [|b1 rest]] sp].
  - unfold binary.Uint16 in H. rewrite index_out in H by (cbn; lia). discriminate.
  - unfold binary.Uint16 in H. rewrite index_out in H by (cbn; lia). discriminate.
  - rewrite Uint16_elems in H. injection H as <-. exists b0, b1, rest. split; reflexivity.
Qed.

Lemma Uint16_not_err (s : slice) (e : MessageError) : binary.Uint16 s <> Err e.
Proof.
  unfold binary.Uint16.
  destruct (index s 1) eqn:E1; cbn [rbind]; try discriminate.
  - destruct (index s 0) eqn:E0; cbn [rbind]; try discriminate.
    exfalso. eapply index_not_err; eassumption.
  - exfalso. eapply index_not_err; eassumption.
Qed.

Lemma rbind_Ok_inv {A B} (m : result A) (k : A -> result B) (b : B) :
  rbind m k = Ok b -> exists a, m = Ok a /\ k a = Ok b.
Proof.
  destruct m as [a| |]; cbn; try discriminate. intros H. exists a. split; [reflexivity|exact H].
Qed.

(** X2. When [parseMUPExtended] succeeds, the input held 8 octets and
    serializing the record gives exactly those 8 octets back. *)
Theorem MUPExtended_Serialize_parse (data : slice) (e : MUPExtended) :
  parseMUPExtended data = Ok e ->
  8 <= cap data /\ MUPExtended_Serialize e = Ok (sub (backing data) 0 8).
Proof.
  unfold parseMUPExtended. intros H.
  apply rbind_Ok_inv in H as (d0 & E0 & H).
  destruct (byte_eqb d0 EC_TYPE_MUP) eqn:T0; cbn [negb] in H.
  2:{ apply rbind_Ok_inv in H as (? & _ & H). discriminate. }
  apply rbind_Ok_inv in H as (d1 & E1 & H).
  destruct (byte_eqb d1 EC_SUBTYPE_MUP_DIRECT_SEG) eqn:T1; [|discriminate].
  apply rbind_Ok_inv in H as (s24 & R24 & H).
  apply rbind_Ok_inv in H as (sid2 & U2 & H).
  apply rbind_Ok_inv in H as (s48 & R48 & H).
  apply rbind_Ok_inv in H as (sid4 & U4 & H).
  injection H as <-.
  apply byte_eqb_spec in T0, T1. subst d0 d1.
  pose proof (reslice_elems_length _ _ _ _ R24) as L24.
  pose proof (reslice_elems_length _ _ _ _ R48) as L48.
  apply reslice_inv in R24 as (_ & _ & ->). apply reslice_inv in R48 as (_ & C8 & ->).
  cbn [elems] in *. fold (backing data) in *.
  apply Uint16_inv in U2 as (a0 & a1 & r2 & E2 & ->). cbn [elems] in E2.
  apply Uint32_inv in U4 as (c0 & c1 & c2 & c3 & r4 & E4 & ->). cbn [elems] in E4.
  rewrite E2 in L24. rewrite E4 in L48.
  destruct r2; [|discriminate]. destruct r4; [|discriminate].
  split; [exact C8|].
  rewrite MUPExtended_Serialize_eq. cbn [NewMUPExtended SegmentID2 SegmentID4].
  destruct (put_of_be16 a0 a1) as [-> ->].
  destruct (put_of_be32 c0 c1 c2 c3) as (-> & -> & -> & ->).
  change [EC_TYPE_MUP; EC_SUBTYPE_MUP_DIRECT_SEG; a0; a1; c0; c1; c2; c3]
    with ([EC_TYPE_MUP] ++ [EC_SUBTYPE_MUP_DIRECT_SEG] ++ [a0; a1] ++ [c0; c1; c2; c3]).
  rewrite <- E2, <- E4.
  rewrite <- (index_sub _ _ _ E0), <- (index_sub _ _ _ E1).
  cbn [Z.add Pos.add].
  rewrite !sub_app by lia. reflexivity.
Qed.

(** X3. [parseMUPExtended] on short input: no octet at all is a panic; a
    wrong type tag is reported from the first octet alone and a wrong
    sub-type from the first two; with both tags right, an input of fewer
    than 8 octets of capacity is a panic (slice bounds), not an error. *)
Theorem parseMUPExtended_short (data : slice) :
  (len data = 0 -> parseMUPExtended data = Panic)
  /\ (forall d0 : byte,
         index data 0 = Ok d0 -> d0 <> EC_TYPE_MUP ->
         parseMUPExtended data
         = Err (MalformedAttribute
                  ("ext comm type is not EC_TYPE_MUP: " ++ fmt.d (u8 d0))%string))
  /\ (index data 0 = Ok EC_TYPE_MUP -> len data = 1 -> parseMUPExtended data = Panic)
  /\ (forall d1 : byte,
         index data 0 = Ok EC_TYPE_MUP -> index data 1 = Ok d1 ->
         d1 <> EC_SUBTYPE_MUP_DIRECT_SEG ->
         parseMUPExtended data
         = Err (MalformedAttribute ("unknown mup subtype: " ++ fmt.d (u8 d1))%string))
  /\ (index data 0 = Ok EC_TYPE_MUP -> index data 1 = Ok EC_SUBTYPE_MUP_DIRECT_SEG ->
      cap data < 8 -> parseMUPExtended data = Panic).
Proof.
  unfold parseMUPExtended. repeat split.
  - intros H. rewrite index_out by lia. reflexivity.
  - intros d0 H N. rewrite H. cbn [rbind].
    apply byte_eqb_neq in N. rewrite N. reflexivity.
  - intros H L. rewrite H. cbn [rbind]. rewrite byte_eqb_refl. cbn [negb].
    rewrite index_out by lia. reflexivity.
  - intros d1 H0 H1 N. rewrite H0. cbn [rbind]. rewrite byte_eqb_refl. cbn [negb].
    rewrite H1. cbn [rbind]. apply byte_eqb_neq in N. rewrite N. reflexivity.
  - intros H0 H1 C. rewrite H0. cbn [rbind]. rewrite byte_eqb_refl. cbn [negb].
    rewrite H1. cbn [rbind]. rewrite byte_eqb_refl.
    unfold reslice.
    destruct (Z.leb_spec 4 (cap data)).
    + cbn [Z.leb Z.compare Pos.compare Pos.compare_cont andb].
      replace (4 <=? cap data) with true by (symmetry; apply Z.leb_le; lia).
      cbn [rbind]. destruct (binary.Uint16 _) eqn:U; cbn [rbind]; try reflexivity.
      * replace (8 <=? cap data) with false by (symmetry; apply Z.leb_gt; lia).
        reflexivity.
      * exfalso. eapply Uint16_not_err; eassumption.
    + replace (4 <=? cap data) with false by (symmetry; apply Z.leb_gt; lia).
      rewrite andb_false_r. reflexivity.
Qed.
(** ** [Len()] against the size of the encoding *)

Lemma RD_option_bytes (ro : option RD) :
  exists bs : list byte,
    match ro with Some rd => RD_Serialize rd | None => Ok (make 8) end = Ok bs
    /\ length bs = 8%nat.
Proof.
  destruct ro as [rd|].
  - apply RD_Serialize_8.
  - exists (make 8). split; reflexivity.
Qed.

Lemma Addr_wf_facts (a : netip.Addr) :
  Addr_wf a ->
  netip.BitLen a / 8 = Z.of_nat (length (netip.AsSlice a))
  /\ u8 (byte_of_Z (netip.BitLen a)) = netip.BitLen a
  /\ u8 (byte_of_Z (u8 (byte_of_Z (netip.BitLen a)) + 32)) = netip.BitLen a + 32.
Proof.
  destruct a as [|o|o z]; cbn [Addr_wf netip.BitLen netip.AsSlice]; intros H;
    rewrite ?H; repeat split; reflexivity.
Qed.

Lemma NewMUPNLRI_Length_exact (at_ : byte) (rt : Z) (r : MUPRouteTypeInterface)
      (tbuf : list byte) :
  route_Serialize r = Ok tbuf -> route_Len r = Z.of_nat (length tbuf) ->
  route_Len r < 256 ->
  Length_exact (NewMUPNLRI at_ rt (Some r)).
Proof.
  intros Hs Hl Hb. eexists. split.
  - apply (MUPNLRI_Serialize_eq (NewMUPNLRI at_ rt (Some r)) r tbuf); [reflexivity|exact Hs].
  - unfold MUPNLRI_Len, NewMUPNLRI. cbn [Length].
    rewrite u8_byte_of_Z, Z.mod_small by lia.
    rewrite length_app. cbn [length]. lia.
Qed.

(** X4. Every envelope a constructor builds, with a distinguisher or
    without, from addresses of the right octet count (the zero address and
    zoned IPv6 addresses included), has an encoding whose size is exactly its
    [Len()]: the stored length octet is the size of the serialized body. *)
Theorem constructors_Length_exact (ro : option RD) :
  (forall prefix : netip.Prefix,
      Addr_wf (netip.Addr_ prefix) ->
      Length_exact (NewMUPInterworkSegmentDiscoveryRoute ro prefix))
  /\ (forall address : netip.Addr,
         Addr_wf address ->
         Length_exact (NewMUPDirectSegmentDiscoveryRoute ro address))
  /\ (forall (prefix : netip.Addr) (teid : Z) (qfi : byte) (ea : netip.Addr),
         Addr_wf prefix -> Addr_wf ea ->
         Length_exact (NewMUPType1SessionTransformedRoute ro prefix teid qfi ea))
  /\ (forall (ea : netip.Addr) (teid : Z),
         Addr_wf ea ->
         Length_exact (NewMUPType2SessionTransformedRoute ro ea teid)).
Proof.
  destruct (RD_option_bytes ro) as (bs & Hs & Lbs).
  repeat split.
  - intros p Hp. destruct (Addr_wf_facts _ Hp) as (D & _ & _).
    pose proof (BitLen_div8 (netip.Addr_ p)).
    apply (NewMUPNLRI_Length_exact _ _ _
             (bs ++ [byte_of_Z (netip.Bits p)] ++ netip.AsSlice (netip.Addr_ p))).
    + cbn [route_Serialize]. unfold MUPInterworkSegmentDiscoveryRoute_Serialize.
      cbn [isd_RD isd_PrefixLength isd_Prefix]. rewrite Hs. cbn [rbind].
      f_equal. list_eq.
    + cbn [route_Len]. unfold MUPInterworkSegmentDiscoveryRoute_Len. cbn [isd_Prefix].
      rewrite D. list_len.
    + cbn [route_Len]. unfold MUPInterworkSegmentDiscoveryRoute_Len. cbn [isd_Prefix]. lia.
  - intros a Ha. destruct (Addr_wf_facts _ Ha) as (D & _ & _).
    pose proof (BitLen_div8 a).
    apply (NewMUPNLRI_Length_exact _ _ _ (bs ++ netip.AsSlice a)).
    + cbn [route_Serialize]. unfold MUPDirectSegmentDiscoveryRoute_Serialize.
      cbn [dsd_RD dsd_Address]. rewrite Hs. reflexivity.
    + cbn [route_Len]. unfold MUPDirectSegmentDiscoveryRoute_Len. cbn [dsd_Address].
      rewrite D. list_len.
    + cbn [route_Len]. unfold MUPDirectSegmentDiscoveryRoute_Len. cbn [dsd_Address]. lia.
  - intros p teid qfi ea Hp He.
    destruct (Addr_wf_facts _ Hp) as (Dp & Up & _).
    destruct (Addr_wf_facts _ He) as (De & Ue & _).
    pose proof (BitLen_div8 p). pose proof (BitLen_div8 ea).
    apply (NewMUPNLRI_Length_exact _ _ _
             (bs ++ [byte_of_Z (netip.BitLen p)] ++ netip.AsSlice p
                 ++ [byte_of_Z (Z.shiftr teid 24); byte_of_Z (Z.shiftr teid 16);
                     byte_of_Z (Z.shiftr teid 8); byte_of_Z teid]
                 ++ [qfi] ++ [byte_of_Z (netip.BitLen ea)] ++ netip.AsSlice ea)).
    + cbn [route_Serialize]. unfold MUPType1SessionTransformedRoute_Serialize.
      cbn [t1_RD t1_PrefixLength t1_Prefix t1_TEID t1_QFI t1_EndpointAddressLength
           t1_EndpointAddress].
      rewrite Hs, PutUint32_make. cbn [rbind]. f_equal. list_eq.
    + cbn [route_Len]. unfold MUPType1SessionTransformedRoute_Len.
      cbn [t1_PrefixLength t1_EndpointAddressLength].
      rewrite Up, Ue, Dp, De. list_len.
    + cbn [route_Len]. unfold MUPType1SessionTransformedRoute_Len.
      cbn [t1_PrefixLength t1_EndpointAddressLength].
      rewrite Up, Ue. lia.
  - intros ea teid He.
    destruct (Addr_wf_facts _ He) as (De & _ & Ue).
    pose proof (BitLen_div8 ea).
    assert (D32 : (netip.BitLen ea + 32) / 8 = netip.BitLen ea / 8 + 4)
      by (destruct ea; reflexivity).
    apply (NewMUPNLRI_Length_exact _ _ _
             (bs ++ [byte_of_Z (u8 (byte_of_Z (netip.BitLen ea)) + 32)]
                 ++ netip.AsSlice ea
                 ++ [byte_of_Z (Z.shiftr teid 24); byte_of_Z (Z.shiftr teid 16);
                     byte_of_Z (Z.shiftr teid 8); byte_of_Z teid])).
    + cbn [route_Serialize]. unfold MUPType2SessionTransformedRoute_Serialize.
      cbn [t2_RD t2_EndpointAddressLength t2_EndpointAddress t2_TEID].
      rewrite Hs, PutUint32_make. cbn [rbind]. f_equal. list_eq.
    + cbn [route_Len]. unfold MUPType2SessionTransformedRoute_Len.
      cbn [t2_EndpointAddressLength]. rewrite Ue, D32, De. list_len.
    + cbn [route_Len]. unfold MUPType2SessionTransformedRoute_Len.
      cbn [t2_EndpointAddressLength]. rewrite Ue, D32. lia.
Qed.

(** X5. For the two session-transformed routes the size of the encoding
    comes from the addresses held (and four TEID octets), while [Len()] comes
    from the stored length octets; the two agree exactly when the octets fit
    the addresses. *)
Theorem session_routes_Len_vs_Serialize :
  (forall (r : MUPType1SessionTransformedRoute) (b : list byte),
      MUPType1SessionTransformedRoute_Serialize r = Ok b ->
      Z.of_nat (length b)
      = 15 + Z.of_nat (length (netip.AsSlice (t1_Prefix r)))
        + Z.of_nat (length (netip.AsSlice (t1_EndpointAddress r)))
      /\ (Z.of_nat (length b) = MUPType1SessionTransformedRoute_Len r
          <-> u8 (t1_PrefixLength r) / 8 + u8 (t1_EndpointAddressLength r) / 8
              = Z.of_nat (length (netip.AsSlice (t1_Prefix r)))
                + Z.of_nat (length (netip.AsSlice (t1_EndpointAddress r)))))
  /\ (forall (r : MUPType2SessionTransformedRoute) (b : list byte),
         MUPType2SessionTransformedRoute_Serialize r = Ok b ->
         Z.of_nat (length b)
         = 13 + Z.of_nat (length (netip.AsSlice (t2_EndpointAddress r)))
         /\ (Z.of_nat (length b) = MUPType2SessionTransformedRoute_Len r
             <-> u8 (t2_EndpointAddressLength r) / 8
                 = Z.of_nat (length (netip.AsSlice (t2_EndpointAddress r))) + 4)).
Proof.
  split.
  - intros [ro pl p teid qfi eal ea] b.
    unfold MUPType1SessionTransformedRoute_Serialize, MUPType1SessionTransformedRoute_Len.
    cbn [t1_RD t1_PrefixLength t1_Prefix t1_TEID t1_QFI t1_EndpointAddressLength
         t1_EndpointAddress].
    destruct (RD_option_bytes ro) as (bs & Hs & Lbs). rewrite Hs, PutUint32_make.
    cbn [rbind]. intros H. injection H as <-.
    assert (E : Z.of_nat (length ((((((bs ++ [pl]) ++ netip.AsSlice p)
                  ++ [byte_of_Z (Z.shiftr teid 24); byte_of_Z (Z.shiftr teid 16);
                      byte_of_Z (Z.shiftr teid 8); byte_of_Z teid])
                  ++ [qfi]) ++ [eal]) ++ netip.AsSlice ea))
                = 15 + Z.of_nat (length (netip.AsSlice p))
                  + Z.of_nat (length (netip.AsSlice ea))) by list_len.
    rewrite E. split; [reflexivity|]. split; lia.
  - intros [ro eal ea teid] b.
    unfold MUPType2SessionTransformedRoute_Serialize, MUPType2SessionTransformedRoute_Len.
    cbn [t2_RD t2_EndpointAddressLength t2_EndpointAddress t2_TEID].
    destruct (RD_option_bytes ro) as (bs & Hs & Lbs). rewrite Hs, PutUint32_make.
    cbn [rbind]. intros H. injection H as <-.
    assert (E : Z.of_nat (length (((bs ++ [eal]) ++ netip.AsSlice ea)
                  ++ [byte_of_Z (Z.shiftr teid 24); byte_of_Z (Z.shiftr teid 16);
                      byte_of_Z (Z.shiftr teid 8); byte_of_Z teid]))
                = 13 + Z.of_nat (length (netip.AsSlice ea))) by list_len.
    rewrite E. split; [reflexivity|]. split; lia.
Qed.

(** ** What the route decoders do at their edges *)

(** X6. The three decoders that read a length octet after the distinguisher
    reject a body of fewer than 8 octets with their length error, and panic
    on a body of exactly 8 octets: the guard is [len(data) < p] and the next
    statement reads [data[p]]. *)
Theorem DecodeFromBytes_eight_octets (data : slice)
        (i0 : MUPInterworkSegmentDiscoveryRoute)
        (s0 : MUPType1SessionTransformedRoute)
        (t0 : MUPType2SessionTransformedRoute) :
  (len data < 8 ->
   snd (MUPInterworkSegmentDiscoveryRoute_DecodeFromBytes data i0)
   = Err (MalformedAttribute "invalid Interwork Segment Discovery Route length")
   /\ snd (MUPType1SessionTransformedRoute_DecodeFromBytes data s0)
      = Err (MalformedAttribute
               "invalid 3GPP 5G specific Type 1 Session Transformed Route length")
   /\ snd (MUPType2SessionTransformedRoute_DecodeFromBytes data t0)
      = Err (MalformedAttribute
               "invalid 3GPP 5G specific Type 2 Session Transformed Route length"))
  /\ (len data = 8 ->
      snd (MUPInterworkSegmentDiscoveryRoute_DecodeFromBytes data i0) = Panic
      /\ snd (MUPType1SessionTransformedRoute_DecodeFromBytes data s0) = Panic
      /\ snd (MUPType2SessionTransformedRoute_DecodeFromBytes data t0) = Panic).
Proof.
  unfold MUPInterworkSegmentDiscoveryRoute_DecodeFromBytes,
    MUPType1SessionTransformedRoute_DecodeFromBytes,
    MUPType2SessionTransformedRoute_DecodeFromBytes.
  rewrite !run_modify, !RD_Len_8. split; intros H.
  - replace (len data <? 8) with true by (symmetry; apply Z.ltb_lt; lia).
    repeat split; reflexivity.
  - replace (len data <? 8) with false by (symmetry; apply Z.ltb_ge; lia).
    rewrite !index_out by lia. repeat split; reflexivity.
Qed.

Lemma AddrFromSlice_bad (s : slice) :
  length (elems s) <> 4%nat -> length (elems s) <> 16%nat ->
  netip.AddrFromSlice s = (netip.Zero, false).
Proof.
  intros N4 N16. unfold netip.AddrFromSlice.
  destruct (length (elems s)) as [|[|[|[|[|n]]]]]; try reflexivity; try congruence.
  do 11 (destruct n as [|n]; try reflexivity).
  destruct n; [congruence|reflexivity].
Qed.

(** X7. [MUPInterworkSegmentDiscoveryRoute.DecodeFromBytes] on a body that
    holds the prefix-length octet: it succeeds exactly when the body is 13
    octets with a prefix length of at most 32, or 25 octets with one of at
    most 128; a body of another size is rejected with its address octets in
    hexadecimal, a prefix length too large for the address with the text of
    an invalid prefix. *)
Theorem MUPInterworkSegmentDiscoveryRoute_DecodeFromBytes_outcomes
        (data : slice) (r0 : MUPInterworkSegmentDiscoveryRoute) (pl : byte) :
  index data 8 = Ok pl ->
  (len data <> 13 -> len data <> 25 ->
   snd (MUPInterworkSegmentDiscoveryRoute_DecodeFromBytes data r0)
   = Err (MalformedAttribute
            ("Invalid Prefix: " ++ fmt.x (sub (backing data) 9 (len data)))%string))
  /\ ((len data = 13 /\ 32 < u8 pl) \/ (len data = 25 /\ 128 < u8 pl) ->
      snd (MUPInterworkSegmentDiscoveryRoute_DecodeFromBytes data r0)
      = Err (MalformedAttribute "Invalid Prefix: invalid Prefix"))
  /\ ((len data = 13 /\ u8 pl <= 32) \/ (len data = 25 /\ u8 pl <= 128) ->
      MUPInterworkSegmentDiscoveryRoute_DecodeFromBytes data r0
      = (mkInterwork (Some (GetRouteDistinguisher data)) pl
                     (netip.mkPrefix
                        (if len data =? 13
                         then netip.V4 (sub (backing data) 9 13)
                         else netip.V6 (sub (backing data) 9 25) EmptyString)
                        (u8 pl)),
         Ok tt)).
Proof.
  intros Hi. pose proof (index_len _ _ _ Hi) as Hl.
  pose proof (cap_ge_len data) as Hc. pose proof (u8_range pl) as Hr.
  split; [|split].
  - intros N13 N25. unfold MUPInterworkSegmentDiscoveryRoute_DecodeFromBytes.
    rewrite run_modify, !RD_Len_8.
    replace (len data <? 8) with false by (symmetry; apply Z.ltb_ge; lia).
    rewrite Hi, run_lift_Ok, run_modify.
    unfold reslice_from. rewrite reslice_backing by lia. rewrite run_lift_Ok.
    rewrite AddrFromSlice_bad
      by (cbn [elems]; rewrite sub_backing_length by lia; lia).
    reflexivity.
  - intros H. unfold MUPInterworkSegmentDiscoveryRoute_DecodeFromBytes.
    rewrite run_modify, !RD_Len_8.
    replace (len data <? 8) with false by (symmetry; apply Z.ltb_ge; lia).
    rewrite Hi, run_lift_Ok, run_modify.
    unfold reslice_from. rewrite reslice_backing by lia. rewrite run_lift_Ok.
    destruct H as [[L B]|[L B]]; rewrite L.
    + rewrite AddrFromSlice_4
        by (cbn [elems]; rewrite sub_backing_length by lia; reflexivity).
      cbn [negb elems]. rewrite run_modify.
      unfold netip.PrefixFrom. cbn [netip.isZero negb netip.BitLen netip.withoutZone andb].
      replace (u8 pl <=? 32) with false by (symmetry; apply Z.leb_gt; lia).
      rewrite andb_false_r. reflexivity.
    + rewrite AddrFromSlice_16
        by (cbn [elems]; rewrite sub_backing_length by lia; reflexivity).
      cbn [negb elems]. rewrite run_modify.
      unfold netip.PrefixFrom. cbn [netip.isZero negb netip.BitLen netip.withoutZone andb].
      replace (u8 pl <=? 128) with false by (symmetry; apply Z.leb_gt; lia).
      rewrite andb_false_r. reflexivity.
  - intros H. apply Interwork_DecodeFromBytes_ok; assumption.
Qed.

Lemma Type2_DecodeFromBytes_success_inv (data : slice)
      (r0 r : MUPType2SessionTransformedRoute) :
  MUPType2SessionTransformedRoute_DecodeFromBytes data r0 = (r, Ok tt) ->
  index data 8 = Ok (t2_EndpointAddressLength r)
  /\ ((u8 (t2_EndpointAddressLength r) = 64 /\ 17 <= cap data
       /\ netip.Is6 (t2_EndpointAddress r) = false)
      \/ (u8 (t2_EndpointAddressLength r) = 160 /\ 29 <= cap data
          /\ netip.Is6 (t2_EndpointAddress r) = true)).
Proof.
  unfold MUPType2SessionTransformedRoute_DecodeFromBytes. intros H.
  rewrite !RD_Len_8 in H.
  mexec H; cbn [negb andb] in *; try discriminate; norm_tests;
    injection H as <-;
    pose proof (reslice_elems_length _ _ _ _ E0) as La0;
    pose proof (reslice_elems_length _ _ _ _ E1) as La1;
    pose proof (Uint32_len _ _ E2) as L4; unfold len in L4;
    apply reslice_sub in E1 as (_ & Hr1 & Hc1);
    cbn [t2_set_TEID t2_set_EndpointAddress t2_set_EndpointAddressLength t2_set_RD
         t2_EndpointAddressLength t2_EndpointAddress];
    (split; [reflexivity|]);
    match goal with
    | X : snd (netip.AddrFromSlice ?a) = true |- _ =>
        destruct (AddrFromSlice_ok a X) as [[L ->]|[L ->]]
    end; try lia; cbn [netip.Is6].
  - left. assert (u8 a / 8 = 8) by (Z.div_mod_to_equations; lia).
    repeat split; try lia. Z.div_mod_to_equations; lia.
  - right. pose proof (u8_range a).
    assert (u8 a / 8 = 20) by (Z.div_mod_to_equations; lia).
    repeat split; try lia. Z.div_mod_to_equations; lia.
Qed.

(** X8. [MUPType2SessionTransformedRoute.DecodeFromBytes] on a body that
    holds the length octet: a declared length outside 32..64 and 128..160 is
    rejected with MalformedAttribute naming it, and the decoder succeeds
    exactly when the declared length is 64 with 17 octets to read or 160
    with 29. *)
Theorem MUPType2SessionTransformedRoute_DecodeFromBytes_outcomes
        (data : slice) (r0 : MUPType2SessionTransformedRoute) (eal : byte) :
  index data 8 = Ok eal ->
  (u8 eal < 32 \/ 64 < u8 eal < 128 \/ 160 < u8 eal ->
   snd (MUPType2SessionTransformedRoute_DecodeFromBytes data r0)
   = Err (MalformedAttribute
            ("Invalid Endpoint Address length: " ++ fmt.d (u8 eal))%string))
  /\ (snd (MUPType2SessionTransformedRoute_DecodeFromBytes data r0) = Ok tt
      <-> (u8 eal = 64 /\ 17 <= cap data) \/ (u8 eal = 160 /\ 29 <= cap data)).
Proof.
  intros Hi. pose proof (index_len _ _ _ Hi) as Hl. split.
  - intros Hb. unfold MUPType2SessionTransformedRoute_DecodeFromBytes.
    rewrite run_modify, !RD_Len_8.
    replace (len data <? 8) with false by (symmetry; apply Z.ltb_ge; lia).
    rewrite Hi, run_lift_Ok, run_modify.
    replace ((32 <=? u8 eal) && (u8 eal <=? 64)) with false
      by (symmetry; apply andb_false_iff;
          destruct (Z.leb_spec 32 (u8 eal)); [right; apply Z.leb_gt; lia|left; reflexivity]).
    replace ((128 <=? u8 eal) && (u8 eal <=? 160)) with false
      by (symmetry; apply andb_false_iff;
          destruct (Z.leb_spec 128 (u8 eal)); [right; apply Z.leb_gt; lia|left; reflexivity]).
    rewrite run_fail. reflexivity.
  - split.
    + intros H.
      destruct (MUPType2SessionTransformedRoute_DecodeFromBytes data r0) as [r e] eqn:E.
      cbn [snd] in H. subst e.
      destruct (Type2_DecodeFromBytes_success_inv _ _ _ E) as (Hi' & Hc).
      rewrite Hi in Hi'. injection Hi' as ->.
      destruct Hc as [(? & ? & _)|(? & ? & _)]; [left|right]; split; assumption.
    + intros H.
      rewrite (Type2_DecodeFromBytes_ok data r0 eal Hi).
      * reflexivity.
      * destruct H as [[? _]|[? _]]; [left|right]; assumption.
      * destruct H as [[-> ?]|[-> ?]]; [change (64 / 8) with 8|change (160 / 8) with 20]; lia.
Qed.

(** ** The address family of a decoded route *)

Lemma Interwork_DecodeFromBytes_success_inv (data : slice)
      (r0 r : MUPInterworkSegmentDiscoveryRoute) :
  MUPInterworkSegmentDiscoveryRoute_DecodeFromBytes data r0 = (r, Ok tt) ->
  (len data = 13 /\ netip.Is6 (netip.Addr_ (isd_Prefix r)) = false)
  \/ (len data = 25 /\ netip.Is6 (netip.Addr_ (isd_Prefix r)) = true).
Proof.
  unfold MUPInterworkSegmentDiscoveryRoute_DecodeFromBytes. intros H.
  rewrite !RD_Len_8 in H. mexec H. injection H as <-.
  norm_tests.
  pose proof (index_len _ _ _ E) as Hl. pose proof (cap_ge_len data) as Hc.
  unfold reslice_from in E0. pose proof (reslice_elems_length _ _ _ _ E0) as La.
  cbn [isd_set_Prefix isd_Prefix].
  assert (Hp : forall x b, netip.Addr_ (netip.PrefixFrom x b) = netip.withoutZone x)
    by (intros x b; unfold netip.PrefixFrom; destruct (_ && _); reflexivity).
  rewrite Hp.
  destruct (AddrFromSlice_ok a0 C0) as [[L ->]|[L ->]]; cbn [netip.withoutZone netip.Is6];
    [left|right]; split; try reflexivity; lia.
Qed.

Lemma Type1_DecodeFromBytes_success_inv (data : slice)
      (r0 r : MUPType1SessionTransformedRoute) :
  MUPType1SessionTransformedRoute_DecodeFromBytes data r0 = (r, Ok tt) ->
  index data 8 = Ok (t1_PrefixLength r)
  /\ ((u8 (t1_PrefixLength r) = 32 /\ netip.Is6 (t1_Prefix r) = false)
      \/ (u8 (t1_PrefixLength r) = 128 /\ netip.Is6 (t1_Prefix r) = true))
  /\ index data (14 + u8 (t1_PrefixLength r) / 8) = Ok (t1_EndpointAddressLength r)
  /\ ((u8 (t1_EndpointAddressLength r) = 32 /\ netip.Is6 (t1_EndpointAddress r) = false)
      \/ (u8 (t1_EndpointAddressLength r) = 128
          /\ netip.Is6 (t1_EndpointAddress r) = true)).
Proof.
  unfold MUPType1SessionTransformedRoute_DecodeFromBytes. intros H.
  rewrite !RD_Len_8 in H.
  mexec H; cbn [negb andb] in *; try discriminate; norm_tests.
  injection H as <-.
  pose proof (reslice_elems_length _ _ _ _ E0) as La0.
  pose proof (reslice_elems_length _ _ _ _ E5) as La5.
  cbn [t1_set_EndpointAddress t1_set_EndpointAddressLength t1_set_QFI t1_set_TEID
       t1_set_Prefix t1_set_PrefixLength t1_set_RD
       t1_PrefixLength t1_Prefix t1_EndpointAddressLength t1_EndpointAddress].
  replace (14 + u8 a / 8) with (8 + 1 + u8 a / 8 + 4 + 1) by lia.
  rewrite E4.
  split; [reflexivity|]. split; [|split; [reflexivity|]].
  - apply orb_true_iff in C0 as [C0|C0]; apply Z.eqb_eq in C0; rewrite C0 in *;
      destruct (AddrFromSlice_ok a0 C1) as [[L ->]|[L ->]]; cbn [netip.Is6];
      try (rewrite L in La0; discriminate La0);
      [left|right]; split; reflexivity.
  - apply orb_true_iff in C2 as [C2|C2]; apply Z.eqb_eq in C2; rewrite C2 in *;
      destruct (AddrFromSlice_ok a5 C3) as [[L ->]|[L ->]]; cbn [netip.Is6];
      try (rewrite L in La5;
           replace (8 + 1 + u8 a / 8 + 4 + 1 + 1 + 32 / 8
                    - (8 + 1 + u8 a / 8 + 4 + 1 + 1)) with 4 in La5 by (change (32 / 8) with 4; lia);
           discriminate La5);
      try (rewrite L in La5;
           replace (8 + 1 + u8 a / 8 + 4 + 1 + 1 + 128 / 8
                    - (8 + 1 + u8 a / 8 + 4 + 1 + 1)) with 16 in La5 by (change (128 / 8) with 16; lia);
           discriminate La5);
      [left|right]; split; reflexivity.
Qed.

(** X9. The address family a decoded route reports is fixed by one thing on
    the wire: the body size for Interwork Segment Discovery (13 or 25), the
    prefix-length octet for Type 1 (32 or 128, whatever the family of the
    endpoint address), the endpoint-length octet for Type 2 (64 or 160). *)
Theorem decoded_route_AFI (data : slice) :
  (forall r0 r : MUPInterworkSegmentDiscoveryRoute,
      MUPInterworkSegmentDiscoveryRoute_DecodeFromBytes data r0 = (r, Ok tt) ->
      (len data = 13 /\ MUPInterworkSegmentDiscoveryRoute_AFI r = AFI_IP)
      \/ (len data = 25 /\ MUPInterworkSegmentDiscoveryRoute_AFI r = AFI_IP6))
  /\ (forall r0 r : MUPType1SessionTransformedRoute,
         MUPType1SessionTransformedRoute_DecodeFromBytes data r0 = (r, Ok tt) ->
         index data 8 = Ok (t1_PrefixLength r)
         /\ ((u8 (t1_PrefixLength r) = 32
              /\ MUPType1SessionTransformedRoute_AFI r = AFI_IP)
             \/ (u8 (t1_PrefixLength r) = 128
                 /\ MUPType1SessionTransformedRoute_AFI r = AFI_IP6)))
  /\ (forall r0 r : MUPType2SessionTransformedRoute,
         MUPType2SessionTransformedRoute_DecodeFromBytes data r0 = (r, Ok tt) ->
         index data 8 = Ok (t2_EndpointAddressLength r)
         /\ ((u8 (t2_EndpointAddressLength r) = 64
              /\ MUPType2SessionTransformedRoute_AFI r = AFI_IP)
             \/ (u8 (t2_EndpointAddressLength r) = 160
                 /\ MUPType2SessionTransformedRoute_AFI r = AFI_IP6))).
Proof.
  split; [|split].
  - intros r0 r H. unfold MUPInterworkSegmentDiscoveryRoute_AFI.
    destruct (Interwork_DecodeFromBytes_success_inv _ _ _ H) as [[L ->]|[L ->]];
      [left|right]; split; try reflexivity; exact L.
  - intros r0 r H. unfold MUPType1SessionTransformedRoute_AFI.
    destruct (Type1_DecodeFromBytes_success_inv _ _ _ H) as (Hi & Hp & _).
    split; [exact Hi|].
    destruct Hp as [[L ->]|[L ->]]; [left|right]; split; try reflexivity; exact L.
  - intros r0 r H. unfold MUPType2SessionTransformedRoute_AFI.
    destruct (Type2_DecodeFromBytes_success_inv _ _ _ H) as (Hi & Hp).
    split; [exact Hi|].
    destruct Hp as [(L & _ & ->)|(L & _ & ->)]; [left|right]; split; try reflexivity; exact L.
Qed.

(** ** The envelope: which error comes first, and what success leaves *)

Lemma getMUPRouteType_unregistered (at_ : byte) (rt : Z) :
  ~ registered at_ rt ->
  getMUPRouteType at_ rt
  = Err (MalformedAttribute
           ("Unknown MUP Architecture and Route type: "
              ++ fmt.d (u8 at_) ++ ", " ++ fmt.d rt)%string).
Proof.
  unfold registered, getMUPRouteType, MUP_ARCH_TYPE_3GPP_5G,
    MUP_ROUTE_TYPE_INTERWORK_SEGMENT_DISCOVERY, MUP_ROUTE_TYPE_DIRECT_SEGMENT_DISCOVERY,
    MUP_ROUTE_TYPE_TYPE_1_SESSION_TRANSFORMED, MUP_ROUTE_TYPE_TYPE_2_SESSION_TRANSFORMED.
  intros ND.
  destruct (Z.eqb_spec (u8 at_) 1), (Z.eqb_spec rt 1), (Z.eqb_spec rt 2),
    (Z.eqb_spec rt 3), (Z.eqb_spec rt 4);
    try reflexivity; exfalso; apply ND; lia.
Qed.

Lemma getMUPRouteType_Ok_inv (at_ : byte) (rt : Z) (r : MUPRouteTypeInterface) :
  getMUPRouteType at_ rt = Ok r ->
  registered at_ rt /\ route_type_of r = rt /\ route_rd r = None.
Proof.
  unfold registered, getMUPRouteType, route_type_of, MUP_ARCH_TYPE_3GPP_5G,
    MUP_ROUTE_TYPE_INTERWORK_SEGMENT_DISCOVERY, MUP_ROUTE_TYPE_DIRECT_SEGMENT_DISCOVERY,
    MUP_ROUTE_TYPE_TYPE_1_SESSION_TRANSFORMED, MUP_ROUTE_TYPE_TYPE_2_SESSION_TRANSFORMED.
  destruct (Z.eqb_spec (u8 at_) 1), (Z.eqb_spec rt 1), (Z.eqb_spec rt 2),
    (Z.eqb_spec rt 3), (Z.eqb_spec rt 4);
    intros H; try discriminate; injection H as <-;
    (split; [lia|split; [lia|reflexivity]]).
Qed.

Lemma route_DecodeFromBytes_kind (d : slice) (r1 r : MUPRouteTypeInterface)
      (e : result unit) :
  route_DecodeFromBytes d r1 = (r, e) ->
  route_type_of r = route_type_of r1.
Proof.
  destruct r1 as [x|x|x|x]; cbn [route_DecodeFromBytes].
  - destruct (MUPInterworkSegmentDiscoveryRoute_DecodeFromBytes d x).
    intros H. injection H as <- _. reflexivity.
  - destruct (MUPDirectSegmentDiscoveryRoute_DecodeFromBytes d x).
    intros H. injection H as <- _. reflexivity.
  - destruct (MUPType1SessionTransformedRoute_DecodeFromBytes d x).
    intros H. injection H as <- _. reflexivity.
  - destruct (MUPType2SessionTransformedRoute_DecodeFromBytes d x).
    intros H. injection H as <- _. reflexivity.
Qed.

(** X10. The envelope decoder checks in this order: four header octets,
    then the declared body length against what follows, then the registry.
    A short body is reported even for an unknown type pair; an unknown pair
    is reported with both numbers.  After either of the two later errors the
    receiver holds the three header fields just read and its old route. *)
Theorem MUPNLRI_DecodeFromBytes_errors (data : slice) (n0 : MUPNLRI) :
  (len data < 4 ->
   MUPNLRI_DecodeFromBytes data n0
   = (n0, Err (MalformedAttribute "Not all MUPNLRI bytes available")))
  /\ (forall (at_ h l ln : byte) (body : list byte),
         elems data = at_ :: h :: l :: ln :: body ->
         let n := mkMUPNLRI at_ (256 * u8 h + u8 l) ln (RouteTypeData n0) in
         (Z.of_nat (length body) < u8 ln ->
          MUPNLRI_DecodeFromBytes data n0
          = (n, Err (MalformedAttribute "Not all MUPNLRI Route type bytes available")))
         /\ (u8 ln <= Z.of_nat (length body) ->
             ~ registered at_ (256 * u8 h + u8 l) ->
             MUPNLRI_DecodeFromBytes data n0
             = (n, Err (MalformedAttribute
                          ("Unknown MUP Architecture and Route type: "
                             ++ fmt.d (u8 at_) ++ ", "
                             ++ fmt.d (256 * u8 h + u8 l))%string)))).
Proof.
  split.
  - intros H. unfold MUPNLRI_DecodeFromBytes.
    replace (len data <? 4) with true by (symmetry; apply Z.ltb_lt; lia).
    reflexivity.
  - intros at_ h l ln body E. destruct data as [el sp]. cbn [elems] in E. subst el.
    cbv zeta. rewrite MUPNLRI_DecodeFromBytes_header. split.
    + intros H.
      replace (Z.of_nat (length body) <? u8 ln) with true by (symmetry; apply Z.ltb_lt; lia).
      reflexivity.
    + intros H ND.
      replace (Z.of_nat (length body) <? u8 ln) with false by (symmetry; apply Z.ltb_ge; lia).
      rewrite (getMUPRouteType_unregistered _ _ ND). reflexivity.
Qed.

(** X11. After a successful envelope decode the receiver holds the header
    as it was on the wire, a type pair of the registry, a route of the kind
    registered for that route type, and a length that stays inside the
    input: [Len()] is at most [len(data)], so a caller can step over the
    record. *)
Theorem MUPNLRI_DecodeFromBytes_success (data : slice) (n0 n : MUPNLRI) :
  MUPNLRI_DecodeFromBytes data n0 = (n, Ok tt) ->
  index data 0 = Ok (ArchitectureType n)
  /\ index data 3 = Ok (Length n)
  /\ registered (ArchitectureType n) (RouteType n)
  /\ MUPNLRI_Len n <= len data
  /\ exists r : MUPRouteTypeInterface,
      RouteTypeData n = Some r /\ route_type_of r = RouteType n.
Proof.
  intros H. destruct data as [el sp].
  destruct el as [|at_ [|h [|l [|ln body]]]];
    try (unfold MUPNLRI_DecodeFromBytes in H; cbn in H; discriminate).
  rewrite MUPNLRI_DecodeFromBytes_header in H.
  mexec H. unfold RouteTypeData_DecodeFromBytes in H.
  cbv beta iota delta [RouteTypeData set_RouteTypeData ArchitectureType RouteType Length] in H.
  destruct (route_DecodeFromBytes a0 a) as [r e] eqn:Ed.
  injection H as <- ->.
  destruct (getMUPRouteType_Ok_inv _ _ _ E) as (Hreg & Hk & _).
  pose proof (route_DecodeFromBytes_kind _ _ _ _ Ed) as Hk'.
  norm_tests.
  cbv beta iota delta [ArchitectureType RouteType Length RouteTypeData set_RouteTypeData].
  split; [apply index_ok; [lia|reflexivity]|].
  split; [apply index_ok; [lia|reflexivity]|].
  split; [exact Hreg|].
  split; [unfold MUPNLRI_Len, len;
          cbv beta iota delta [Length elems]; cbn [length]; lia|].
  exists r. split; [reflexivity|].
  change (route_type_of r = 256 * u8 h + u8 l). congruence.
Qed.

(** *** Slices over one backing array *)

Lemma sub_prefix (l ext : list byte) (lo hi : Z) :
  0 <= lo -> hi <= Z.of_nat (length l) -> sub (l ++ ext) lo hi = sub l lo hi.
Proof.
  intros H0 H1. unfold sub.
  destruct (Z.le_gt_cases hi lo) as [Hle|Hgt].
  - replace (Z.to_nat (hi - lo)) with 0%nat by lia. reflexivity.
  - rewrite skipn_app.
    rewrite firstn_app.
    replace (Z.to_nat (hi - lo) - length (skipn (Z.to_nat lo) l))%nat with 0%nat
      by (rewrite length_skipn; lia).
    cbn [firstn]. apply app_nil_r.
Qed.

Lemma GetRD_same_prefix (s t : slice) :
  8 <= len s -> firstn 8 (elems t) = firstn 8 (elems s) ->
  GetRouteDistinguisher t = GetRouteDistinguisher s.
Proof.
  intros L E.
  apply (@RD_Get_Serialize RDI CD _ (firstn 8 (elems s))); [|exact E].
  apply (@RD_Serialize_Get RDI CD). unfold len in L. lia.
Qed.

Lemma Interwork_DecodeFromBytes_success_pre (data : slice)
      (r0 r : MUPInterworkSegmentDiscoveryRoute) :
  MUPInterworkSegmentDiscoveryRoute_DecodeFromBytes data r0 = (r, Ok tt) ->
  exists pl : byte,
    index data 8 = Ok pl
    /\ ((len data = 13 /\ u8 pl <= 32) \/ (len data = 25 /\ u8 pl <= 128)).
Proof.
  unfold MUPInterworkSegmentDiscoveryRoute_DecodeFromBytes. intros H.
  rewrite !RD_Len_8 in H. mexec H. injection H as <-.
  norm_tests.
  pose proof (index_len _ _ _ E) as Hl. pose proof (cap_ge_len data) as Hc.
  unfold reslice_from in E0. pose proof (reslice_elems_length _ _ _ _ E0) as La.
  exists a. split; [reflexivity|].
  assert (HP : (netip.BitLen (fst (netip.AddrFromSlice a0)) < u8 a) ->
               netip.Bits (netip.PrefixFrom (fst (netip.AddrFromSlice a0)) (u8 a)) = -1).
  { intros Hlt. unfold netip.PrefixFrom.
    replace (u8 a <=? netip.BitLen (fst (netip.AddrFromSlice a0))) with false
      by (symmetry; apply Z.leb_gt; lia).
    rewrite andb_false_r. reflexivity. }
  destruct (AddrFromSlice_ok a0 C0) as [[L Ha]|[L Ha]]; rewrite Ha in HP, C1;
    cbn [fst netip.BitLen] in HP; [left|right]; (split; [lia|]);
    destruct (Z.le_gt_cases (u8 a) 32), (Z.le_gt_cases (u8 a) 128);
    try assumption; try lia; exfalso; apply C1, HP; lia.
Qed.

Lemma Direct_DecodeFromBytes_success_pre (data : slice)
      (r0 r : MUPDirectSegmentDiscoveryRoute) :
  MUPDirectSegmentDiscoveryRoute_DecodeFromBytes data r0 = (r, Ok tt) ->
  len data = 12 \/ len data = 24.
Proof.
  unfold MUPDirectSegmentDiscoveryRoute_DecodeFromBytes. intros H.
  rewrite run_modify in H.
  destruct (Z.eqb_spec (len data) 12) as [?|N12]; [left; assumption|].
  destruct (Z.eqb_spec (len data) 24) as [?|N24]; [right; assumption|].
  cbn [negb andb] in H. discriminate H.
Qed.

Lemma Type1_DecodeFromBytes_success_pre (data : slice)
      (r0 r : MUPType1SessionTransformedRoute) :
  MUPType1SessionTransformedRoute_DecodeFromBytes data r0 = (r, Ok tt) ->
  exists qfi : byte,
    index data 8 = Ok (t1_PrefixLength r)
    /\ (u8 (t1_PrefixLength r) = 32 \/ u8 (t1_PrefixLength r) = 128)
    /\ index data (13 + u8 (t1_PrefixLength r) / 8) = Ok qfi
    /\ index data (14 + u8 (t1_PrefixLength r) / 8) = Ok (t1_EndpointAddressLength r)
    /\ (u8 (t1_EndpointAddressLength r) = 32 \/ u8 (t1_EndpointAddressLength r) = 128)
    /\ 15 + u8 (t1_PrefixLength r) / 8 + u8 (t1_EndpointAddressLength r) / 8 <= cap data.
Proof.
  unfold MUPType1SessionTransformedRoute_DecodeFromBytes. intros H.
  rewrite !RD_Len_8 in H.
  mexec H; cbn [negb andb] in *; try discriminate; norm_tests.
  injection H as <-.
  apply reslice_inv in E5 as (_ & Hc5 & _).
  cbn [t1_set_EndpointAddress t1_set_EndpointAddressLength t1_set_QFI t1_set_TEID
       t1_set_Prefix t1_set_PrefixLength t1_set_RD
       t1_PrefixLength t1_Prefix t1_EndpointAddressLength t1_EndpointAddress].
  exists a3.
  replace (13 + u8 a / 8) with (8 + 1 + u8 a / 8 + 4) by lia.
  replace (14 + u8 a / 8) with (8 + 1 + u8 a / 8 + 4 + 1) by lia.
  rewrite E3, E4.
  apply orb_true_iff in C0, C2.
  rewrite !Z.eqb_eq in C0, C2.
  repeat split; try assumption; try reflexivity. lia.
Qed.

Lemma index_transfer (s t : slice) (ext : list byte) (i : Z) (b : byte) :
  backing t = backing s ++ ext -> i < len t ->
  index s i = Ok b -> index t i = Ok b.
Proof.
  intros HB Hl H. apply index_inv in H as [H1 H2]. unfold len in *.
  apply index_ok; [unfold len; lia|].
  assert (Hn : nth_error (backing t) (Z.to_nat i) = Some b).
  { rewrite HB. unfold backing. rewrite !nth_error_app1; [exact H2|lia|].
    rewrite length_app. lia. }
  unfold backing in Hn. rewrite nth_error_app1 in Hn by lia. exact Hn.
Qed.

Lemma firstn_elems_backing (s : slice) (n : nat) :
  Z.of_nat n <= len s -> firstn n (elems s) = firstn n (backing s).
Proof.
  intros H. unfold backing, len in *. rewrite firstn_app.
  replace (n - length (elems s))%nat with 0%nat by lia.
  cbn [firstn]. symmetry. apply app_nil_r.
Qed.

Lemma GetRD_transfer (s t : slice) (ext : list byte) :
  backing t = backing s ++ ext -> 8 <= len s -> 8 <= len t ->
  GetRouteDistinguisher t = GetRouteDistinguisher s.
Proof.
  intros HB Hs Ht. apply GetRD_same_prefix; [exact Hs|].
  rewrite !firstn_elems_backing by (cbn; lia). rewrite HB.
  rewrite firstn_app.
  replace (8 - length (backing s))%nat with 0%nat
    by (unfold backing; rewrite length_app; unfold len in Hs; lia).
  cbn [firstn]. apply app_nil_r.
Qed.

Lemma cap_transfer (s t : slice) (ext : list byte) :
  backing t = backing s ++ ext -> cap s <= cap t.
Proof.
  intros HB. unfold cap. fold (backing s) (backing t). rewrite HB, length_app. lia.
Qed.

Lemma sub_transfer (s t : slice) (ext : list byte) (lo hi : Z) :
  backing t = backing s ++ ext -> 0 <= lo -> hi <= cap s ->
  sub (backing t) lo hi = sub (backing s) lo hi.
Proof.
  intros -> H0 H1. apply sub_prefix; [exact H0|exact H1].
Qed.

Lemma Type2_DecodeFromBytes_transfer (s t : slice) (ext : list byte)
      (r0 r : MUPType2SessionTransformedRoute) :
  backing t = backing s ++ ext -> 9 <= len t ->
  MUPType2SessionTransformedRoute_DecodeFromBytes s r0 = (r, Ok tt) ->
  MUPType2SessionTransformedRoute_DecodeFromBytes t r0 = (r, Ok tt).
Proof.
  intros HB Ht H.
  destruct (Type2_DecodeFromBytes_success_inv _ _ _ H) as (Hi & Hc).
  pose proof (index_len _ _ _ Hi) as Hs.
  pose proof (cap_transfer _ _ _ HB) as Hcap.
  assert (Hi' : index t 8 = Ok (t2_EndpointAddressLength r))
    by (apply (index_transfer s t ext); [exact HB|lia|exact Hi]).
  assert (Hv : u8 (t2_EndpointAddressLength r) = 64 /\ 17 <= cap s
               \/ u8 (t2_EndpointAddressLength r) = 160 /\ 29 <= cap s)
    by (destruct Hc as [(? & ? & _)|(? & ? & _)]; [left|right]; split; assumption).
  assert (Hd : 9 + u8 (t2_EndpointAddressLength r) / 8 <= cap s)
    by (destruct Hv as [[-> ?]|[-> ?]];
        [change (64 / 8) with 8|change (160 / 8) with 20]; lia).
  rewrite (Type2_DecodeFromBytes_ok s r0 _ Hi) in H;
    [|destruct Hv as [[? _]|[? _]]; [left|right]; assumption|exact Hd].
  rewrite (Type2_DecodeFromBytes_ok t r0 _ Hi');
    [|destruct Hv as [[? _]|[? _]]; [left|right]; assumption|lia].
  rewrite <- H.
  rewrite (GetRD_transfer s t ext HB) by lia.
  destruct Hv as [[He ?]|[He ?]]; rewrite He;
    [change (64 / 8) with 8; change (64 =? 64) with true
    |change (160 / 8) with 20; change (160 =? 64) with false];
    cbv beta iota;
    rewrite !(sub_transfer s t ext _ _ HB) by lia; reflexivity.
Qed.

Lemma Type1_DecodeFromBytes_transfer (s t : slice) (ext : list byte)
      (r0 r : MUPType1SessionTransformedRoute) :
  backing t = backing s ++ ext ->
  15 + u8 (t1_PrefixLength r) / 8 <= len t ->
  MUPType1SessionTransformedRoute_DecodeFromBytes s r0 = (r, Ok tt) ->
  MUPType1SessionTransformedRoute_DecodeFromBytes t r0 = (r, Ok tt).
Proof.
  intros HB Ht H.
  destruct (Type1_DecodeFromBytes_success_pre _ _ _ H)
    as (qfi & Hi & Hp & Hq & He & Hv & Hc).
  pose proof (index_len _ _ _ Hi) as Hs.
  pose proof (cap_transfer _ _ _ HB) as Hcap.
  pose proof (u8_div8 (t1_PrefixLength r)) as Dp.
  pose proof (u8_div8 (t1_EndpointAddressLength r)) as De.
  assert (Hi' : index t 8 = Ok (t1_PrefixLength r))
    by (apply (index_transfer s t ext); [exact HB|lia|exact Hi]).
  assert (Hq' : index t (13 + u8 (t1_PrefixLength r) / 8) = Ok qfi)
    by (apply (index_transfer s t ext); [exact HB|lia|exact Hq]).
  assert (He' : index t (14 + u8 (t1_PrefixLength r) / 8)
                = Ok (t1_EndpointAddressLength r))
    by (apply (index_transfer s t ext); [exact HB|lia|exact He]).
  rewrite (Type1_DecodeFromBytes_ok s r0 _ _ _ Hi Hp Hq He Hv Hc) in H.
  rewrite (Type1_DecodeFromBytes_ok t r0 _ _ _ Hi' Hp Hq' He' Hv) by lia.
  rewrite <- H.
  rewrite (GetRD_transfer s t ext HB) by lia.
  rewrite !(sub_transfer s t ext _ _ HB) by lia.
  reflexivity.
Qed.

Lemma sub_backing_elems (s : slice) (lo hi : Z) :
  0 <= lo -> hi <= len s -> sub (backing s) lo hi = sub (elems s) lo hi.
Proof. intros H0 H1. apply sub_prefix; assumption. Qed.

Lemma Interwork_DecodeFromBytes_transfer (s t : slice)
      (r0 r : MUPInterworkSegmentDiscoveryRoute) :
  elems t = elems s ->
  MUPInterworkSegmentDiscoveryRoute_DecodeFromBytes s r0 = (r, Ok tt) ->
  MUPInterworkSegmentDiscoveryRoute_DecodeFromBytes t r0 = (r, Ok tt).
Proof.
  intros HE H.
  destruct (Interwork_DecodeFromBytes_success_pre _ _ _ H) as (pl & Hi & Hc).
  assert (HL : len t = len s) by (unfold len; rewrite HE; reflexivity).
  assert (Hi' : index t 8 = Ok pl) by (unfold index in *; rewrite HL, HE; exact Hi).
  rewrite (Interwork_DecodeFromBytes_ok s r0 pl Hi Hc) in H.
  rewrite (Interwork_DecodeFromBytes_ok t r0 pl Hi') by (rewrite HL; exact Hc).
  rewrite <- H, HL.
  rewrite (GetRD_same_prefix s t) by (rewrite ?HE; solve [reflexivity|lia]).
  destruct Hc as [[L _]|[L _]]; rewrite L; cbn [Z.eqb Pos.eqb]; cbv beta iota;
    rewrite (sub_backing_elems t), (sub_backing_elems s), HE by lia;
    reflexivity.
Qed.

Lemma Direct_DecodeFromBytes_transfer (s t : slice)
      (r0 r : MUPDirectSegmentDiscoveryRoute) :
  elems t = elems s ->
  MUPDirectSegmentDiscoveryRoute_DecodeFromBytes s r0 = (r, Ok tt) ->
  MUPDirectSegmentDiscoveryRoute_DecodeFromBytes t r0 = (r, Ok tt).
Proof.
  intros HE H.
  pose proof (Direct_DecodeFromBytes_success_pre _ _ _ H) as Hc.
  assert (HL : len t = len s) by (unfold len; rewrite HE; reflexivity).
  rewrite (Direct_DecodeFromBytes_ok s r0 Hc) in H.
  rewrite (Direct_DecodeFromBytes_ok t r0) by (rewrite HL; exact Hc).
  rewrite <- H, HL.
  rewrite (GetRD_same_prefix s t) by (rewrite ?HE; solve [reflexivity|lia]).
  destruct Hc as [L|L]; rewrite L; cbn [Z.eqb Pos.eqb]; cbv beta iota;
    rewrite (sub_backing_elems t), (sub_backing_elems s), HE by lia;
    reflexivity.
Qed.

Lemma MUPNLRI_DecodeFromBytes_transfer (at_ h l ln ln' : byte)
      (body sp body' sp' : list byte) (n0 n : MUPNLRI) :
  MUPNLRI_DecodeFromBytes (mkSlice (at_ :: h :: l :: ln :: body) sp) n0 = (n, Ok tt) ->
  u8 ln' <= Z.of_nat (length body') ->
  (forall (d d' : slice) (r1 r : MUPRouteTypeInterface),
      reslice_to (mkSlice body sp) (u8 ln) = Ok d ->
      reslice_to (mkSlice body' sp') (u8 ln') = Ok d' ->
      RouteTypeData n = Some r ->
      route_DecodeFromBytes d r1 = (r, Ok tt) ->
      route_DecodeFromBytes d' r1 = (r, Ok tt)) ->
  MUPNLRI_DecodeFromBytes (mkSlice (at_ :: h :: l :: ln' :: body') sp') n0
  = (set_Length ln' n, Ok tt).
Proof.
  intros H Hl HT. pose proof (u8_range ln') as Hr.
  rewrite MUPNLRI_DecodeFromBytes_header in H |- *.
  mexec H. unfold RouteTypeData_DecodeFromBytes in H |- *.
  cbv beta iota delta [RouteTypeData set_RouteTypeData ArchitectureType RouteType Length]
    in H.
  destruct (route_DecodeFromBytes a0 a) as [r e] eqn:Ed.
  injection H as <- ->.
  replace (Z.of_nat (length body') <? u8 ln') with false
    by (symmetry; apply Z.ltb_ge; lia).
  rewrite ?E, run_lift_Ok, run_modify.
  destruct (reslice_to (mkSlice body' sp') (u8 ln')) as [d'| |] eqn:E';
    [|exfalso; exact (reslice_not_err _ _ _ _ E')
     |unfold reslice_to in E'; rewrite reslice_ok in E';
      [discriminate E'|lia|unfold cap; cbn [elems spare]; rewrite length_app; lia]].
  rewrite run_lift_Ok.
  cbv beta iota delta [RouteTypeData set_RouteTypeData ArchitectureType RouteType Length].
  rewrite (HT a0 d' a r eq_refl eq_refl eq_refl Ed).
  reflexivity.
Qed.

Lemma MUPNLRI_DecodeFromBytes_success_Length (at_ h l ln : byte)
      (body sp : list byte) (n0 n : MUPNLRI) :
  MUPNLRI_DecodeFromBytes (mkSlice (at_ :: h :: l :: ln :: body) sp) n0 = (n, Ok tt) ->
  Length n = ln /\ u8 ln <= Z.of_nat (length body).
Proof.
  intros H. rewrite MUPNLRI_DecodeFromBytes_header in H.
  mexec H. unfold RouteTypeData_DecodeFromBytes in H.
  cbv beta iota delta [RouteTypeData set_RouteTypeData ArchitectureType RouteType Length]
    in H.
  destruct (route_DecodeFromBytes a0 a) as [r e] eqn:Ed.
  injection H as <- ->. norm_tests. split; [reflexivity|assumption].
Qed.

Lemma set_Length_same (n : MUPNLRI) : set_Length (Length n) n = n.
Proof. destruct n. reflexivity. Qed.

Lemma route_DecodeFromBytes_extend (s t : slice) (ext : list byte)
      (r1 r : MUPRouteTypeInterface) :
  elems t = elems s -> spare t = spare s ++ ext ->
  route_DecodeFromBytes s r1 = (r, Ok tt) ->
  route_DecodeFromBytes t r1 = (r, Ok tt).
Proof.
  intros HE HS.
  assert (HB : backing t = backing s ++ ext)
    by (unfold backing; rewrite HE, HS; apply app_assoc).
  assert (HL : len t = len s) by (unfold len; rewrite HE; reflexivity).
  destruct r1 as [x|x|x|x]; cbn [route_DecodeFromBytes].
  - destruct (MUPInterworkSegmentDiscoveryRoute_DecodeFromBytes s x) as [x' e] eqn:E.
    intros H. injection H as <- ->.
    rewrite (Interwork_DecodeFromBytes_transfer s t x x' HE E). reflexivity.
  - destruct (MUPDirectSegmentDiscoveryRoute_DecodeFromBytes s x) as [x' e] eqn:E.
    intros H. injection H as <- ->.
    rewrite (Direct_DecodeFromBytes_transfer s t x x' HE E). reflexivity.
  - destruct (MUPType1SessionTransformedRoute_DecodeFromBytes s x) as [x' e] eqn:E.
    intros H. injection H as <- ->.
    destruct (Type1_DecodeFromBytes_success_pre _ _ _ E) as (_ & _ & _ & _ & He & _).
    pose proof (index_len _ _ _ He) as Hl.
    rewrite (Type1_DecodeFromBytes_transfer s t ext x x' HB ltac:(lia) E). reflexivity.
  - destruct (MUPType2SessionTransformedRoute_DecodeFromBytes s x) as [x' e] eqn:E.
    intros H. injection H as <- ->.
    destruct (Type2_DecodeFromBytes_success_inv _ _ _ E) as (Hi & _).
    pose proof (index_len _ _ _ Hi) as Hl.
    rewrite (Type2_DecodeFromBytes_transfer s t ext x x' HB ltac:(lia) E). reflexivity.
Qed.

Lemma MUPNLRI_DecodeFromBytes_extend (bytes rest sp : list byte) (n0 n : MUPNLRI) :
  MUPNLRI_DecodeFromBytes (fresh bytes) n0 = (n, Ok tt) ->
  MUPNLRI_DecodeFromBytes (mkSlice (bytes ++ rest) sp) n0 = (n, Ok tt).
Proof.
  intros H.
  destruct bytes as [|at_ [|h [|l [|ln body]]]];
    try (unfold MUPNLRI_DecodeFromBytes in H; cbn in H; discriminate).
  unfold fresh in H. cbn [app].
  destruct (MUPNLRI_DecodeFromBytes_success_Length _ _ _ _ _ _ _ _ H) as (HL & Hb).
  pose proof (u8_range ln) as Hr.
  rewrite <- (set_Length_same n). rewrite HL.
  apply (MUPNLRI_DecodeFromBytes_transfer _ _ _ _ _ _ _ _ _ _ _ H).
  - rewrite length_app. lia.
  - intros d d' r1 r Hd Hd' _.
    unfold reslice_to in Hd, Hd'.
    apply reslice_inv in Hd as (_ & _ & ->). apply reslice_inv in Hd' as (_ & _ & ->).
    apply (route_DecodeFromBytes_extend _ _ (rest ++ sp)); cbn [elems spare].
    + rewrite app_nil_r, <- app_assoc. apply sub_prefix; lia.
    + rewrite app_nil_r, <- app_assoc.
      rewrite skipn_app.
      replace (Z.to_nat (u8 ln) - length body)%nat with 0%nat by lia.
      reflexivity.
Qed.

(** X12. Records in a row.  When a byte sequence decodes on its own, the
    same sequence followed by any further octets, in a buffer of any
    capacity, decodes to the same envelope; and when the sequence is as long
    as the envelope's [Len()], stepping over [Len()] octets leaves exactly
    the octets that follow.  So a caller can decode one record after the
    other out of one buffer. *)
Theorem MUPNLRI_DecodeFromBytes_stream (bytes rest sp : list byte) (n0 n : MUPNLRI) :
  MUPNLRI_DecodeFromBytes (fresh bytes) n0 = (n, Ok tt) ->
  MUPNLRI_DecodeFromBytes (mkSlice (bytes ++ rest) sp) n0 = (n, Ok tt)
  /\ (Z.of_nat (length bytes) = MUPNLRI_Len n ->
      reslice_from (mkSlice (bytes ++ rest) sp) (MUPNLRI_Len n)
      = Ok (mkSlice rest sp)).
Proof.
  intros H. split.
  - apply MUPNLRI_DecodeFromBytes_extend. exact H.
  - intros <-. apply reslice_from_app.
Qed.

(** X13. The session transformed decoders read the addresses and the TEID from
    the backing array, not from the slice they are given: of two slices over
    one array, the second decodes to the same route as the first as soon as
    its length covers the last octet that is read by index (the endpoint
    length of Type 1 at 14 + PrefixLength/8, the endpoint length of Type 2 at
    8).  The length the envelope declares is not enforced beyond that. *)
Theorem session_routes_read_past_length (s t : slice) :
  backing t = backing s ->
  (forall r0 r : MUPType1SessionTransformedRoute,
      MUPType1SessionTransformedRoute_DecodeFromBytes s r0 = (r, Ok tt) ->
      15 + u8 (t1_PrefixLength r) / 8 <= len t ->
      MUPType1SessionTransformedRoute_DecodeFromBytes t r0 = (r, Ok tt))
  /\ (forall r0 r : MUPType2SessionTransformedRoute,
         MUPType2SessionTransformedRoute_DecodeFromBytes s r0 = (r, Ok tt) ->
         9 <= len t ->
         MUPType2SessionTransformedRoute_DecodeFromBytes t r0 = (r, Ok tt)).
Proof.
  intros HB.
  assert (HB' : backing t = backing s ++ []) by (rewrite app_nil_r; exact HB).
  split; intros r0 r H Hl.
  - exact (Type1_DecodeFromBytes_transfer s t [] r0 r HB' Hl H).
  - exact (Type2_DecodeFromBytes_transfer s t [] r0 r HB' Hl H).
Qed.

(** ** Round trip of an envelope built without a distinguisher *)

Lemma route_Serialize_zero_rd (r : MUPRouteTypeInterface) (rd0 : RD) :
  route_rd r = None -> RD_Serialize rd0 = Ok (make 8) ->
  route_Serialize (route_set_rd (Some rd0) r) = route_Serialize r.
Proof.
  intros H Hs.
  destruct r as [[rd pl pfx]|[rd a]|[rd pl pfx teid qfi eal ea]|[rd eal ea teid]];
    cbn [route_rd isd_RD dsd_RD t1_RD t2_RD] in H;
    subst rd;
    unfold route_Serialize, route_set_rd,
      MUPInterworkSegmentDiscoveryRoute_Serialize, isd_set_RD,
      MUPDirectSegmentDiscoveryRoute_Serialize, dsd_set_RD,
      MUPType1SessionTransformedRoute_Serialize, t1_set_RD,
      MUPType2SessionTransformedRoute_Serialize, t2_set_RD;
    cbn [isd_RD dsd_RD t1_RD t2_RD isd_PrefixLength isd_Prefix dsd_Address
         t1_PrefixLength t1_Prefix t1_TEID t1_QFI t1_EndpointAddressLength
         t1_EndpointAddress t2_EndpointAddressLength t2_EndpointAddress t2_TEID];
    rewrite Hs; reflexivity.
Qed.

Lemma built_Some_roundtrip (rd : RD) (v : MUPNLRI) :
  built (Some rd) v ->
  exists bytes : list byte,
    MUPNLRI_Serialize v = Ok bytes
    /\ forall n0 : MUPNLRI, MUPNLRI_DecodeFromBytes (fresh bytes) n0 = (v, Ok tt).
Proof.
  intros Hv. destruct Hv as [p Hp|a Ha|p teid qfi ea Hp He Ht|ea teid He Ht].
  - destruct (Interwork_roundtrip rd p Hp) as (tbuf & Hs & Hl & Hd).
    apply (constructed_roundtrip _ _ _ (InterworkRoute zeroInterwork) tbuf);
      try reflexivity; try assumption.
    + cbv; split; [discriminate|reflexivity].
    + cbn [route_Len]. unfold MUPInterworkSegmentDiscoveryRoute_Len.
      cbn [isd_Prefix]. pose proof (BitLen_div8 (netip.Addr_ p)). lia.
    + cbn [route_DecodeFromBytes]. rewrite Hd. reflexivity.
  - destruct (Direct_roundtrip rd a Ha) as (tbuf & Hs & Hl & Hd).
    apply (constructed_roundtrip _ _ _ (DirectRoute zeroDirect) tbuf);
      try reflexivity; try assumption.
    + cbv; split; [discriminate|reflexivity].
    + cbn [route_Len]. unfold MUPDirectSegmentDiscoveryRoute_Len.
      cbn [dsd_Address]. pose proof (BitLen_div8 a). lia.
    + cbn [route_DecodeFromBytes]. rewrite Hd. reflexivity.
  - destruct (Type1_roundtrip rd p teid qfi ea Hp He Ht) as (tbuf & Hs & Hl & Hd).
    apply (constructed_roundtrip _ _ _ (Type1Route zeroType1) tbuf);
      try reflexivity; try assumption.
    + cbv; split; [discriminate|reflexivity].
    + cbn [route_Len]. unfold MUPType1SessionTransformedRoute_Len.
      cbn [t1_PrefixLength t1_EndpointAddressLength].
      pose proof (u8_div8 (byte_of_Z (netip.BitLen p))).
      pose proof (u8_div8 (byte_of_Z (netip.BitLen ea))). lia.
    + cbn [route_DecodeFromBytes]. rewrite Hd. reflexivity.
  - destruct (Type2_roundtrip rd ea teid He Ht) as (tbuf & Hs & Hl & Hd).
    apply (constructed_roundtrip _ _ _ (Type2Route zeroType2) tbuf);
      try reflexivity; try assumption.
    + cbv; split; [discriminate|reflexivity].
    + cbn [route_Len]. unfold MUPType2SessionTransformedRoute_Len.
      cbn [t2_EndpointAddressLength].
      pose proof (u8_div8 (byte_of_Z (u8 (byte_of_Z (netip.BitLen ea)) + 32))). lia.
    + cbn [route_DecodeFromBytes]. rewrite Hd. reflexivity.
Qed.

Lemma built_set_rd (ro : option RD) (rd0 : RD) (v : MUPNLRI) :
  built ro v -> built (Some rd0) (MUPNLRI_set_rd (Some rd0) v).
Proof.
  intros Hv. destruct Hv as [p Hp|a Ha|p teid qfi ea Hp He Ht|ea teid He Ht].
  - exact (built_isd (Some rd0) p Hp).
  - exact (built_dsd (Some rd0) a Ha).
  - exact (built_t1 (Some rd0) p teid qfi ea Hp He Ht).
  - exact (built_t2 (Some rd0) ea teid He Ht).
Qed.

Lemma MUPNLRI_Serialize_zero_rd (v : MUPNLRI) (rd0 : RD) :
  built None v -> RD_Serialize rd0 = Ok (make 8) ->
  MUPNLRI_Serialize (MUPNLRI_set_rd (Some rd0) v) = MUPNLRI_Serialize v.
Proof.
  intros Hv Hs.
  destruct Hv; unfold MUPNLRI_Serialize, MUPNLRI_set_rd;
    cbn [RouteTypeData ArchitectureType RouteType Length option_map
         NewMUPInterworkSegmentDiscoveryRoute NewMUPDirectSegmentDiscoveryRoute
         NewMUPType1SessionTransformedRoute NewMUPType2SessionTransformedRoute
         NewMUPNLRI];
    rewrite route_Serialize_zero_rd by (reflexivity || exact Hs); reflexivity.
Qed.

(** X14. An envelope that a constructor builds with a nil distinguisher does
    not come back as it was: its encoding decodes, also with further octets
    behind it, to the same envelope holding the distinguisher that is written
    as eight zero octets. *)
Theorem MUPNLRI_roundtrip_nil_RD (v : MUPNLRI) :
  built None v ->
  exists (bytes : list byte) (rd0 : RD),
    MUPNLRI_Serialize v = Ok bytes
    /\ RD_Serialize rd0 = Ok (make 8)
    /\ forall (rest sp : list byte) (n0 : MUPNLRI),
        MUPNLRI_DecodeFromBytes (mkSlice (bytes ++ rest) sp) n0
        = (MUPNLRI_set_rd (Some rd0) v, Ok tt).
Proof.
  intros Hv.
  set (rd0 := @GetRouteDistinguisher RDI (fresh (make 8))).
  assert (Hs0 : RD_Serialize rd0 = Ok (make 8))
    by (apply (@RD_Serialize_Get RDI CD (fresh (make 8))); cbn; lia).
  destruct (built_Some_roundtrip rd0 _ (built_set_rd None rd0 v Hv))
    as (bytes & Hs & Hd).
  exists bytes, rd0. split; [|split; [exact Hs0|]].
  - rewrite <- Hs. symmetry. apply MUPNLRI_Serialize_zero_rd; assumption.
  - intros rest sp n0. apply MUPNLRI_DecodeFromBytes_extend. apply Hd.
Qed.

(** ** The text form of the extended community *)

Lemma no_colon_uint (d : Decimal.uint) : no_colon (NilEmpty.string_of_uint d).
Proof.
  induction d; cbn [NilEmpty.string_of_uint no_colon];
    try exact I; (split; [discriminate|assumption]).
Qed.

Lemma no_colon_d (v : Z) : no_colon (fmt.d v).
Proof.
  unfold fmt.d, NilZero.string_of_int, NilZero.string_of_uint.
  destruct (Z.to_int v) as [d|d]; destruct d;
    cbn [no_colon]; repeat split; try discriminate;
    try apply (no_colon_uint d).
Qed.

Lemma split_at_colon (s1 s2 t1 t2 : string) :
  no_colon s1 -> no_colon s2 ->
  (s1 ++ ":" ++ t1 = s2 ++ ":" ++ t2)%string -> s1 = s2 /\ t1 = t2.
Proof.
  revert s2. induction s1 as [|c s1 IH]; intros [|c2 s2] N1 N2 H;
    cbn [append no_colon] in *.
  - injection H as <-. split; reflexivity.
  - injection H as <- _. destruct N2 as [N2 _]. contradiction.
  - injection H as -> _. destruct N1 as [N1 _]. contradiction.
  - injection H as <- H. destruct N1 as [_ N1], N2 as [_ N2].
    destruct (IH s2 N1 N2 H) as [-> ->]. split; reflexivity.
Qed.

Lemma d_inj (v w : Z) : fmt.d v = fmt.d w -> v = w.
Proof.
  unfold fmt.d. intros H.
  assert (NN : forall z, Z.to_int z <> Decimal.Pos Decimal.Nil
                         /\ Z.to_int z <> Decimal.Neg Decimal.Nil).
  { intros [|p|p]; cbn [Z.to_int]; split; try discriminate;
      intros E; injection E as E; exact (Unsigned.to_uint_nonnil p E). }
  apply (f_equal NilZero.int_of_string) in H.
  rewrite !NilZero.isi in H by apply NN.
  injection H as H. apply (f_equal Z.of_int) in H.
  rewrite !DecimalZ.of_to in H. exact H.
Qed.

(** X15. The text form tells two extended communities apart whenever their
    segment identifiers differ: equal texts mean equal identifiers. *)
Theorem MUPExtended_String_inj (e1 e2 : MUPExtended) :
  MUPExtended_String e1 = MUPExtended_String e2 ->
  SegmentID2 e1 = SegmentID2 e2 /\ SegmentID4 e1 = SegmentID4 e2.
Proof.
  unfold MUPExtended_String. intros H.
  apply split_at_colon in H as [H2 H4]; try apply no_colon_d.
  split; apply d_inj; assumption.
Qed.

End Properties.

(** * The 8-octet distinguisher meets the contract *)

Lemma RD8_len8 : RouteDistinguisherLen8 RD8.rdi.
Proof. intros rd. reflexivity. Qed.

Lemma RD8_codec : RouteDistinguisherCodec RD8.rdi.
Proof.
  split.
  - intros rd. exists (RD8.octets rd). split; reflexivity.
  - intros [el sp] H. cbn [elems] in *.
    destruct el as [|a0 [|a1 [|a2 [|a3 [|a4 [|a5 [|a6 [|a7 rest]]]]]]]];
      cbn [length] in H; try lia.
    reflexivity.
  - intros [a0 a1 a2 a3 a4 a5 a6 a7] bs [el sp] H E. cbn [elems] in *.
    cbn in H. injection H as <-.
    destruct el as [|b0 [|b1 [|b2 [|b3 [|b4 [|b5 [|b6 [|b7 rest]]]]]]]];
      try discriminate.
    cbn in E. injection E as -> -> -> -> -> -> -> ->. reflexivity.
Qed.

Import Examples.

(** * Worked instances *)

(** C9 at the octets of the community 100:200000. *)
Lemma parseMUPExtended_spec_witness :
  elems (fresh ec_octets) = [x0c; x00; x00; x64; x00; x03; x0d; x40]
  /\ parseMUPExtended (fresh ec_octets)
     = Ok {| SubType := x00; SegmentID2 := 100; SegmentID4 := 200000 |}.
Proof.
  split; [reflexivity|].
  exact (proj2 (proj2 (proj2
           (@parseMUPExtended_spec consts (fresh ec_octets)
              x0c x00 x00 x64 x00 x03 x0d x40 [] eq_refl)))
           eq_refl eq_refl).
Defined.

(** C10 at a Direct Segment Discovery route without distinguisher. *)
Lemma route_Serialize_nil_RD_witness :
  route_rd dsd_nil = None
  /\ exists fields : list byte,
      route_Serialize dsd_nil
      = Ok ([x00; x00; x00; x00; x00; x00; x00; x00] ++ fields)
      /\ forall (d : RD8.t) (bs : list byte),
          RD_Serialize d = Ok bs ->
          route_Serialize (route_set_rd (Some d) dsd_nil) = Ok (bs ++ fields).
Proof.
  split; [reflexivity|].
  exact (@route_Serialize_nil_RD RD8.rdi dsd_nil eq_refl).
Defined.

(** C7 at a 12-octet body: distinguisher and 10.0.0.1. *)
Lemma MUPDirectSegmentDiscoveryRoute_DecodeFromBytes_length_witness :
  snd (MUPDirectSegmentDiscoveryRoute_DecodeFromBytes (fresh dsd_body) zeroDirect) = Ok tt
  /\ dsd_Address (fst (MUPDirectSegmentDiscoveryRoute_DecodeFromBytes
                         (fresh dsd_body) zeroDirect))
     = addr_10_0_0_1
  /\ MUPDirectSegmentDiscoveryRoute_AFI
       (fst (MUPDirectSegmentDiscoveryRoute_DecodeFromBytes (fresh dsd_body) zeroDirect))
     = AFI_IP.
Proof.
  exact (proj1 (proj2 (proj2
           (@MUPDirectSegmentDiscoveryRoute_DecodeFromBytes_length
              consts RD8.rdi RD8_len8 (fresh dsd_body) zeroDirect)))
           eq_refl).
Defined.

(** C1 at the spec's own body with the distinguisher 0:1:2. *)
Lemma MUPType2SessionTransformedRoute_DecodeFromBytes_48_panics_witness :
  length rd_octets = 8%nat
  /\ snd (MUPType2SessionTransformedRoute_DecodeFromBytes (fresh t2_body_48) zeroType2)
     = Panic.
Proof.
  split; [reflexivity|].
  exact (proj1 (@MUPType2SessionTransformedRoute_DecodeFromBytes_48_panics
                  RD8.rdi RD8_len8 rd_octets zeroType2 eq_refl)).
Defined.

(** C6 at a body with two 32-bit lengths. *)
Lemma MUPType1SessionTransformedRoute_DecodeFromBytes_lengths_witness :
  index (fresh t1_body) 8 = Ok x20
  /\ MUPType1SessionTransformedRoute_DecodeFromBytes (fresh t1_body) zeroType1
     = (mkType1 (Some rd) x20 addr_10_0_0_1 77 x09 x20 addr_10_0_0_2, Ok tt).
Proof.
  split; [reflexivity|].
  refine (proj2 (proj2
            (@MUPType1SessionTransformedRoute_DecodeFromBytes_lengths
               RD8.rdi RD8_len8 (fresh t1_body) zeroType1 x20 eq_refl))
            x09 x20 _ eq_refl eq_refl _ _).
  - left. reflexivity.
  - left. reflexivity.
  - vm_compute. discriminate.
Defined.

(** C4 at the first 9 octets of a 16-octet envelope. *)
Lemma MUPNLRI_DecodeFromBytes_truncated_witness :
  RouteTypeData dsd = Some (DirectRoute (mkDirect (Some rd) addr_10_0_0_1))
  /\ route_Serialize (DirectRoute (mkDirect (Some rd) addr_10_0_0_1)) = Ok dsd_body
  /\ u8 (Length dsd) = Z.of_nat (length dsd_body)
  /\ MUPNLRI_Serialize dsd = Ok dsd_octets
  /\ dsd_octets = firstn 9 dsd_octets ++ skipn 9 dsd_octets
  /\ snd (MUPNLRI_DecodeFromBytes (fresh (firstn 9 dsd_octets)) zeroNLRI)
     = Err (MalformedAttribute "Not all MUPNLRI Route type bytes available").
Proof.
  repeat (split; [reflexivity|]).
  refine (@MUPNLRI_DecodeFromBytes_truncated RD8.rdi dsd
            (DirectRoute (mkDirect (Some rd) addr_10_0_0_1)) dsd_body dsd_octets
            (firstn 9 dsd_octets) (skipn 9 dsd_octets) [] zeroNLRI
            eq_refl eq_refl eq_refl eq_refl eq_refl _ _); discriminate.
Defined.

(** C2 at the envelope with the stale length field. *)
Lemma MUPNLRI_Serialize_length_octet_witness :
  RouteTypeData stale_envelope = Some dsd_nil
  /\ route_Serialize dsd_nil
     = Ok [x00; x00; x00; x00; x00; x00; x00; x00; x0a; x00; x00; x01]
  /\ MUPNLRI_Serialize stale_envelope
     = Ok [x01; x00; x02; x00;
           x00; x00; x00; x00; x00; x00; x00; x00; x0a; x00; x00; x01].
Proof.
  repeat (split; [reflexivity|]).
  exact (proj1 (@MUPNLRI_Serialize_length_octet RD8.rdi stale_envelope dsd_nil _
                  eq_refl eq_refl)).
Defined.

(** C3 at a constructed Direct Segment Discovery envelope. *)
Lemma MUPNLRI_roundtrip_witness :
  constructed dsd
  /\ exists bytes : list byte,
      MUPNLRI_Serialize dsd = Ok bytes
      /\ forall n0 : MUPNLRI, MUPNLRI_DecodeFromBytes (fresh bytes) n0 = (dsd, Ok tt).
Proof.
  pose (C := constructed_dsd rd addr_10_0_0_1 eq_refl : constructed dsd).
  split; [exact C|].
  exact (proj1 (@MUPNLRI_roundtrip RD8.rdi RD8_len8 RD8_codec) dsd C).
Defined.

(** * Where the spec and the code part *)

(** C2 as stated fails.  Two envelopes hold the same body and differ in the
    stored length only; their encodings differ, in octet 3, and the one with
    the stale field emits length 0 before a 12-octet body. *)
Lemma MUPNLRI_Serialize_stale_length_counterexample :
  RouteTypeData stale_envelope = RouteTypeData exact_envelope
  /\ ArchitectureType stale_envelope = ArchitectureType exact_envelope
  /\ RouteType stale_envelope = RouteType exact_envelope
  /\ MUPNLRI_Serialize stale_envelope <> MUPNLRI_Serialize exact_envelope
  /\ MUPNLRI_Serialize stale_envelope
     = Ok ([x01; x00; x02; x00]
             ++ [x00; x00; x00; x00; x00; x00; x00; x00; x0a; x00; x00; x01])
  /\ route_Len dsd_nil = 12.
Proof.
  repeat split; try reflexivity. vm_compute. discriminate.
Qed.

(** C3 as stated fails in its second half.  A sequence with one octet after
    the envelope decodes, and so does an envelope whose declared body is
    longer than the Type 1 route in it; encoding what was decoded gives
    neither sequence back. *)
Lemma MUPNLRI_roundtrip_counterexample :
  (snd (MUPNLRI_DecodeFromBytes (fresh (dsd_octets ++ [x00])) zeroNLRI) = Ok tt
   /\ MUPNLRI_Serialize
        (fst (MUPNLRI_DecodeFromBytes (fresh (dsd_octets ++ [x00])) zeroNLRI))
      <> Ok (dsd_octets ++ [x00]))
  /\ (snd (MUPNLRI_DecodeFromBytes (fresh t1_padded) zeroNLRI) = Ok tt
      /\ MUPNLRI_Serialize (fst (MUPNLRI_DecodeFromBytes (fresh t1_padded) zeroNLRI))
         <> Ok t1_padded).
Proof.
  repeat split; try reflexivity; vm_compute; discriminate.
Qed.

(** * Worked instances of the further properties *)

(** X2 at the octets of the community 100:200000. *)
Lemma MUPExtended_Serialize_parse_witness :
  parseMUPExtended (fresh ec_octets)
  = Ok {| SubType := x00; SegmentID2 := 100; SegmentID4 := 200000 |}
  /\ 8 <= cap (fresh ec_octets)
  /\ MUPExtended_Serialize {| SubType := x00; SegmentID2 := 100; SegmentID4 := 200000 |}
     = Ok (sub (backing (fresh ec_octets)) 0 8).
Proof.
  split; [reflexivity|].
  exact (@MUPExtended_Serialize_parse consts (fresh ec_octets) _ eq_refl).
Defined.

(** X4 at the Direct Segment Discovery envelope of 10.0.0.1. *)
Lemma constructors_Length_exact_witness :
  Addr_wf addr_10_0_0_1 /\ Length_exact dsd.
Proof.
  split; [reflexivity|].
  exact (proj1 (proj2 (@constructors_Length_exact RD8.rdi RD8_codec (Some rd)))
           addr_10_0_0_1 eq_refl).
Defined.

(** X5 at a Type 1 route with two IPv4 addresses. *)
Lemma session_routes_Len_vs_Serialize_witness :
  MUPType1SessionTransformedRoute_Serialize t1_route = Ok t1_body
  /\ Z.of_nat (length t1_body) = MUPType1SessionTransformedRoute_Len t1_route.
Proof.
  split; [reflexivity|].
  exact (proj2 (proj2 (proj1 (@session_routes_Len_vs_Serialize RD8.rdi RD8_codec)
                         t1_route t1_body eq_refl))
           eq_refl).
Defined.

(** X6 at a body that is a distinguisher and nothing else. *)
Lemma DecodeFromBytes_eight_octets_witness :
  len (fresh rd_octets) = 8
  /\ snd (MUPInterworkSegmentDiscoveryRoute_DecodeFromBytes (fresh rd_octets) zeroInterwork)
     = Panic
  /\ snd (MUPType1SessionTransformedRoute_DecodeFromBytes (fresh rd_octets) zeroType1)
     = Panic
  /\ snd (MUPType2SessionTransformedRoute_DecodeFromBytes (fresh rd_octets) zeroType2)
     = Panic.
Proof.
  split; [reflexivity|].
  exact (proj2 (@DecodeFromBytes_eight_octets RD8.rdi RD8_len8 (fresh rd_octets)
                  zeroInterwork zeroType1 zeroType2)
           eq_refl).
Defined.

(** X7 at the body of 10.0.0.0/24. *)
Lemma MUPInterworkSegmentDiscoveryRoute_DecodeFromBytes_outcomes_witness :
  index (fresh isd_body) 8 = Ok x18
  /\ MUPInterworkSegmentDiscoveryRoute_DecodeFromBytes (fresh isd_body) zeroInterwork
     = (mkInterwork (Some rd) x18
                    (netip.mkPrefix (netip.V4 [x0a; x00; x00; x00]) 24),
        Ok tt).
Proof.
  split; [reflexivity|].
  refine (proj2 (proj2 (@MUPInterworkSegmentDiscoveryRoute_DecodeFromBytes_outcomes
                          RD8.rdi RD8_len8 (fresh isd_body) zeroInterwork x18 eq_refl))
            _).
  left. split; [reflexivity|]. vm_compute. discriminate.
Defined.

(** X8 at a body that declares 64 bits and holds 17 octets. *)
Lemma MUPType2SessionTransformedRoute_DecodeFromBytes_outcomes_witness :
  index (fresh t2_body) 8 = Ok x40
  /\ snd (MUPType2SessionTransformedRoute_DecodeFromBytes (fresh t2_body) zeroType2)
     = Ok tt.
Proof.
  split; [reflexivity|].
  refine (proj2 (proj2 (@MUPType2SessionTransformedRoute_DecodeFromBytes_outcomes
                          RD8.rdi RD8_len8 (fresh t2_body) zeroType2 x40 eq_refl))
            _).
  left. split; [reflexivity|]. vm_compute. discriminate.
Defined.

(** X9 at the same Type 2 body. *)
Lemma decoded_route_AFI_witness :
  MUPType2SessionTransformedRoute_DecodeFromBytes (fresh t2_body) zeroType2
  = (t2_route, Ok tt)
  /\ index (fresh t2_body) 8 = Ok (t2_EndpointAddressLength t2_route)
  /\ ((u8 (t2_EndpointAddressLength t2_route) = 64
       /\ MUPType2SessionTransformedRoute_AFI t2_route = AFI_IP)
      \/ (u8 (t2_EndpointAddressLength t2_route) = 160
          /\ MUPType2SessionTransformedRoute_AFI t2_route = AFI_IP6)).
Proof.
  split; [reflexivity|].
  exact (proj2 (proj2 (@decoded_route_AFI consts RD8.rdi RD8_len8 (fresh t2_body)))
           zeroType2 t2_route eq_refl).
Defined.

(** X11 at the encoding of a Direct Segment Discovery envelope. *)
Lemma MUPNLRI_DecodeFromBytes_success_witness :
  MUPNLRI_DecodeFromBytes (fresh dsd_octets) zeroNLRI = (dsd, Ok tt)
  /\ index (fresh dsd_octets) 0 = Ok (ArchitectureType dsd)
  /\ index (fresh dsd_octets) 3 = Ok (Length dsd)
  /\ registered (ArchitectureType dsd) (RouteType dsd)
  /\ MUPNLRI_Len dsd <= len (fresh dsd_octets)
  /\ exists r : MUPRouteTypeInterface,
      RouteTypeData dsd = Some r /\ route_type_of r = RouteType dsd.
Proof.
  split; [reflexivity|].
  exact (@MUPNLRI_DecodeFromBytes_success RD8.rdi (fresh dsd_octets) zeroNLRI dsd eq_refl).
Defined.

(** X12 at two Direct Segment Discovery records in a row. *)
Lemma MUPNLRI_DecodeFromBytes_stream_witness :
  MUPNLRI_DecodeFromBytes (fresh dsd_octets) zeroNLRI = (dsd, Ok tt)
  /\ Z.of_nat (length dsd_octets) = MUPNLRI_Len dsd
  /\ MUPNLRI_DecodeFromBytes (mkSlice (dsd_octets ++ dsd_octets) []) zeroNLRI
     = (dsd, Ok tt)
  /\ reslice_from (mkSlice (dsd_octets ++ dsd_octets) []) (MUPNLRI_Len dsd)
     = Ok (mkSlice dsd_octets []).
Proof.
  split; [reflexivity|]. split; [reflexivity|].
  pose (W := @MUPNLRI_DecodeFromBytes_stream RD8.rdi RD8_len8 RD8_codec
               dsd_octets dsd_octets [] zeroNLRI dsd eq_refl).
  exact (conj (proj1 W) (proj2 W eq_refl)).
Defined.

(** X13 at a Type 2 body cut to the 9 octets a short length field declares. *)
Lemma session_routes_read_past_length_witness :
  backing (mkSlice (firstn 9 t2_body) (skipn 9 t2_body)) = backing (fresh t2_body)
  /\ MUPType2SessionTransformedRoute_DecodeFromBytes (fresh t2_body) zeroType2
     = (t2_route, Ok tt)
  /\ 9 <= len (mkSlice (firstn 9 t2_body) (skipn 9 t2_body))
  /\ MUPType2SessionTransformedRoute_DecodeFromBytes
       (mkSlice (firstn 9 t2_body) (skipn 9 t2_body)) zeroType2
     = (t2_route, Ok tt).
Proof.
  split; [reflexivity|]. split; [reflexivity|].
  assert (L : 9 <= len (mkSlice (firstn 9 t2_body) (skipn 9 t2_body)))
    by (vm_compute; discriminate).
  split; [exact L|].
  exact (proj2 (@session_routes_read_past_length RD8.rdi RD8_len8 RD8_codec
                  (fresh t2_body) (mkSlice (firstn 9 t2_body) (skipn 9 t2_body))
                  eq_refl)
           zeroType2 t2_route eq_refl L).
Defined.

(** X14 at the Direct Segment Discovery envelope of 10.0.0.1. *)
Lemma MUPNLRI_roundtrip_nil_RD_witness :
  built None dsd_built_nil
  /\ exists (bytes : list byte) (rd0 : RD8.t),
      MUPNLRI_Serialize dsd_built_nil = Ok bytes
      /\ RD_Serialize rd0 = Ok (make 8)
      /\ forall (rest sp : list byte) (n0 : MUPNLRI),
          MUPNLRI_DecodeFromBytes (mkSlice (bytes ++ rest) sp) n0
          = (MUPNLRI_set_rd (Some rd0) dsd_built_nil, Ok tt).
Proof.
  pose (B := built_dsd None addr_10_0_0_1 eq_refl : built None dsd_built_nil).
  split; [exact B|].
  exact (@MUPNLRI_roundtrip_nil_RD RD8.rdi RD8_len8 RD8_codec dsd_built_nil B).
Defined.

(** X15 at two records that differ in the sub-type field only. *)
Lemma MUPExtended_String_inj_witness :
  MUPExtended_String (mkMUPExtended x00 100 200000)
  = MUPExtended_String (mkMUPExtended x01 100 200000)
  /\ SegmentID2 (mkMUPExtended x00 100 200000) = SegmentID2 (mkMUPExtended x01 100 200000)
  /\ SegmentID4 (mkMUPExtended x00 100 200000) = SegmentID4 (mkMUPExtended x01 100 200000).
Proof.
  split; [reflexivity|].
  exact (MUPExtended_String_inj (mkMUPExtended x00 100 200000)
           (mkMUPExtended x01 100 200000) eq_refl).
Defined.
